(** * APKLab web front end: orchestration pipeline

    A shallow embedding of [apklab-gradio-app.py]: the [APKProcessor]
    methods and the two pipelines [process_apk] and
    [rebuild_and_sign_apk].  Python strings are [string], paths are lists
    of components below the root, the file system is a tree, and the
    stateful code runs in a state-and-exception monad over a [World]
    (file system, trace of external interactions, uuid counter).  The
    external collaborators (sub-processes, the HTTP server, [uuid.uuid4])
    are oracles taken as section variables. *)

From Stdlib Require Import String Ascii List Bool Arith ZArith QArith Lia.
Import ListNotations.
Local Open Scope string_scope.
Local Open Scope list_scope.

(** String concatenation is written [+++]; [++] is kept for lists. *)
Infix "+++" := String.append (right associativity, at level 60).

Set Implicit Arguments.
Set Warnings "-register-all".

(** ** Python strings *)

Module PyStr.

Definition nl : string := String (ascii_of_nat 10) "".

(** [s.startswith(p)] *)
Fixpoint startswith (p s : string) : bool :=
  match p, s with
  | EmptyString, _ => true
  | String a p', String b s' => Ascii.eqb a b && startswith p' s'
  | String _ _, EmptyString => false
  end.

(** [needle in s] *)
Fixpoint contains (needle s : string) : bool :=
  startswith needle s ||
  match s with
  | EmptyString => false
  | String _ s' => contains needle s'
  end.

(** [s.endswith(p)]: [p] is [s] or ends the tail of [s] *)
Fixpoint endswith (p s : string) : bool :=
  String.eqb p s ||
  match s with
  | EmptyString => false
  | String _ s' => endswith p s'
  end.

(** [s.replace(old, new)] for a non-empty [old]: occurrences are found
    left to right and do not overlap.  [skip] counts the characters of
    the current occurrence that are still to be dropped. *)
Fixpoint replace_from (old new : string) (skip : nat) (s : string) : string :=
  match s with
  | EmptyString => EmptyString
  | String c s' =>
      match skip with
      | S k => replace_from old new k s'
      | O =>
          if startswith old s
          then new +++ replace_from old new (String.length old - 1) s'
          else String c (replace_from old new 0 s')
      end
  end.

Definition replace (old new s : string) : string := replace_from old new 0 s.

(** [s.split(sep)] for a one-character separator: the list of the
    fields, never empty. *)
Fixpoint split (sep : ascii) (s : string) : list string :=
  match s with
  | EmptyString => [EmptyString]
  | String c s' =>
      if Ascii.eqb c sep then EmptyString :: split sep s'
      else match split sep s' with
           | f :: fs => String c f :: fs
           | [] => [String c EmptyString]
           end
  end.

(** [sep.join(l)] *)
Definition join (sep : string) (l : list string) : string := String.concat sep l.

(** [s.rfind(".")]: the index of the last dot, if any *)
Fixpoint rfind_dot (s : string) : option nat :=
  match s with
  | EmptyString => None
  | String c s' =>
      match rfind_dot s' with
      | Some i => Some (S i)
      | None => if Ascii.eqb c "." then Some O else None
      end
  end.

(** truthiness of an optional string: [None] and [""] are falsy *)
Definition truthy (s : option string) : bool :=
  match s with
  | Some (String _ _) => true
  | _ => false
  end.

(** [x in l] for a list of strings *)
Definition mem (x : string) (l : list string) : bool :=
  existsb (String.eqb x) l.

End PyStr.

(** ** Paths

    A path is the list of its components below the root; every path of
    the program is absolute ([BASE_DIR] is resolved).  [p / name] with a
    one-component [name] is [p ++ [name]]. *)

Definition path := list string.

Module PyPath.

(** [str(p)] *)
Definition str (p : path) : string := "/" +++ PyStr.join "/" p.

(** [Path(s)]: empty and [.] components are dropped *)
Definition Path (s : string) : path :=
  filter (fun c => negb (String.eqb c "") && negb (String.eqb c "."))
         (PyStr.split "/" s).

(** [p.name] *)
Definition name (p : path) : string := last p "".

(** [PurePath.stem]: the name without its last suffix; a leading or a
    trailing dot starts no suffix. *)
Definition stem (p : path) : string :=
  let n := name p in
  match PyStr.rfind_dot n with
  | Some i =>
      if (0 <? i)%nat && (i <? String.length n - 1)%nat
      then substring 0 i n else n
  | None => n
  end.

(** [os.path.commonprefix] on two lists of components *)
Fixpoint commonprefix (a b : path) : path :=
  match a, b with
  | x :: a', y :: b' => if String.eqb x y then x :: commonprefix a' b' else []
  | _, _ => []
  end.

(** [os.path.relpath(p, start)] for absolute, normalised arguments *)
Definition relpath (p start : path) : string :=
  let i := length (commonprefix start p) in
  let rel_list := repeat ".." (length start - i) ++ skipn i p in
  match rel_list with
  | [] => "."
  | _ => PyStr.join "/" rel_list
  end.

End PyPath.

(** ** The file system

    A file holds raw bytes or a ZIP archive, given by its members in the
    order they were written (the container format and DEFLATE belong to
    the [zipfile] library).  A directory holds its entries by name. *)

Inductive content :=
| Raw (bytes : string)
| Archive (members : list (string * content)).

Inductive node :=
| File (c : content)
| Dir (entries : list (string * node)).

Inductive oserror :=
| ENOENT    (* FileNotFoundError *)
| EEXIST    (* FileExistsError *)
| ENOTDIR   (* NotADirectoryError *)
| EISDIR    (* IsADirectoryError *)
| EBUSY.    (* the root cannot be removed or replaced *)

Inductive exn :=
| GrError (message : string)           (* gradio.Error *)
| OSError (e : oserror)
| ShutilError                          (* shutil.Error *)
| BadZipFile
| UnicodeDecodeError
| ZeroDivisionError
| RequestException (message : string).

(** The outcome of a call: a value or a raised exception. *)
Inductive outcome (A : Type) :=
| Ret (a : A)
| Raise (e : exn).
Arguments Ret {A} a.
Arguments Raise {A} e.

Module FS.

Fixpoint assoc {A} (k : string) (l : list (string * A)) : option A :=
  match l with
  | [] => None
  | (k', v) :: l' => if String.eqb k k' then Some v else assoc k l'
  end.

(** Rebind [k] where it stands, or add it at the end. *)
Fixpoint set_entry {A} (k : string) (v : A) (l : list (string * A)) : list (string * A) :=
  match l with
  | [] => [(k, v)]
  | (k', v') :: l' =>
      if String.eqb k k' then (k, v) :: l' else (k', v') :: set_entry k v l'
  end.

(** Unbind [k]. *)
Fixpoint remove_entry {A} (k : string) (l : list (string * A)) : list (string * A) :=
  match l with
  | [] => []
  | (k', v') :: l' =>
      if String.eqb k k' then remove_entry k l' else (k', v') :: remove_entry k l'
  end.

Fixpoint lookup (p : path) (n : node) : option node :=
  match p with
  | [] => Some n
  | k :: p' =>
      match n with
      | Dir es => match assoc k es with
                  | Some c => lookup p' c
                  | None => None
                  end
      | File _ => None
      end
  end.

(** [os.path.exists], [os.path.isdir] *)
Definition exists_ (p : path) (n : node) : bool :=
  match lookup p n with Some _ => true | None => false end.

Definition isdir (p : path) (n : node) : bool :=
  match lookup p n with Some (Dir _) => true | _ => false end.

(** A chain of fresh directories. *)
Fixpoint mkchain (p : path) : node :=
  match p with
  | [] => Dir []
  | k :: p' => Dir [(k, mkchain p')]
  end.

(** [os.makedirs(p, exist_ok=exist_ok)]: a file on the way is
    [NotADirectoryError], a file at [p] is [FileExistsError], a directory
    at [p] is accepted only with [exist_ok]. *)
Fixpoint makedirs (exist_ok : bool) (p : path) (n : node) : oserror + node :=
  match n with
  | File _ => inl (match p with [] => EEXIST | _ :: _ => ENOTDIR end)
  | Dir es =>
      match p with
      | [] => if exist_ok then inr n else inl EEXIST
      | k :: p' =>
          match assoc k es with
          | Some c =>
              match makedirs exist_ok p' c with
              | inr c' => inr (Dir (set_entry k c' es))
              | inl e => inl e
              end
          | None => inr (Dir (set_entry k (mkchain p') es))
          end
      end
  end.

(** Bind [p] to [v]; the parent of [p] has to be a directory. *)
Fixpoint put (p : path) (v : node) (n : node) : oserror + node :=
  match p with
  | [] => inl EBUSY
  | [k] =>
      match n with
      | Dir es => inr (Dir (set_entry k v es))
      | File _ => inl ENOTDIR
      end
  | k :: p' =>
      match n with
      | Dir es =>
          match assoc k es with
          | Some c =>
              match put p' v c with
              | inr c' => inr (Dir (set_entry k c' es))
              | inl e => inl e
              end
          | None => inl ENOENT
          end
      | File _ => inl ENOTDIR
      end
  end.

(** Unbind [p], which has to exist. *)
Fixpoint del (p : path) (n : node) : oserror + node :=
  match p with
  | [] => inl EBUSY
  | [k] =>
      match n with
      | Dir es =>
          match assoc k es with
          | Some _ => inr (Dir (remove_entry k es))
          | None => inl ENOENT
          end
      | File _ => inl ENOTDIR
      end
  | k :: p' =>
      match n with
      | Dir es =>
          match assoc k es with
          | Some c =>
              match del p' c with
              | inr c' => inr (Dir (set_entry k c' es))
              | inl e => inl e
              end
          | None => inl ENOENT
          end
      | File _ => inl ENOTDIR
      end
  end.

(** [open(p, "w")] followed by one [write] and the close: the file is
    created or replaced. *)
Definition write_file (p : path) (c : content) (n : node) : oserror + node :=
  match lookup p n with
  | Some (Dir _) => inl EISDIR
  | _ => put p (File c) n
  end.

(** [open(p)] for reading, the whole content *)
Definition read_file (p : path) (n : node) : oserror + content :=
  match lookup p n with
  | Some (File c) => inr c
  | Some (Dir _) => inl EISDIR
  | None => inl ENOENT
  end.

(** [shutil.rmtree(p)] *)
Definition rmtree (p : path) (n : node) : oserror + node :=
  match lookup p n with
  | Some (Dir _) => del p n
  | Some (File _) => inl ENOTDIR
  | None => inl ENOENT
  end.

(** [os.mkdir(p)] *)
Definition mkdir (p : path) (n : node) : oserror + node :=
  match lookup p n with
  | Some _ => inl EEXIST
  | None => put p (Dir []) n
  end.

(** [os.walk(top)], top down: one triple (root, directory names, file
    names) per directory; a [top] that is no directory yields nothing. *)
Definition dirnames (es : list (string * node)) : list string :=
  map fst (filter (fun e => match snd e with Dir _ => true | File _ => false end) es).

Definition filenames (es : list (string * node)) : list string :=
  map fst (filter (fun e => match snd e with File _ => true | Dir _ => false end) es).

Fixpoint walk_node (root : path) (n : node) {struct n}
  : list (path * list string * list string) :=
  match n with
  | File _ => []
  | Dir es =>
      (root, dirnames es, filenames es) ::
      (fix walk_entries (l : list (string * node)) :=
         match l with
         | [] => []
         | (k, c) :: l' => walk_node (root ++ [k]) c ++ walk_entries l'
         end) es
  end.

Definition walk (top : path) (n : node) : list (path * list string * list string) :=
  match lookup top n with
  | Some t => walk_node top t
  | None => []
  end.

End FS.

(** ** The world and the monad of the pipelines *)

(** What a run exchanges with its collaborators, oldest first. *)
Inductive event :=
| EvRun (command : list string) (cwd : option path)   (* subprocess.Popen *)
| EvHttpGet (url : string)                            (* requests.get *)
| EvProgress (fraction : Q) (desc : string).          (* the progress callback *)

Record World := mkWorld {
  fs : node;
  trace : list event;
  uuid_calls : nat
}.

Definition M (A : Type) : Type := World -> outcome A * World.

Definition ret {A} (a : A) : M A := fun w => (Ret a, w).

Definition raise {A} (e : exn) : M A := fun w => (Raise e, w).

Definition bind {A B} (c : M A) (k : A -> M B) : M B :=
  fun w =>
    match c w with
    | (Ret a, w') => k a w'
    | (Raise e, w') => (Raise e, w')
    end.

Notation "x <- c ;; k" := (bind c (fun x => k))
  (at level 61, c at next level, right associativity).
Notation "' pat <- c ;; k" := (bind c (fun x => match x with pat => k end))
  (at level 61, pat pattern, c at next level, right associativity).
Notation "c ;;; k" := (bind c (fun _ => k))
  (at level 61, right associativity).

(** [try: c except Exception as e: h e], with [handles] choosing the
    exception classes of the clause. *)
Definition try_except {A} (c : M A) (handles : exn -> bool) (h : exn -> M A) : M A :=
  fun w =>
    match c w with
    | (Raise e, w') => if handles e then h e w' else (Raise e, w')
    | r => r
    end.

(** [for x in l: body x] *)
Fixpoint for_each {A} (l : list A) (body : A -> M unit) : M unit :=
  match l with
  | [] => ret tt
  | x :: l' => body x ;;; for_each l' body
  end.

(** A loop that carries a local variable. *)
Fixpoint for_fold {A S} (l : list A) (s : S) (body : S -> A -> M S) : M S :=
  match l with
  | [] => ret s
  | x :: l' => s' <- body s x ;; for_fold l' s' body
  end.

Definition get_fs : M node := fun w => (Ret (fs w), w).

Definition set_fs (n : node) (w : World) : World :=
  mkWorld n (trace w) (uuid_calls w).

Definition emit (ev : event) (w : World) : World :=
  mkWorld (fs w) (trace w ++ [ev]) (uuid_calls w).

(** A file-system call: it changes the tree or raises [OSError]. *)
Definition fs_call (f : node -> oserror + node) : M unit :=
  fun w =>
    match f (fs w) with
    | inr n => (Ret tt, set_fs n w)
    | inl e => (Raise (OSError e), w)
    end.

(** [progress(fraction, desc)]: observed, never consulted *)
Definition progress (fraction : Q) (desc : string) : M unit :=
  fun w => (Ret tt, emit (EvProgress fraction desc) w).

(** [a / b] on integers, as an exact fraction *)
Definition truediv (a b : Z) : M Q :=
  if Z.eqb b 0 then raise ZeroDivisionError
  else ret (Qdiv (inject_Z a) (inject_Z b)).

(** [str(n)] for a non-negative integer *)
Definition digit (n : nat) : ascii := ascii_of_nat (48 + n).

Fixpoint str_nat_fuel (fuel n : nat) (acc : string) : string :=
  match fuel with
  | O => acc
  | S f =>
      let acc' := String (digit (n mod 10)) acc in
      if (n <? 10)%nat then acc' else str_nat_fuel f (n / 10) acc'
  end.

Definition str_int (z : Z) : string :=
  let n := Z.to_nat z in str_nat_fuel (S n) n "".

(** [str(e)] *)
Definition str_oserror (e : oserror) : string :=
  match e with
  | ENOENT => "[Errno 2] No such file or directory"
  | EEXIST => "[Errno 17] File exists"
  | ENOTDIR => "[Errno 20] Not a directory"
  | EISDIR => "[Errno 21] Is a directory"
  | EBUSY => "[Errno 16] Device or resource busy"
  end.

Definition str_exn (e : exn) : string :=
  match e with
  | GrError m => m
  | OSError e => str_oserror e
  | ShutilError => "Destination path already exists"
  | BadZipFile => "File is not a zip file"
  | UnicodeDecodeError => "invalid start byte"
  | ZeroDivisionError => "division by zero"
  | RequestException m => m
  end.

(** ** The collaborators *)

(** What [Popen] and [communicate] give: the exit code with the two
    captured streams, or the exception of a process that did not start. *)
Inductive proc_outcome :=
| Exited (returncode : Z) (stdout stderr : string)
| SpawnFailed (message : string).

(** An HTTP response as [download_apk] reads it: the error of
    [raise_for_status], the content-length header as the integer it
    carries, the chunks of [iter_content] and the error that ends the
    stream early, if any. *)
Record response := mkResponse {
  status_error : option string;
  content_length : option Z;
  chunks : list string;
  stream_error : option string
}.

Inductive http_outcome :=
| ConnectionFailed (message : string)
| Responded (r : response).

Record Env := mkEnv {
  BASE_DIR : path;
  popen : list string -> option path -> node -> proc_outcome * node;
  uuid4_hex : nat -> string;
  requests_get : string -> http_outcome
}.

Module Gradio.

(** The file object of an upload: only its [name] is read. *)
Record UploadedFile := mkUpload { name : string }.

(** [gr.DownloadButton(value=..., visible=...)] *)
Record DownloadButton := mkButton { value : option string; visible : bool }.

End Gradio.

(** What both pipelines return: status line, download button, log. *)
Definition reply : Type := string * Gradio.DownloadButton * string.

(** ** [APKProcessor] *)

Definition nl : string := PyStr.nl.

(** The double quote, which the literals below cannot hold. *)
Definition dq : string := String (ascii_of_nat 34) EmptyString.

(** The content written to [res/xml/network_security_config.xml]. *)
Definition config_content : string :=
  "<?xml version=" +++ dq +++ "1.0" +++ dq +++ " encoding=" +++ dq +++ "utf-8" +++ dq +++ "?>" +++ nl +++
  "<network-security-config>" +++ nl +++
  "    <base-config cleartextTrafficPermitted=" +++ dq +++ "true" +++ dq +++ ">" +++ nl +++
  "        <trust-anchors>" +++ nl +++
  "            <certificates src=" +++ dq +++ "system" +++ dq +++ " />" +++ nl +++
  "            <certificates src=" +++ dq +++ "user" +++ dq +++ " />" +++ nl +++
  "        </trust-anchors>" +++ nl +++
  "    </base-config>" +++ nl +++
  "</network-security-config>" +++ nl.

Definition manifest_attribute : string := "android:networkSecurityConfig".

Definition application_tag : string := "<application".

Definition patched_application_tag : string :=
  "<application android:networkSecurityConfig=" +++ dq +++ "@xml/network_security_config" +++ dq.


(** Text-mode reads and writes. *)
Definition read_text (p : path) : M string :=
  n <- get_fs ;;
  match FS.read_file p n with
  | inr (Raw s) => ret s
  | inr (Archive _) => raise UnicodeDecodeError
  | inl e => raise (OSError e)
  end.

Definition write_text (p : path) (s : string) : M unit :=
  fs_call (FS.write_file p (Raw s)).

(** One [f.write(chunk)] on a file opened for writing. *)
Definition append_bytes (p : path) (chunk : string) : M unit :=
  n <- get_fs ;;
  match FS.read_file p n with
  | inr (Raw s) => fs_call (FS.write_file p (Raw (s +++ chunk)))
  | inr (Archive _) => fs_call (FS.write_file p (Raw chunk))
  | inl e => raise (OSError e)
  end.

Definition path_exists (p : path) : M bool :=
  n <- get_fs ;; ret (FS.exists_ p n).

(** ZIP archives *)
Module Zip.

(** [ZipFile(p, 'r')]: the members of the archive at [p] *)
Definition open_r (p : path) : M (list (string * content)) :=
  n <- get_fs ;;
  match FS.read_file p n with
  | inr (Archive ms) => ret ms
  | inr (Raw _) => raise BadZipFile
  | inl e => raise (OSError e)
  end.

Definition invalid_path_part (x : string) : bool :=
  String.eqb x "" || String.eqb x "." || String.eqb x "..".

(** The relative target of a member: its name split at the slashes,
    without the empty, [.] and [..] parts. *)
Definition arcname_parts (filename : string) : path :=
  filter (fun x => negb (invalid_path_part x)) (PyStr.split "/" filename).

(** [ZipFile._extract_member]: create the directories above the target,
    then the directory or the file itself. *)
Definition extract_member (targetdir : path) (m : string * content) (n : node)
  : oserror + node :=
  let '(filename, data) := m in
  let targetpath := targetdir ++ arcname_parts filename in
  let upperdirs := removelast targetpath in
  match (if negb (FS.exists_ upperdirs n)
         then FS.makedirs false upperdirs n else inr n) with
  | inl e => inl e
  | inr n1 =>
      if PyStr.endswith "/" filename
      then if FS.isdir targetpath n1 then inr n1 else FS.mkdir targetpath n1
      else FS.write_file targetpath data n1
  end.

(** [zip_ref.extractall(targetdir)] *)
Definition extractall (targetdir : path) (members : list (string * content)) : M unit :=
  for_each members (fun m => fs_call (extract_member targetdir m)).

(** The members that the two loops of [create_zip] write, in order:
    [zipf.write(file_path, archive_path)] stores the content of
    [file_path] under the name [archive_path]. *)
Definition written_members (source_dir : path) (n : node)
  : oserror + list (string * content) :=
  fold_left
    (fun acc '(root, _, files) =>
       fold_left
         (fun acc file =>
            let file_path := root ++ [file] in
            let archive_path := PyPath.relpath file_path source_dir in
            match acc, FS.read_file file_path n with
            | inr ms, inr c => inr (ms ++ [(archive_path, c)])
            | inl e, _ => inl e
            | _, inl e => inl e
            end)
         files acc)
    (FS.walk source_dir n) (inr []).

End Zip.

Section Pipeline.

Variable env : Env.

Definition TOOLS_DIR : path := BASE_DIR env ++ ["tools"].
Definition TEMP_DIR : path := BASE_DIR env ++ ["temp"].
Definition DOWNLOADS_DIR : path := BASE_DIR env ++ ["downloads"].

Definition APKTOOL_PATH : path := TOOLS_DIR ++ ["apktool.jar"].
Definition SIGNER_PATH : path := TOOLS_DIR ++ ["uber-apk-signer.jar"].
Definition JADX_PATH : path := TOOLS_DIR ++ ["jadx"; "bin"; "jadx"].

(** [uuid.uuid4().hex[:8]] *)
Definition uuid4_hex8 : M string :=
  fun w =>
    (Ret (substring 0 8 (uuid4_hex env (uuid_calls w))),
     mkWorld (fs w) (trace w) (S (uuid_calls w))).

Definition _run_command (command : list string) (cwd : option path)
  : M (bool * string * string) :=
  fun w =>
    let w1 := emit (EvRun command cwd) w in
    match popen env command cwd (fs w) with
    | (Exited returncode stdout stderr, n) =>
        if negb (Z.eqb returncode 0)
        then (Ret (false, stdout, stderr), set_fs n w1)
        else (Ret (true, stdout, stderr), set_fs n w1)
    | (SpawnFailed message, _) => (Ret (false, "", message), w1)
    end.

Definition check_tools : M (bool * string) :=
  let logs : list string := [] in
  '(success, stdout, stderr) <- _run_command ["java"; "--version"] None ;;
  if negb success
  then ret (false, "Java (JDK) not found. Please install it and make sure it's in your PATH.")
  else
    let logs := logs ++ ["Java Version:" +++ nl +++ stdout +++ stderr] in
    apktool_exists <- path_exists APKTOOL_PATH ;;
    if negb apktool_exists
    then ret (false, "apktool.jar not found at " +++ PyPath.str APKTOOL_PATH)
    else
      let logs := logs ++ ["apktool.jar found."] in
      signer_exists <- path_exists SIGNER_PATH ;;
      if negb signer_exists
      then ret (false, "uber-apk-signer.jar not found at " +++ PyPath.str SIGNER_PATH)
      else
        let logs := logs ++ ["uber-apk-signer.jar found."] in
        jadx_exists <- path_exists JADX_PATH ;;
        if negb jadx_exists
        then ret (false, "JADX not found at " +++ PyPath.str JADX_PATH)
        else
          let logs := logs ++ ["JADX found."] in
          ret (true, PyStr.join nl logs).

(** [requests.get(url, stream=True)] and [raise_for_status] *)
Definition http_get (url : string) : M response :=
  fun w =>
    let w1 := emit (EvHttpGet url) w in
    match requests_get env url with
    | ConnectionFailed message => (Raise (RequestException message), w1)
    | Responded r => (Ret r, w1)
    end.

Definition raise_for_status (r : response) : M unit :=
  match status_error r with
  | Some message => raise (RequestException message)
  | None => ret tt
  end.

Definition is_RequestException (e : exn) : bool :=
  match e with RequestException _ => true | _ => false end.

Definition download_apk (url : string) : M string :=
  try_except
    (let apk_name := last (PyStr.split "/" url) "" in
     let apk_name :=
       if negb (PyStr.endswith ".apk" apk_name) then "downloaded.apk" else apk_name in
     let apk_path := TEMP_DIR ++ [apk_name] in
     response <- http_get url ;;
     raise_for_status response ;;;
     let total_size :=
       match content_length response with Some n => n | None => 0%Z end in
     let bytes_downloaded := 0%Z in
     fs_call (FS.write_file apk_path (Raw "")) ;;;
     for_fold (chunks response) bytes_downloaded
       (fun bytes_downloaded chunk =>
          append_bytes apk_path chunk ;;;
          let bytes_downloaded :=
            (bytes_downloaded + Z.of_nat (String.length chunk))%Z in
          fraction <- truediv bytes_downloaded total_size ;;
          progress fraction
            ("Downloading: " +++ str_int bytes_downloaded +++ "/" +++
             str_int total_size +++ " bytes") ;;;
          ret bytes_downloaded) ;;;
     match stream_error response with
     | Some message => raise (RequestException message)
     | None => ret (PyPath.str apk_path)
     end)
    is_RequestException
    (fun e => raise (GrError ("Failed to download APK from URL: " +++ str_exn e))).

Definition apktool_decode (apk_path : string) (output_dir : path) (options : list string)
  : M (bool * string * string) :=
  let command :=
    ["java"; "-jar"; PyPath.str APKTOOL_PATH; "d"; apk_path; "-o";
     PyPath.str output_dir; "-f"] ++ options in
  _run_command command None.

Definition jadx_decompile (apk_path : string) (output_dir : path) (options : list string)
  : M (bool * string * string) :=
  let java_src_dir := output_dir ++ ["java_sources"] in
  let command :=
    [PyPath.str JADX_PATH; "-r"; "-q"; "-ds"; PyPath.str java_src_dir]
      ++ options ++ [apk_path] in
  _run_command command (Some output_dir).

Definition quark_analyze (apk_path : string) (output_dir : path)
  : M (bool * string * string) :=
  let report_path := output_dir ++ ["quark-report.json"] in
  let command := ["quark"; "analyze"; "-a"; apk_path; "-o"; PyPath.str report_path] in
  _run_command command None.

Definition mitm_patch (project_dir : path) : M (bool * string * string) :=
  let net_sec_config_path := project_dir ++ ["res"; "xml"] in
  fs_call (FS.makedirs true net_sec_config_path) ;;;
  write_text (net_sec_config_path ++ ["network_security_config.xml"]) config_content ;;;
  let manifest_path := project_dir ++ ["AndroidManifest.xml"] in
  manifest_exists <- path_exists manifest_path ;;
  if manifest_exists
  then
    content <- read_text manifest_path ;;
    (if negb (PyStr.contains manifest_attribute content)
     then
       let content :=
         PyStr.replace application_tag patched_application_tag content in
       write_text manifest_path content
     else ret tt) ;;;
    ret (true,
         "MITM patch applied to AndroidManifest.xml and network_security_config.xml created.",
         "")
  else ret (false, "AndroidManifest.xml not found.", "").

Definition apktool_build (project_dir output_apk : path) (options : list string)
  : M (bool * string * string) :=
  let command :=
    ["java"; "-jar"; PyPath.str APKTOOL_PATH; "b"; PyPath.str project_dir; "-o";
     PyPath.str output_apk] ++ options in
  _run_command command None.

Definition sign_apk (apk_path : path) (keystore_path ks_pass ks_alias key_pass : string)
  : M (bool * string * string) :=
  let command :=
    ["java"; "-jar"; PyPath.str SIGNER_PATH;
     "--apks"; PyPath.str apk_path;
     "--ks"; keystore_path;
     "--ksPass"; ks_pass;
     "--ksAlias"; ks_alias;
     "--keyPass"; key_pass] in
  _run_command command None.

(** [ZipFile(zip_path, 'w')] creates the archive, the loops fill it and
    the end of the [with] block completes it. *)
Definition create_zip (source_dir zip_path : path) : M string :=
  fs_call (FS.write_file zip_path (Archive [])) ;;;
  n <- get_fs ;;
  match Zip.written_members source_dir n with
  | inl e => raise (OSError e)
  | inr members =>
      fs_call (FS.write_file zip_path (Archive members)) ;;;
      ret (PyPath.str zip_path)
  end.

(** [shutil.move(src, dst)] *)
Definition shutil_move (src dst : path) : M unit :=
  n <- get_fs ;;
  let real_dst := if FS.isdir dst n then dst ++ [PyPath.name src] else dst in
  if FS.isdir dst n && FS.exists_ real_dst n then raise ShutilError
  else
    match FS.lookup src n with
    | None => raise (OSError ENOENT)
    | Some v =>
        fs_call (fun n => match FS.del src n with
                          | inr n1 => FS.put real_dst v n1
                          | inl e => inl e
                          end)
    end.

(** ** The decode pipeline *)

Definition hidden : Gradio.DownloadButton := Gradio.mkButton None false.

Definition download (p : path) : Gradio.DownloadButton :=
  Gradio.mkButton (Some (PyPath.str p)) true.

(** [if token in options: opts.append(flag)] *)
Definition append_if (token : string) (options : list string) (flag : string)
  (opts : list string) : list string :=
  if PyStr.mem token options then opts ++ [flag] else opts.

(** The body of [process_apk] is cut at its numbered steps: each piece
    runs the function from its step to the end.

    From step 6: the optional stages, the archive and the clean-up. *)
Definition process_apk_from_step_6 (apk_path : string) (project_name : string)
  (project_dir : path) (jadx_opts decode_options logs : list string) : M reply :=
  (* 6. Optional: MITM Patch *)
  logs <-
    (if PyStr.mem "mitm_patch" decode_options
     then
       progress 0.5 "Applying MITM patch..." ;;;
       let logs := logs ++ [nl +++ "--- MITM Patch ---"] in
       '(success, out, err) <- mitm_patch project_dir ;;
       let logs := logs ++ [out] in
       let logs := logs ++ [err] in
       ret logs
     else ret logs) ;;
  (* 7. Optional: Quark Analysis *)
  logs <-
    (if PyStr.mem "quark_analysis" decode_options
     then
       progress 0.6 "Analyzing with Quark-Engine..." ;;;
       let logs := logs ++ [nl +++ "--- Quark Engine Analysis ---"] in
       '(success, stdout, stderr) <- quark_analyze apk_path project_dir ;;
       let logs := logs ++ ["Quark STDOUT:" +++ nl +++ stdout] in
       let logs := logs ++ ["Quark STDERR:" +++ nl +++ stderr] in
       let logs := if negb success then logs ++ ["Quark analysis failed."] else logs in
       ret logs
     else ret logs) ;;
  (* 8. Optional: JADX Decompilation *)
  logs <-
    (if PyStr.mem "decompile_java" decode_options
     then
       progress 0.8 "Decompiling Java with JADX..." ;;;
       let logs := logs ++ [nl +++ "--- JADX Decompilation ---" +++ nl +++
                            "Running with options: " +++ PyStr.join " " jadx_opts] in
       '(success, stdout, stderr) <- jadx_decompile apk_path project_dir jadx_opts ;;
       let logs := logs ++ ["JADX STDOUT:" +++ nl +++ stdout] in
       let logs := logs ++ ["JADX STDERR:" +++ nl +++ stderr] in
       let logs := if negb success then logs ++ ["JADX decompilation failed."] else logs in
       ret logs
     else ret logs) ;;
  (* 9. Create ZIP archive *)
  progress 0.95 "Creating ZIP archive..." ;;;
  let zip_name := project_name +++ "-decompiled.zip" in
  let zip_path := DOWNLOADS_DIR ++ [zip_name] in
  create_zip project_dir zip_path ;;;
  let logs := logs ++ [nl +++ "Project zipped to " +++ PyPath.str zip_path] in
  (* 10. Clean up temp project dir *)
  fs_call (FS.rmtree project_dir) ;;;
  ret ("Success! Project decompiled and zipped.", download zip_path, PyStr.join nl logs).

(** From step 5: the decode, which is required. *)
Definition process_apk_from_step_5 (apk_path : string) (project_name : string)
  (project_dir : path) (apktool_opts jadx_opts decode_options logs : list string)
  : M reply :=
  (* 5. Decode with Apktool *)
  progress 0.2 "Decompiling with Apktool..." ;;;
  let logs := logs ++ [nl +++ "--- Apktool Decompilation ---" +++ nl +++
                       "Running with options: " +++ PyStr.join " " apktool_opts] in
  '(success, stdout, stderr) <- apktool_decode apk_path project_dir apktool_opts ;;
  let logs := logs ++ ["Apktool STDOUT:" +++ nl +++ stdout] in
  let logs := logs ++ ["Apktool STDERR:" +++ nl +++ stderr] in
  if negb success
  then ret ("Apktool failed.", hidden, PyStr.join nl logs)
  else process_apk_from_step_6 apk_path project_name project_dir jadx_opts decode_options logs.

(** From step 3: the project directory and the options. *)
Definition process_apk_from_step_3 (apk_path : string) (decode_options logs : list string)
  : M reply :=
  (* 3. Setup project directory *)
  let project_name := PyPath.stem (PyPath.Path apk_path) in
  suffix <- uuid4_hex8 ;;
  let project_dir := TEMP_DIR ++ [project_name +++ "-decompiled-" +++ suffix] in
  project_dir_exists <- path_exists project_dir ;;
  (if project_dir_exists then fs_call (FS.rmtree project_dir) else ret tt) ;;;
  fs_call (FS.makedirs false project_dir) ;;;
  let logs := logs ++ ["Created project directory: " +++ PyPath.str project_dir] in
  (* 4. Parse options *)
  let apktool_opts : list string := [] in
  let jadx_opts : list string := [] in
  let apktool_opts := append_if "no_src" decode_options "-s" apktool_opts in
  let apktool_opts := append_if "no_res" decode_options "-r" apktool_opts in
  let apktool_opts := append_if "force_manifest" decode_options "--force-manifest" apktool_opts in
  let apktool_opts := append_if "no_assets" decode_options "--no-assets" apktool_opts in
  let apktool_opts := append_if "only_main_classes" decode_options "--only-main-classes" apktool_opts in
  let apktool_opts := append_if "no_debug_info" decode_options "-b" apktool_opts in
  let jadx_opts := append_if "deobf" decode_options "--deobf" jadx_opts in
  let jadx_opts := append_if "show_bad_code" decode_options "--show-bad-code" jadx_opts in
  process_apk_from_step_5 apk_path project_name project_dir apktool_opts jadx_opts
    decode_options logs.

Definition process_apk (apk_file : option Gradio.UploadedFile) (apk_url : option string)
  (decode_options : list string) : M reply :=
  let logs : list string := [] in
  (* 1. Check tools *)
  '(tools_ok, tool_logs) <- check_tools ;;
  let logs := logs ++ ["--- Tool Check ---" +++ nl +++ tool_logs] in
  if negb tools_ok
  then ret ("Error: Tools are not configured correctly.", hidden, PyStr.join nl logs)
  else
    (* 2. Determine APK path *)
    match apk_file with
    | None =>
        if negb (PyStr.truthy apk_url)
        then raise (GrError "Please upload an APK file or provide a URL.")
        else
          let url := match apk_url with Some u => u | None => "" end in
          let logs := logs ++ ["Downloading APK from URL: " +++ url] in
          downloaded <-
            try_except
              (progress 0 "Downloading APK..." ;;;
               apk_path <- download_apk url ;;
               ret (inr apk_path))
              (fun _ => true)
              (fun e => ret (inl ("Error downloading APK: " +++ str_exn e))) ;;
          match downloaded with
          | inl status => ret (status, hidden, PyStr.join nl logs)
          | inr apk_path =>
              let logs := logs ++ ["APK downloaded to: " +++ apk_path] in
              process_apk_from_step_3 apk_path decode_options logs
          end
    | Some apk_file =>
        let apk_path := Gradio.name apk_file in
        let logs := logs ++ ["Processing uploaded file: " +++ apk_path] in
        process_apk_from_step_3 apk_path decode_options logs
    end.

(** ** The rebuild pipeline *)

Definition the (s : option string) : string :=
  match s with Some v => v | None => "" end.

(** From step 3 of [rebuild_and_sign_apk]: the build, the signature and
    the delivery; the inputs are checked and the project is unpacked. *)
Definition rebuild_and_sign_apk_from_step_3 (project_zip : Gradio.UploadedFile)
  (build_options : list string) (keystore_file : Gradio.UploadedFile)
  (ks_pass alias key_pass : string) (project_dir output_dir : path)
  (logs : list string) : M reply :=
  (* 3. Rebuild with Apktool *)
  let unsigned_apk_path := output_dir ++ ["rebuilt-unsigned.apk"] in
  let build_opts : list string := [] in
  let build_opts := append_if "no_crunch" build_options "--no-crunch" build_opts in
  let build_opts := append_if "use_aapt2" build_options "--use-aapt2" build_opts in
  progress 0.3 "Rebuilding with Apktool..." ;;;
  let logs := logs ++ [nl +++ "--- Apktool Rebuild ---" +++ nl +++
                       "Running with options: " +++ PyStr.join " " build_opts] in
  '(success, stdout, stderr) <- apktool_build project_dir unsigned_apk_path build_opts ;;
  let logs := logs ++ ["Apktool STDOUT:" +++ nl +++ stdout] in
  let logs := logs ++ ["Apktool STDERR:" +++ nl +++ stderr] in
  if negb success
  then
    fs_call (FS.rmtree project_dir) ;;;
    fs_call (FS.rmtree output_dir) ;;;
    ret ("Apktool rebuild failed.", hidden, PyStr.join nl logs)
  else
    (* 4. Sign the APK *)
    progress 0.8 "Signing APK..." ;;;
    let logs := logs ++ [nl +++ "--- Signing APK ---"] in
    '(success, stdout, stderr) <-
      sign_apk unsigned_apk_path (Gradio.name keystore_file) ks_pass alias key_pass ;;
    let logs := logs ++ ["Signer STDOUT:" +++ nl +++ stdout] in
    let logs := logs ++ ["Signer STDERR:" +++ nl +++ stderr] in
    if negb success
    then
      fs_call (FS.rmtree project_dir) ;;;
      fs_call (FS.rmtree output_dir) ;;;
      ret ("Signing failed.", hidden, PyStr.join nl logs)
    else
      (* Uber-apk-signer adds "-aligned-signed" to the file name. *)
      let signed_apk_path :=
        output_dir ++ [PyPath.stem unsigned_apk_path +++ "-aligned-signed.apk"] in
      let final_apk_path :=
        DOWNLOADS_DIR ++
          [PyPath.stem (PyPath.Path (Gradio.name project_zip)) +++ "-signed.apk"] in
      shutil_move signed_apk_path final_apk_path ;;;
      (* 5. Cleanup *)
      fs_call (FS.rmtree project_dir) ;;;
      fs_call (FS.rmtree output_dir) ;;;
      ret ("Success! APK rebuilt and signed.", download final_apk_path,
           PyStr.join nl logs).

Definition rebuild_and_sign_apk (project_zip : option Gradio.UploadedFile)
  (build_options : list string) (keystore_file : option Gradio.UploadedFile)
  (ks_pass alias key_pass : option string) : M reply :=
  let logs : list string := [] in
  match project_zip with
  | None => raise (GrError "Please upload a project ZIP file.")
  | Some project_zip =>
  match keystore_file with
  | None => raise (GrError "Please upload a keystore file.")
  | Some keystore_file =>
  if negb (forallb PyStr.truthy [ks_pass; alias; key_pass])
  then raise (GrError "Please provide all keystore credentials.")
  else
    (* 1. Setup directories *)
    suffix <- uuid4_hex8 ;;
    let project_dir := TEMP_DIR ++ ["rebuild-" +++ suffix] in
    suffix <- uuid4_hex8 ;;
    let output_dir := TEMP_DIR ++ ["rebuild-out-" +++ suffix] in
    fs_call (FS.makedirs true project_dir) ;;;
    fs_call (FS.makedirs true output_dir) ;;;
    (* 2. Unzip project *)
    progress 0.1 "Unzipping project..." ;;;
    zip_ref <- Zip.open_r (PyPath.Path (Gradio.name project_zip)) ;;
    Zip.extractall project_dir zip_ref ;;;
    let logs := logs ++ ["Project unzipped to " +++ PyPath.str project_dir] in
    rebuild_and_sign_apk_from_step_3 project_zip build_options keystore_file
      (the ks_pass) (the alias) (the key_pass) project_dir output_dir logs
  end
  end.

End Pipeline.

(** ** A small installation, for running the pipelines *)

Module Sample.

Definition base : path := ["app"].

(** The tree that the decoder leaves in its output directory. *)
Definition decoded_project : node :=
  Dir [("AndroidManifest.xml",
        File (Raw ("<manifest><application android:label=" +++ dq +++ "x" +++ dq +++
                   "></application></manifest>")));
       ("res", Dir [("values", Dir [("strings.xml", File (Raw "<resources/>"))])]);
       ("smali", Dir [("Main.smali", File (Raw ".class public LMain;"))])].

Definition root : node :=
  Dir [("app",
        Dir [("tools",
              Dir [("apktool.jar", File (Raw "jar"));
                   ("uber-apk-signer.jar", File (Raw "jar"));
                   ("jadx", Dir [("bin", Dir [("jadx", File (Raw "sh"))])])]);
             ("temp", Dir []);
             ("downloads", Dir [])]);
       ("uploads",
        Dir [("sample.apk", File (Raw "apk"));
             ("release.jks", File (Raw "keys"));
             ("sample-decompiled.zip",
              File (Archive [("AndroidManifest.xml", Raw "<manifest/>");
                             ("res/values/strings.xml", Raw "<resources/>")]))])].

Definition or_same (n : node) (r : oserror + node) : node :=
  match r with inr n' => n' | inl _ => n end.

(** The tools: [java --version] answers; the decoder, the builder and
    the signer write their output and exit with the given codes; the
    analysis and the decompiler only exit. *)
Definition tools (decode_rc quark_rc jadx_rc build_rc sign_rc : Z)
  (command : list string) (cwd : option path) (n : node) : proc_outcome * node :=
  match command with
  | ["java"; "--version"] => (Exited 0 "openjdk 17" "", n)
  | "java" :: "-jar" :: _ :: "d" :: _ :: "-o" :: out :: _ =>
      if Z.eqb decode_rc 0
      then (Exited 0 "I: Using Apktool" "", or_same n (FS.put (PyPath.Path out) decoded_project n))
      else (Exited decode_rc "I: Using Apktool" "brut.androlib.AndrolibException", n)
  | "java" :: "-jar" :: _ :: "b" :: _ :: "-o" :: out :: _ =>
      if Z.eqb build_rc 0
      then (Exited 0 "I: Built apk" "", or_same n (FS.write_file (PyPath.Path out) (Raw "unsigned") n))
      else (Exited build_rc "" "W: build failed", n)
  | "java" :: "-jar" :: _ :: "--apks" :: apk :: _ =>
      if Z.eqb sign_rc 0
      then (Exited 0 "signed" "",
            or_same n (FS.write_file
                         (removelast (PyPath.Path apk) ++
                            [PyPath.stem (PyPath.Path apk) +++ "-aligned-signed.apk"])
                         (Raw "signed") n))
      else (Exited sign_rc "" "keystore was tampered with", n)
  | "quark" :: _ => (Exited quark_rc "quark" "report", n)
  | _ => (Exited jadx_rc "" "jadx", n)
  end.

Definition hex (k : nat) : string :=
  match k with
  | O => "0a1b2c3d4e5f60718293a4b5c6d7e8f9"
  | S O => "11112222333344445555666677778888"
  | _ => "fedcba9876543210fedcba9876543210"
  end.

(** The server: [/app.apk] comes with a content-length, [/raw.apk]
    without one, anything else is refused. *)
Definition server (url : string) : http_outcome :=
  if String.eqb url "https://example.com/app.apk"
  then Responded (mkResponse None (Some 6%Z) ["abc"; "def"] None)
  else if String.eqb url "https://example.com/raw.apk"
  then Responded (mkResponse None None ["abc"; "def"] None)
  else ConnectionFailed "connection refused".

Definition env (decode_rc quark_rc jadx_rc build_rc sign_rc : Z) : Env :=
  mkEnv base (tools decode_rc quark_rc jadx_rc build_rc sign_rc) hex server.

Definition world : World := mkWorld root [] 0.

Definition apk : Gradio.UploadedFile := Gradio.mkUpload "/uploads/sample.apk".
Definition project_zip : Gradio.UploadedFile := Gradio.mkUpload "/uploads/sample-decompiled.zip".
Definition keystore : Gradio.UploadedFile := Gradio.mkUpload "/uploads/release.jks".

End Sample.

(** The sample world once [rebuild_and_sign_apk] has made its two
    directories. *)
Definition sample_rebuild_world : World :=
  mkWorld
    (Sample.or_same Sample.root
       (match FS.makedirs true ["app"; "temp"; "rebuild-0a1b2c3d"] Sample.root with
        | inr n => FS.makedirs true ["app"; "temp"; "rebuild-out-11112222"] n
        | inl e => inl e
        end))
    [] 2.

(** The sample world at step 5 of [process_apk]: the project directory
    is made. *)
Definition sample_decode_world : World :=
  mkWorld
    (Sample.or_same Sample.root
       (FS.makedirs false ["app"; "temp"; "sample-decompiled-0a1b2c3d"] Sample.root))
    [] 1.

(** ** Notions used in the statements *)

(** What stands at a path: nothing, a file with its content, or a
    directory. *)
Inductive kind :=
| KNone
| KFile (c : content)
| KDir.

Definition kind_of (o : option node) : kind :=
  match o with
  | None => KNone
  | Some (File c) => KFile c
  | Some (Dir _) => KDir
  end.

Definition kind_at (q : path) (n : node) : kind := kind_of (FS.lookup q n).

(** [strip_prefix p q] is [Some r] when [q = p ++ r]. *)
Fixpoint strip_prefix (p q : path) : option path :=
  match p, q with
  | [], _ => Some q
  | a :: p', b :: q' => if String.eqb a b then strip_prefix p' q' else None
  | _ :: _, [] => None
  end.

Definition is_prefix (p q : path) : bool :=
  match strip_prefix p q with Some _ => true | None => false end.

(** The paths that [mitm_patch] touches in a project directory. *)
Definition res_xml_dir (project_dir : path) : path := project_dir ++ ["res"; "xml"].

Definition config_path (project_dir : path) : path :=
  res_xml_dir project_dir ++ ["network_security_config.xml"].

Definition manifest_path (project_dir : path) : path :=
  project_dir ++ ["AndroidManifest.xml"].

Definition patch_applied : bool * string * string :=
  (true,
   "MITM patch applied to AndroidManifest.xml and network_security_config.xml created.",
   "").

Definition patch_failed : bool * string * string :=
  (false, "AndroidManifest.xml not found.", "").

(** What a computation may do: every event it emits satisfies [P] and
    every exception it raises satisfies [Q]. *)
Definition respects {A} (P : event -> Prop) (Q : exn -> Prop) (c : M A) : Prop :=
  forall w r w', c w = (r, w') ->
    (exists evs, trace w' = trace w ++ evs /\ Forall P evs) /\
    (forall e, r = Raise e -> Q e).

(** The command line of [apktool_decode]. *)
Definition decode_command (env : Env) (apk_path : string) (output_dir : path)
  (options : list string) : list string :=
  ["java"; "-jar"; PyPath.str (APKTOOL_PATH env); "d"; apk_path; "-o";
   PyPath.str output_dir; "-f"] ++ options.

Definition input_error : exn := GrError "Please upload an APK file or provide a URL.".

Definition not_http (ev : event) : Prop :=
  match ev with EvHttpGet _ => False | _ => True end.

Definition not_gr_error (e : exn) : Prop :=
  match e with GrError _ => False | _ => True end.

(** A name that a directory entry can bear: not empty, not [.] or [..],
    without a slash. *)
Definition valid_name (k : string) : bool :=
  negb (Zip.invalid_path_part k) && negb (PyStr.contains "/" k).

(** A tree as a file system holds it: within a directory the names are
    valid and distinct. *)
Inductive well_formed : node -> Prop :=
| wf_file (c : content) : well_formed (File c)
| wf_dir (es : list (string * node)) :
    NoDup (map fst es) ->
    Forall (fun e => valid_name (fst e) = true /\ well_formed (snd e)) es ->
    well_formed (Dir es).

(** The command lines of [apktool_build] and [sign_apk]. *)
Definition build_command (env : Env) (project_dir output_apk : path)
  (options : list string) : list string :=
  ["java"; "-jar"; PyPath.str (APKTOOL_PATH env); "b"; PyPath.str project_dir; "-o";
   PyPath.str output_apk] ++ options.

Definition sign_command (env : Env) (apk_path : path)
  (keystore_path ks_pass ks_alias key_pass : string) : list string :=
  ["java"; "-jar"; PyPath.str (SIGNER_PATH env);
   "--apks"; PyPath.str apk_path;
   "--ks"; keystore_path;
   "--ksPass"; ks_pass;
   "--ksAlias"; ks_alias;
   "--keyPass"; key_pass].

(** The command lines of [quark_analyze] and [jadx_decompile]. *)
Definition quark_command (apk_path : string) (output_dir : path) : list string :=
  ["quark"; "analyze"; "-a"; apk_path; "-o";
   PyPath.str (output_dir ++ ["quark-report.json"])].

Definition jadx_command (env : Env) (apk_path : string) (output_dir : path)
  (options : list string) : list string :=
  [PyPath.str (JADX_PATH env); "-r"; "-q"; "-ds";
   PyPath.str (output_dir ++ ["java_sources"])] ++ options ++ [apk_path].

(** A sub-process that did not start or exited with a non-zero code. *)
Definition fails (o : proc_outcome) : Prop :=
  match o with
  | Exited returncode _ _ => returncode <> 0%Z
  | SpawnFailed _ => True
  end.



(** The events of a run of [process_apk] before its step 5: the version
    query of the tool check, and the download with its progress. *)
Definition before_decode (ev : event) : Prop :=
  match ev with
  | EvRun command _ => command = ["java"; "--version"]
  | _ => True
  end.

(** ** Archives and their extraction *)

(** The paths of the files that the loops of [create_zip] visit. *)
Definition listing (root : path) (t : node) : list path :=
  flat_map (fun '(r, _, files) => map (fun file => r ++ [file]) files)
           (FS.walk_node root t).

Section ArchiveState.

Variables (source_dir dst : path) (n t : node).

(** One [zipf.write] of the loops of [create_zip]. *)
Definition write_step (acc : oserror + list (string * content)) (file_path : path)
  : oserror + list (string * content) :=
  match acc, FS.read_file file_path n with
  | inr ms, inr c => inr (ms ++ [(PyPath.relpath file_path source_dir, c)])
  | inl e, _ => inl e
  | _, inl e => inl e
  end.

(** What the archive says of a member: it is a file of [t], named by
    the joined components of its path. *)
Definition member_of (m : string * content) : Prop :=
  exists rel, fst m = PyStr.join "/" rel /\ rel <> [] /\
              Forall (fun k => valid_name k = true) rel /\
              FS.lookup rel t = Some (File (snd m)).

(** The state of an extraction into [dst]: what is there mirrors [t],
    and the members extracted so far are in place. *)
Definition extracted (done : list (string * content)) (n' : node) : Prop :=
  kind_at dst n' = KDir /\
  (forall rel, rel <> [] ->
     match kind_at (dst ++ rel) n' with
     | KNone => True
     | KFile c => FS.lookup rel t = Some (File c)
     | KDir => kind_at rel t = KDir
     end) /\
  (forall rel c, In (PyStr.join "/" rel, c) done ->
     rel <> [] -> Forall (fun k => valid_name k = true) rel ->
     kind_at (dst ++ rel) n' = KFile c).

End ArchiveState.

(** ** Start-up, the forms of the interface and further notions *)

Section Startup.

Variable env : Env.

(** The two [os.makedirs] calls that run when the module is loaded. *)
Definition ensure_directories : M unit :=
  fs_call (FS.makedirs true (TEMP_DIR env)) ;;;
  fs_call (FS.makedirs true (DOWNLOADS_DIR env)).

(** The local name that [download_apk] gives to the body of [url], and
    the path it writes. *)
Definition download_name (url : string) : string :=
  let apk_name := last (PyStr.split "/" url) "" in
  if negb (PyStr.endswith ".apk" apk_name) then "downloaded.apk" else apk_name.

Definition download_target (url : string) : path :=
  TEMP_DIR env ++ [download_name url].

End Startup.

(** The choices of the two checkbox groups, each a label and the value
    that reaches the pipeline. *)
Definition decode_choices : list (string * string) :=
  [("Analyze with Quark-Engine", "quark_analysis");
   ("Decompile Java sources (with JADX)", "decompile_java");
   ("Apply MITM patch (for HTTPS inspection)", "mitm_patch");
   ("JADX: Deobfuscation", "deobf");
   ("JADX: Show bad code", "show_bad_code");
   ("Apktool: --no-src (skip smali)", "no_src");
   ("Apktool: --no-res (skip resources)", "no_res");
   ("Apktool: --force-manifest", "force_manifest");
   ("Apktool: --no-assets", "no_assets");
   ("Apktool: --only-main-classes", "only_main_classes");
   ("Apktool: --no-debug-info", "no_debug_info")].

Definition build_choices : list (string * string) :=
  [("Use aapt2", "use_aapt2");
   ("Disable resource crunching (--no-crunch)", "no_crunch")].

(** Two selections that tick the same boxes of a group, in whatever
    order and however often. *)
Definition same_selection (choices : list (string * string)) (a b : list string) : Prop :=
  forall v, In v (map snd choices) -> PyStr.mem v a = PyStr.mem v b.

(** A computation keeps the paths in [S]: whatever its outcome, what
    stands at such a path afterwards is what stood there before. *)
Definition keeps {A} (S : path -> Prop) (c : M A) : Prop :=
  forall w r w', c w = (r, w') ->
  forall q, S q -> kind_at q (fs w') = kind_at q (fs w).

(** The body of a response as the chunks carry it. *)
Definition body (r : response) : string := String.concat "" (chunks r).

(** A progress report. *)
Definition is_progress (ev : event) : Prop :=
  match ev with EvProgress _ _ => True | _ => False end.

Definition success_status : string := "Success! Project decompiled and zipped.".

Definition rebuild_success_status : string := "Success! APK rebuilt and signed.".

(** What a computation ensures when it returns: [R] holds of the value
    and the world it leaves. *)
Definition ensures {A} (R : A -> World -> Prop) (c : M A) : Prop :=
  forall w a w', c w = (Ret a, w') -> R a w'.

(** The sample installation with a signer that exits with code 0 and
    writes nothing. *)
Definition silent_signer_env : Env :=
  mkEnv Sample.base
    (fun command cwd n =>
       match command with
       | "java" :: "-jar" :: _ :: "--apks" :: _ => (Exited 0 "" "", n)
       | _ => Sample.tools 0 0 0 0 0 command cwd n
       end)
    Sample.hex Sample.server.

(** The flags of the decoder, by the option that asks for each, in the
    order of the tests of step 4. *)
Definition apktool_flag_table : list (string * string) :=
  [("no_src", "-s"); ("no_res", "-r"); ("force_manifest", "--force-manifest");
   ("no_assets", "--no-assets"); ("only_main_classes", "--only-main-classes");
   ("no_debug_info", "-b")].

(** The flags of the ticked options of a table, in the order of the
    table. *)
Definition ticked_flags (table : list (string * string)) (options : list string)
  : list string :=
  map snd (filter (fun entry => PyStr.mem (fst entry) options) table).
(** The substring relation that [PyStr.contains] decides. *)
Definition occurs_in (needle s : string) : Prop :=
exists pre post, s = pre +++ needle +++ post.

Section StringFacts.

Lemma append_nil_r (s : string) : s +++ "" = s.
Proof. induction s; simpl; congruence. Qed.

Lemma append_assoc (a b c : string) : (a +++ b) +++ c = a +++ (b +++ c).
Proof. induction a; simpl; congruence. Qed.




Lemma occurs_in_trans (a b c : string) :
  occurs_in a b -> occurs_in b c -> occurs_in a c.
Proof.
  intros (p1 & q1 & ->) (p2 & q2 & ->).
  exists (p2 +++ p1), (q1 +++ q2).
  now rewrite !append_assoc.
Qed.

Lemma occurs_in_app_l (a s t : string) : occurs_in a s -> occurs_in a (s +++ t).
Proof.
  intros (p & q & ->). exists p, (q +++ t). now rewrite !append_assoc.
Qed.

Lemma occurs_in_app_r (a s t : string) : occurs_in a t -> occurs_in a (s +++ t).
Proof.
  intros (p & q & ->). exists (s +++ p), q. now rewrite !append_assoc.
Qed.

Lemma occurs_in_refl (a : string) : occurs_in a a.
Proof. exists "", "". simpl. now rewrite append_nil_r. Qed.




End StringFacts.

(** * Facts about the file system *)

Section FSFacts.

Lemma assoc_set_entry_same {A} (k : string) (v : A) es :
  FS.assoc k (FS.set_entry k v es) = Some v.
Proof.
  induction es as [|[k' v'] es IH]; simpl.
  - now rewrite String.eqb_refl.
  - destruct (String.eqb k k') eqn:E; simpl.
    + now rewrite String.eqb_refl.
    + now rewrite E.
Qed.

Lemma assoc_set_entry_other {A} (k k' : string) (v : A) es :
  k <> k' -> FS.assoc k' (FS.set_entry k v es) = FS.assoc k' es.
Proof.
  intros Hne. induction es as [|[k0 v0] es IH]; simpl.
  - destruct (String.eqb_spec k' k); congruence.
  - destruct (String.eqb_spec k k0) as [->|Hk]; simpl.
    + destruct (String.eqb_spec k' k0); congruence.
    + destruct (String.eqb_spec k' k0); congruence.
Qed.

Lemma set_entry_id {A} (k : string) (v : A) es :
  FS.assoc k es = Some v -> FS.set_entry k v es = es.
Proof.
  induction es as [|[k' v'] es IH]; simpl; [discriminate|].
  destruct (String.eqb_spec k k') as [->|Hk]; intros H.
  - congruence.
  - now rewrite IH.
Qed.

Lemma lookup_app (p q : path) (n : node) :
  FS.lookup (p ++ q) n =
  match FS.lookup p n with Some m => FS.lookup q m | None => None end.
Proof.
  revert n; induction p as [|k p IH]; intros n; simpl; [reflexivity|].
  destruct n as [c|es]; [reflexivity|].
  destruct (FS.assoc k es); [apply IH | reflexivity].
Qed.

Lemma strip_prefix_app (p r : path) : strip_prefix p (p ++ r) = Some r.
Proof.
  induction p as [|a p IH]; simpl; [reflexivity|].
  now rewrite String.eqb_refl.
Qed.

Lemma strip_prefix_Some (p q r : path) : strip_prefix p q = Some r -> q = p ++ r.
Proof.
  revert q; induction p as [|a p IH]; intros q H; simpl in *.
  - congruence.
  - destruct q as [|b q]; [discriminate|].
    destruct (String.eqb_spec a b) as [->|]; [|discriminate].
    now rewrite (IH _ H).
Qed.

Lemma is_prefix_app (p r : path) : is_prefix p (p ++ r) = true.
Proof. unfold is_prefix. now rewrite strip_prefix_app. Qed.

Lemma is_prefix_refl (p : path) : is_prefix p p = true.
Proof. rewrite <- (app_nil_r p) at 2. apply is_prefix_app. Qed.

Lemma is_prefix_true (p q : path) : is_prefix p q = true -> exists r, q = p ++ r.
Proof.
  unfold is_prefix. destruct (strip_prefix p q) eqn:E; [|discriminate].
  intros _. eexists. eapply strip_prefix_Some; eauto.
Qed.

Lemma kind_at_nil (n : node) : kind_at [] n = kind_of (Some n).
Proof. reflexivity. Qed.

Lemma kind_at_file_below (p r : path) (n : node) :
  r <> [] -> kind_at p n <> KDir -> kind_at (p ++ r) n = KNone.
Proof.
  unfold kind_at. rewrite lookup_app.
  destruct (FS.lookup p n) as [[c|es]|]; simpl; intros Hr H; try congruence.
  destruct r; [congruence | reflexivity].
Qed.

Lemma kind_at_dir_above (p r : path) (n : node) :
  kind_at (p ++ r) n <> KNone -> r <> [] -> kind_at p n = KDir.
Proof.
  unfold kind_at. rewrite lookup_app.
  destruct (FS.lookup p n) as [[c|es]|]; simpl; intros H Hr; try congruence.
  destruct r; simpl in H; congruence.
Qed.

(** *** [mkchain] *)

Lemma mkchain_kind (p q : path) :
  kind_at q (FS.mkchain p) = if is_prefix q p then KDir else KNone.
Proof.
  revert q; induction p as [|k p IH]; intros q.
  - destruct q; reflexivity.
  - destruct q as [|k' q]; [reflexivity|].
    unfold kind_at, is_prefix. simpl.
    rewrite (String.eqb_sym k' k).
    destruct (String.eqb k k'); [apply IH | reflexivity].
Qed.

(** *** [makedirs] *)

Lemma makedirs_kind (b : bool) (p : path) :
  forall n n', FS.makedirs b p n = inr n' ->
  forall q, kind_at q n' = if is_prefix q p then KDir else kind_at q n.
Proof.
  induction p as [|k p IH]; intros n n' H q.
  - destruct n as [c|es]; simpl in H; [discriminate|].
    destruct b; [|discriminate]. inversion H; subst n'.
    destruct q; reflexivity.
  - destruct n as [c|es]; simpl in H; [discriminate|].
    destruct (FS.assoc k es) as [c|] eqn:Ek.
    + destruct (FS.makedirs b p c) as [e|c'] eqn:Ec; [discriminate|].
      inversion H; subst n'; clear H.
      destruct q as [|k' q]; [reflexivity|].
      unfold kind_at, is_prefix; simpl.
      destruct (String.eqb_spec k' k) as [->|Hk].
      * rewrite assoc_set_entry_same, Ek. apply (IH _ _ Ec).
      * rewrite assoc_set_entry_other by congruence. reflexivity.
    + inversion H; subst n'; clear H.
      destruct q as [|k' q]; [reflexivity|].
      unfold kind_at, is_prefix; simpl.
      destruct (String.eqb_spec k' k) as [->|Hk].
      * rewrite assoc_set_entry_same, Ek. apply mkchain_kind.
      * rewrite assoc_set_entry_other by congruence. reflexivity.
Qed.

(** [makedirs] succeeds when no file stands on the way and, without
    [exist_ok], nothing stands at the path itself. *)
Lemma makedirs_ok (b : bool) (p : path) :
  forall n,
  (forall q, is_prefix q p = true -> kind_at q n = KNone \/ kind_at q n = KDir) ->
  (b = false -> kind_at p n = KNone) ->
  exists n', FS.makedirs b p n = inr n'.
Proof.
  induction p as [|k p IH]; intros n Hq Hb.
  - destruct n as [c|es].
    + destruct (Hq [] eq_refl); discriminate.
    + destruct b; [eexists; reflexivity|].
      specialize (Hb eq_refl). discriminate.
  - destruct n as [c|es].
    + destruct (Hq [] eq_refl); discriminate.
    + simpl. destruct (FS.assoc k es) as [c|] eqn:Ek; [|eexists; reflexivity].
      destruct (IH c) as [c' Hc'].
      * intros q Hqp. specialize (Hq (k :: q)).
        unfold is_prefix in Hq; simpl in Hq. rewrite String.eqb_refl in Hq.
        specialize (Hq Hqp). unfold kind_at in Hq; simpl in Hq.
        now rewrite Ek in Hq.
      * intros Hf. specialize (Hb Hf). unfold kind_at in Hb; simpl in Hb.
        now rewrite Ek in Hb.
      * rewrite Hc'. eexists; reflexivity.
Qed.

(** A directory that is there is left as it is. *)
Lemma makedirs_id (p : path) :
  forall n, kind_at p n = KDir -> FS.makedirs true p n = inr n.
Proof.
  induction p as [|k p IH]; intros n H.
  - destruct n; [discriminate | reflexivity].
  - destruct n as [c|es]; [discriminate|].
    unfold kind_at in H; simpl in H. simpl.
    destruct (FS.assoc k es) as [c|] eqn:Ek; [|discriminate].
    rewrite (IH c H). now rewrite set_entry_id.
Qed.

(** *** [put] and [write_file] *)

Lemma put_cons (k k2 : string) (p : path) (v : node) es :
  FS.put (k :: k2 :: p) v (Dir es) =
  match FS.assoc k es with
  | Some c =>
      match FS.put (k2 :: p) v c with
      | inr c' => inr (Dir (FS.set_entry k c' es))
      | inl e => inl e
      end
  | None => inl ENOENT
  end.
Proof. reflexivity. Qed.

Lemma put_kind (p : path) (v : node) :
  forall n n', FS.put p v n = inr n' ->
  forall q, kind_at q n' =
            match strip_prefix p q with
            | Some r => kind_at r v
            | None => kind_at q n
            end.
Proof.
  induction p as [|k p IH]; intros n n' H q; [discriminate|].
  destruct n as [c|es]; [destruct p; discriminate|].
  destruct p as [|k2 p].
  - simpl in H. inversion H; subst n'; clear H.
    destruct q as [|k' q]; [reflexivity|].
    unfold kind_at; simpl.
    destruct (String.eqb_spec k k') as [<-|Hk].
    + rewrite assoc_set_entry_same. reflexivity.
    + rewrite assoc_set_entry_other by congruence. reflexivity.
  - rewrite put_cons in H.
    destruct (FS.assoc k es) as [c|] eqn:Ek; [|discriminate].
    destruct (FS.put (k2 :: p) v c) as [e|c'] eqn:Ec; [discriminate|].
    inversion H; subst n'; clear H.
    destruct q as [|k' q]; [reflexivity|].
    cbn [strip_prefix].
    destruct (String.eqb_spec k k') as [<-|Hk].
    + unfold kind_at; cbn [FS.lookup].
      rewrite assoc_set_entry_same, Ek. apply (IH _ _ Ec).
    + unfold kind_at; cbn [FS.lookup].
      rewrite assoc_set_entry_other by congruence. reflexivity.
Qed.

Lemma put_ok (d : path) (k : string) (v : node) :
  forall n, kind_at d n = KDir -> exists n', FS.put (d ++ [k]) v n = inr n'.
Proof.
  induction d as [|a d IH]; intros n H.
  - destruct n as [c|es]; [discriminate|]. eexists; reflexivity.
  - destruct n as [c|es]; [discriminate|].
    unfold kind_at in H; simpl in H.
    destruct (FS.assoc a es) as [c|] eqn:Ea; [|discriminate].
    destruct (IH c H) as [c' Hc'].
    change ((a :: d) ++ [k]) with (a :: (d ++ [k])).
    destruct (d ++ [k]) as [|x l] eqn:El; [destruct d; discriminate|].
    rewrite put_cons, Ea, Hc'. eexists; reflexivity.
Qed.


Lemma strip_prefix_self_cases (p q : path) :
  (q = p /\ strip_prefix p q = Some []) \/
  (exists r, r <> [] /\ q = p ++ r /\ strip_prefix p q = Some r) \/
  (q <> p /\ strip_prefix p q = None).
Proof.
  destruct (strip_prefix p q) as [r|] eqn:E.
  - pose proof (strip_prefix_Some _ _ E) as ->.
    destruct r as [|x r].
    + left. now rewrite app_nil_r.
    + right; left. exists (x :: r). repeat split; congruence.
  - right; right. split; [|reflexivity].
    intros ->. rewrite <- (app_nil_r p) in E at 2.
    rewrite strip_prefix_app in E. discriminate.
Qed.

Lemma write_file_kind (p : path) (c : content) (n n' : node) :
  FS.write_file p c n = inr n' ->
  forall q, (q = p -> kind_at q n' = KFile c) /\
            (q <> p -> kind_at q n' = kind_at q n).
Proof.
  unfold FS.write_file. intros H q.
  assert (Hnd : kind_at p n <> KDir).
  { unfold kind_at. destruct (FS.lookup p n) as [[?|?]|]; simpl; congruence. }
  assert (Hput : FS.put p (File c) n = inr n').
  { destruct (FS.lookup p n) as [[?|?]|]; congruence. }
  rewrite (put_kind _ _ _ Hput q).
  destruct (strip_prefix_self_cases p q) as [[-> E]|[(r & Hr & -> & E)|[Hne E]]];
    rewrite E.
  - split; [reflexivity | congruence].
  - split.
    + intros Heq. exfalso. apply Hr.
      apply (app_inv_head p). now rewrite app_nil_r.
    + intros _. rewrite kind_at_file_below by assumption.
      destruct r; [congruence | reflexivity].
  - split; [congruence | reflexivity].
Qed.

Lemma write_file_ok (d : path) (k : string) (c : content) (n : node) :
  kind_at d n = KDir -> kind_at (d ++ [k]) n <> KDir ->
  exists n', FS.write_file (d ++ [k]) c n = inr n'.
Proof.
  intros Hd Hk. unfold FS.write_file.
  destruct (put_ok d k (File c) n Hd) as [n' Hn'].
  unfold kind_at in Hk.
  destruct (FS.lookup (d ++ [k]) n) as [[?|?]|]; simpl in Hk;
    try congruence; eauto.
Qed.


End FSFacts.

Section PrefixFacts.

Lemma is_prefix_snoc (q p : path) (a : string) :
  is_prefix q (p ++ [a]) = true -> is_prefix q p = true \/ q = p ++ [a].
Proof.
  revert q; induction p as [|k p IH]; intros q H.
  - destruct q as [|b q]; [now left|].
    unfold is_prefix in H; simpl in H.
    destruct (String.eqb_spec b a) as [->|]; [|discriminate].
    destruct q; [now right | discriminate].
  - destruct q as [|b q]; [now left|].
    unfold is_prefix in *; simpl in *.
    destruct (String.eqb_spec b k) as [->|]; [|discriminate].
    destruct (IH q H) as [Hp| ->]; [now left | now right].
Qed.

Lemma kind_at_prefix_of_dir (q p : path) (n : node) :
  is_prefix q p = true -> kind_at p n = KDir -> kind_at q n = KDir.
Proof.
  intros Hq Hp. destruct (is_prefix_true _ _ Hq) as [r ->].
  destruct r as [|x r].
  - now rewrite app_nil_r in Hp.
  - apply (@kind_at_dir_above q (x :: r) n); congruence.
Qed.

End PrefixFacts.

Section PutFrame.

(** A binding leaves alone what is neither above nor below it. *)
Lemma put_lookup_other (p : path) (v : node) :
  forall n n' q, FS.put p v n = inr n' ->
  is_prefix q p = false -> is_prefix p q = false ->
  FS.lookup q n' = FS.lookup q n.
Proof.
  induction p as [|k p IH]; intros n n' q H Hqp Hpq; [discriminate|].
  destruct n as [c|es]; [destruct p; discriminate|].
  destruct q as [|k' q]; [discriminate|].
  unfold is_prefix in Hqp, Hpq. cbn [strip_prefix] in Hqp, Hpq.
  destruct p as [|k2 p].
  - simpl in H. inversion H; subst n'; clear H.
    cbn [FS.lookup].
    destruct (String.eqb_spec k k') as [<-|Hk]; [discriminate|].
    now rewrite assoc_set_entry_other.
  - rewrite put_cons in H.
    destruct (FS.assoc k es) as [c|] eqn:Ek; [|discriminate].
    destruct (FS.put (k2 :: p) v c) as [e|c'] eqn:Ec; [discriminate|].
    inversion H; subst n'; clear H.
    cbn [FS.lookup].
    destruct (String.eqb_spec k k') as [<-|Hk].
    + rewrite String.eqb_refl in Hqp.
      rewrite assoc_set_entry_same, Ek.
      apply (IH _ _ _ Ec); assumption.
    + now rewrite assoc_set_entry_other.
Qed.

End PutFrame.

Section DelFacts.

Lemma assoc_remove_entry_same {A} (k : string) (es : list (string * A)) :
  FS.assoc k (FS.remove_entry k es) = None.
Proof.
  induction es as [|[k' v'] es IH]; [reflexivity|].
  simpl. destruct (String.eqb k k') eqn:E; [exact IH|].
  simpl. now rewrite E.
Qed.

Lemma assoc_remove_entry_other {A} (k k' : string) (es : list (string * A)) :
  k <> k' -> FS.assoc k' (FS.remove_entry k es) = FS.assoc k' es.
Proof.
  intros Hne. induction es as [|[k0 v0] es IH]; [reflexivity|].
  simpl. destruct (String.eqb_spec k k0) as [->|Hk].
  - rewrite IH. destruct (String.eqb_spec k' k0); congruence.
  - simpl. now rewrite IH.
Qed.

Lemma del_cons (k k2 : string) (p : path) es :
  FS.del (k :: k2 :: p) (Dir es) =
  match FS.assoc k es with
  | Some c =>
      match FS.del (k2 :: p) c with
      | inr c' => inr (Dir (FS.set_entry k c' es))
      | inl e => inl e
      end
  | None => inl ENOENT
  end.
Proof. reflexivity. Qed.

(** After [del] nothing stands at the path or below it; the rest is as
    it was. *)
Lemma del_kind (p : path) :
  forall n n', FS.del p n = inr n' ->
  forall q, kind_at q n' = if is_prefix p q then KNone else kind_at q n.
Proof.
  induction p as [|k p IH]; intros n n' H q; [discriminate|].
  destruct n as [c|es]; [destruct p; discriminate|].
  destruct p as [|k2 p].
  - simpl in H. destruct (FS.assoc k es) eqn:Ek; [|discriminate].
    inversion H; subst n'; clear H.
    destruct q as [|k' q]; [reflexivity|].
    unfold kind_at, is_prefix; cbn [FS.lookup strip_prefix].
    destruct (String.eqb_spec k k') as [<-|Hk].
    + now rewrite assoc_remove_entry_same.
    + now rewrite assoc_remove_entry_other.
  - rewrite del_cons in H.
    destruct (FS.assoc k es) as [c|] eqn:Ek; [|discriminate].
    destruct (FS.del (k2 :: p) c) as [e|c'] eqn:Ec; [discriminate|].
    inversion H; subst n'; clear H.
    destruct q as [|k' q]; [reflexivity|].
    unfold is_prefix; cbn [strip_prefix].
    destruct (String.eqb_spec k k') as [<-|Hk].
    + unfold kind_at; cbn [FS.lookup].
      rewrite assoc_set_entry_same, Ek. apply (IH _ _ Ec).
    + unfold kind_at; cbn [FS.lookup].
      now rewrite assoc_set_entry_other.
Qed.

Lemma del_ok (p : path) :
  forall n, p <> [] -> kind_at p n <> KNone -> exists n', FS.del p n = inr n'.
Proof.
  induction p as [|k p IH]; intros n Hp H; [congruence|].
  destruct n as [c|es]; [now destruct H|].
  unfold kind_at in H; cbn [FS.lookup] in H.
  destruct (FS.assoc k es) as [c|] eqn:Ek; [|now destruct H].
  destruct p as [|k2 p].
  - simpl. rewrite Ek. eexists; reflexivity.
  - rewrite del_cons, Ek.
    destruct (IH c) as [c' Hc']; [discriminate | exact H |].
    rewrite Hc'. eexists; reflexivity.
Qed.

(** [rmtree] removes a directory that is there. *)
Lemma rmtree_ok (p : path) (n : node) :
  p <> [] -> kind_at p n = KDir ->
  exists n', FS.rmtree p n = inr n' /\
             forall q, kind_at q n' = if is_prefix p q then KNone else kind_at q n.
Proof.
  intros Hp H. unfold FS.rmtree.
  destruct (@del_ok p n Hp) as [n' Hn']; [congruence|].
  unfold kind_at in H.
  destruct (FS.lookup p n) as [[?|?]|]; try discriminate.
  exists n'. split; [exact Hn' | now apply del_kind].
Qed.

End DelFacts.

Section PathFacts.

Lemma is_prefix_nil (q : path) : is_prefix [] q = true.
Proof. reflexivity. Qed.

Lemma is_prefix_cons (x y : string) (p q : path) :
  is_prefix (x :: p) (y :: q) = String.eqb x y && is_prefix p q.
Proof. unfold is_prefix. cbn [strip_prefix]. now destruct (String.eqb x y). Qed.

Lemma is_prefix_cons_nil (x : string) (p : path) : is_prefix (x :: p) [] = false.
Proof. reflexivity. Qed.

Lemma is_prefix_app_head (p a b : path) : is_prefix (p ++ a) (p ++ b) = is_prefix a b.
Proof.
  induction p as [|k p IH]; [reflexivity|].
  cbn [app]. now rewrite is_prefix_cons, String.eqb_refl, IH.
Qed.

Lemma put_kind_other (p q : path) (v n n' : node) :
  FS.put p v n = inr n' -> is_prefix p q = false -> kind_at q n' = kind_at q n.
Proof.
  intros H Hpq. rewrite (put_kind _ _ _ H). unfold is_prefix in Hpq.
  now destruct (strip_prefix p q).
Qed.

Lemma put_kind_same (p : path) (v n n' : node) :
  FS.put p v n = inr n' -> kind_at p n' = kind_of (Some v).
Proof.
  intros H. rewrite (put_kind _ _ _ H).
  rewrite <- (app_nil_r p) at 2. now rewrite strip_prefix_app.
Qed.

End PathFacts.

(** * The patch stage *)

(** Unfold the monad on a concrete world record. *)
Ltac run_monad :=
  cbv beta iota zeta delta
    [bind ret raise try_except fs_call get_fs set_fs emit progress
     write_text read_text append_bytes path_exists
     fs trace uuid_calls negb].

Ltac run_monad_in H :=
  cbv beta iota zeta delta
    [bind ret raise try_except fs_call get_fs set_fs emit progress
     write_text read_text append_bytes path_exists
     fs trace uuid_calls negb] in H.

Section PatchFacts.

Lemma set_fs_same (w : World) : set_fs (fs w) w = w.
Proof. now destruct w. Qed.

Lemma kind_of_file (o : option node) (c : content) :
  kind_of o = KFile c -> o = Some (File c).
Proof. destruct o as [[?|?]|]; simpl; congruence. Qed.

Lemma kind_at_exists (p : path) (n : node) :
  FS.exists_ p n = negb (match kind_at p n with KNone => true | _ => false end).
Proof.
  unfold FS.exists_, kind_at. now destruct (FS.lookup p n) as [[?|?]|].
Qed.

Lemma strip_prefix_app_both (p a b : path) :
  strip_prefix (p ++ a) (p ++ b) = strip_prefix a b.
Proof.
  induction p as [|k p IH]; simpl; [reflexivity|].
  now rewrite String.eqb_refl.
Qed.










(** The run of [mitm_patch], call by call. *)
Lemma mitm_patch_run (pd : path) (w : World) :
  mitm_patch pd w =
  match FS.makedirs true (res_xml_dir pd) (fs w) with
  | inl e => (Raise (OSError e), w)
  | inr n1 =>
      match FS.write_file (config_path pd) (Raw config_content) n1 with
      | inl e => (Raise (OSError e), set_fs n1 w)
      | inr n2 =>
          if FS.exists_ (manifest_path pd) n2
          then
            match FS.read_file (manifest_path pd) n2 with
            | inr (Raw s) =>
                if negb (PyStr.contains manifest_attribute s)
                then
                  match FS.write_file (manifest_path pd)
                          (Raw (PyStr.replace application_tag patched_application_tag s)) n2 with
                  | inr n3 => (Ret patch_applied, set_fs n3 w)
                  | inl e => (Raise (OSError e), set_fs n2 w)
                  end
                else (Ret patch_applied, set_fs n2 w)
            | inr (Archive _) => (Raise UnicodeDecodeError, set_fs n2 w)
            | inl e => (Raise (OSError e), set_fs n2 w)
            end
          else (Ret patch_failed, set_fs n2 w)
      end
  end.
Proof.
  destruct w as [n tr u].
  unfold mitm_patch, config_path, res_xml_dir, manifest_path.
  run_monad.
  destruct (FS.makedirs true (pd ++ ["res"; "xml"]) n) as [e|n1]; [reflexivity|].
  run_monad.
  destruct (FS.write_file _ (Raw config_content) n1) as [e|n2]; [reflexivity|].
  run_monad.
  destruct (FS.exists_ (pd ++ ["AndroidManifest.xml"]) n2); [|reflexivity].
  run_monad.
  destruct (FS.read_file (pd ++ ["AndroidManifest.xml"]) n2) as [e|[s|ms]];
    try reflexivity.
  run_monad.
  destruct (PyStr.contains manifest_attribute s); [reflexivity|].
  run_monad.
  destruct (FS.write_file (pd ++ ["AndroidManifest.xml"]) _ n2); reflexivity.
Qed.


Lemma read_file_kind (p : path) (n : node) :
  FS.read_file p n =
  match kind_at p n with
  | KFile c => inr c
  | KDir => inl EISDIR
  | KNone => inl ENOENT
  end.
Proof.
  unfold FS.read_file, kind_at. now destruct (FS.lookup p n) as [[?|?]|].
Qed.







End PatchFacts.

(** * What the pipelines emit and raise *)

Section Respects.

Variables (P : event -> Prop) (Q : exn -> Prop).

Lemma respects_ret {A} (a : A) : respects P Q (ret a).
Proof.
  intros w r w' H. inversion H; subst. split.
  - exists []. now rewrite app_nil_r.
  - discriminate.
Qed.

Lemma respects_raise {A} (e : exn) : Q e -> respects P Q (@raise A e).
Proof.
  intros He w r w' H. inversion H; subst. split.
  - exists []. now rewrite app_nil_r.
  - intros e' Heq. now inversion Heq; subst.
Qed.

Lemma respects_bind {A B} (c : M A) (k : A -> M B) :
  respects P Q c -> (forall a, respects P Q (k a)) -> respects P Q (bind c k).
Proof.
  intros Hc Hk w r w' H. unfold bind in H.
  destruct (c w) as [[a|e] w1] eqn:Ec.
  - destruct (Hc _ _ _ Ec) as [(evs1 & T1 & F1) _].
    destruct (Hk a _ _ _ H) as [(evs2 & T2 & F2) R2].
    split; [|exact R2].
    exists (evs1 ++ evs2). rewrite T2, T1, app_assoc. split; [reflexivity|].
    apply Forall_app; auto.
  - inversion H; subst. destruct (Hc _ _ _ Ec) as [T R]. split; [exact T|].
    intros e' Heq. inversion Heq; subst. now apply R.
Qed.

Lemma respects_get_fs : respects P Q get_fs.
Proof.
  intros w r w' H. inversion H; subst. split.
  - exists []. now rewrite app_nil_r.
  - discriminate.
Qed.

Lemma respects_fs_call (f : node -> oserror + node) :
  (forall e, Q (OSError e)) -> respects P Q (fs_call f).
Proof.
  intros HQ w r w' H. unfold fs_call in H.
  destruct (f (fs w)); inversion H; subst; (split;
    [exists []; now rewrite app_nil_r | intros e' Heq; inversion Heq; subst; auto]).
Qed.

Lemma respects_progress (fr : QArith_base.Q) (d : string) :
  P (EvProgress fr d) -> respects P Q (progress fr d).
Proof.
  intros HP w r w' H. inversion H; subst. split.
  - exists [EvProgress fr d]. split; [reflexivity | now constructor].
  - discriminate.
Qed.

Lemma respects_path_exists (p : path) : respects P Q (path_exists p).
Proof.
  apply respects_bind; [apply respects_get_fs | intros; apply respects_ret].
Qed.

Lemma respects_read_text (p : path) :
  (forall e, Q (OSError e)) -> Q UnicodeDecodeError -> respects P Q (read_text p).
Proof.
  intros H1 H2. apply respects_bind; [apply respects_get_fs|].
  intros n. destruct (FS.read_file p n) as [e|[s|ms]].
  - now apply respects_raise.
  - apply respects_ret.
  - now apply respects_raise.
Qed.

Lemma respects_for_each {A} (l : list A) (body : A -> M unit) :
  (forall x, respects P Q (body x)) -> respects P Q (for_each l body).
Proof.
  intros Hb. induction l as [|x l IH]; simpl.
  - apply respects_ret.
  - apply respects_bind; auto.
Qed.

Lemma respects_for_fold {A S} (l : list A) (body : S -> A -> M S) :
  (forall s x, respects P Q (body s x)) -> forall s, respects P Q (for_fold l s body).
Proof.
  intros Hb. induction l as [|x l IH]; intros s; simpl.
  - apply respects_ret.
  - apply respects_bind; auto.
Qed.

End Respects.

(** One step of a proof of [respects]: a monad operation, a branch, or
    a lemma of the [respects] hint database. *)
Create HintDb respects discriminated.

Ltac respects_step :=
  first
    [ apply respects_ret
    | apply respects_get_fs
    | apply respects_path_exists
    | solve [auto 3 with respects]
    | apply respects_bind; [|intros]
    | match goal with
      | |- respects _ _ (if ?b then _ else _) => destruct b
      | |- respects _ _ (match ?x with _ => _ end) => destruct x
      end ].

Ltac respects_all := repeat respects_step.

Section RespectsPipeline.

Variable env : Env.
Variables (P : event -> Prop) (Q : exn -> Prop).

Hypothesis P_run : forall c d, P (EvRun c d).
Hypothesis P_progress : forall f d, P (EvProgress f d).
Hypothesis Q_os : forall e, Q (OSError e).
Hypothesis Q_unicode : Q UnicodeDecodeError.

Lemma respects_run_command (command : list string) (cwd : option path) :
  respects P Q (_run_command env command cwd).
Proof.
  intros w r w' H. unfold _run_command in H.
  destruct (popen env command cwd (fs w)) as [[rc out err|msg] n];
    [destruct (negb (Z.eqb rc 0))|]; inversion H; subst;
    (split; [exists [EvRun command cwd]; split; [reflexivity | constructor; auto]
            | discriminate]).
Qed.

Lemma respects_uuid4_hex8 : respects P Q (uuid4_hex8 env).
Proof.
  intros w r w' H. inversion H; subst. split.
  - exists []. now rewrite app_nil_r.
  - discriminate.
Qed.

Hint Resolve respects_run_command respects_uuid4_hex8 : respects.
Hint Extern 1 (respects _ _ (fs_call _)) => apply respects_fs_call; assumption : respects.
Hint Extern 1 (respects _ _ (progress _ _)) => apply respects_progress; auto : respects.
Hint Extern 1 (respects _ _ (read_text _)) => apply respects_read_text; assumption : respects.
Hint Extern 1 (respects _ _ (write_text _ _)) => apply respects_fs_call; assumption : respects.

Lemma respects_mitm_patch (pd : path) : respects P Q (mitm_patch pd).
Proof. unfold mitm_patch. respects_all. Qed.

Lemma respects_create_zip (src zip : path) : respects P Q (create_zip src zip).
Proof. unfold create_zip. respects_all. now apply respects_raise. Qed.

Hint Resolve respects_mitm_patch respects_create_zip : respects.

Lemma respects_apktool_decode a o l : respects P Q (apktool_decode env a o l).
Proof. unfold apktool_decode. auto with respects. Qed.

Lemma respects_quark_analyze a o : respects P Q (quark_analyze env a o).
Proof. unfold quark_analyze. auto with respects. Qed.

Lemma respects_jadx_decompile a o l : respects P Q (jadx_decompile env a o l).
Proof. unfold jadx_decompile. auto with respects. Qed.

Lemma respects_check_tools : respects P Q (check_tools env).
Proof. unfold check_tools. respects_all. Qed.

Hint Resolve respects_apktool_decode respects_quark_analyze respects_jadx_decompile
  respects_check_tools : respects.

Lemma respects_from_step_6 a pn pd j o l :
  respects P Q (process_apk_from_step_6 env a pn pd j o l).
Proof. unfold process_apk_from_step_6. respects_all. Qed.

Hint Resolve respects_from_step_6 : respects.

Lemma respects_from_step_5 a pn pd ao j o l :
  respects P Q (process_apk_from_step_5 env a pn pd ao j o l).
Proof. unfold process_apk_from_step_5. respects_all. Qed.

Hint Resolve respects_from_step_5 : respects.

Lemma respects_from_step_3 a o l :
  respects P Q (process_apk_from_step_3 env a o l).
Proof. unfold process_apk_from_step_3. respects_all. Qed.

End RespectsPipeline.

Section RespectsDownload.

Variable env : Env.
Variables (P : event -> Prop) (Q : exn -> Prop).

Hypothesis P_http : forall u, P (EvHttpGet u).
Hypothesis P_progress : forall f d, P (EvProgress f d).
Hypothesis Q_all : forall e, Q e.

Lemma respects_try_except {A} (c : M A) (handles : exn -> bool) (h : exn -> M A) :
  respects P Q c -> (forall e, respects P Q (h e)) ->
  respects P Q (try_except c handles h).
Proof.
  intros Hc Hh w r w' H. unfold try_except in H.
  destruct (c w) as [[a|e] w1] eqn:Ec.
  - inversion H; subst. exact (Hc _ _ _ Ec).
  - destruct (Hc _ _ _ Ec) as [(evs1 & T1 & F1) _].
    destruct (handles e).
    + destruct (Hh e _ _ _ H) as [(evs2 & T2 & F2) R2].
      split; [|exact R2].
      exists (evs1 ++ evs2). rewrite T2, T1, app_assoc. split; [reflexivity|].
      apply Forall_app; auto.
    + inversion H; subst. split; [eauto | auto].
Qed.

Lemma respects_http_get (url : string) : respects P Q (http_get env url).
Proof.
  intros w r w' H. unfold http_get in H.
  destruct (requests_get env url); inversion H; subst;
    (split; [exists [EvHttpGet url]; split; [reflexivity | constructor; auto] | auto]).
Qed.

Lemma respects_truediv (a b : Z) : respects P Q (truediv a b).
Proof.
  unfold truediv. destruct (Z.eqb b 0);
    [apply respects_raise; auto | apply respects_ret].
Qed.

Lemma respects_append_bytes (p : path) (s : string) : respects P Q (append_bytes p s).
Proof.
  unfold append_bytes. apply respects_bind; [apply respects_get_fs|].
  intros n. destruct (FS.read_file p n) as [e|[b|ms]];
    try (apply respects_fs_call; auto). apply respects_raise; auto.
Qed.

Lemma respects_download_apk (url : string) : respects P Q (download_apk env url).
Proof.
  unfold download_apk. apply respects_try_except.
  - apply respects_bind; [apply respects_http_get|]. intros r.
    apply respects_bind.
    { unfold raise_for_status. destruct (status_error r);
        [apply respects_raise; auto | apply respects_ret]. }
    intros _. apply respects_bind; [apply respects_fs_call; auto|]. intros _.
    apply respects_bind.
    { apply respects_for_fold. intros s x.
      apply respects_bind; [apply respects_append_bytes|]. intros _.
      apply respects_bind; [apply respects_truediv|]. intros fr.
      apply respects_bind; [apply respects_progress; auto|]. intros _.
      apply respects_ret. }
    intros _. destruct (stream_error r); [apply respects_raise; auto | apply respects_ret].
  - intros e. apply respects_raise; auto.
Qed.

End RespectsDownload.

(** * Archives: names, walks and extraction *)

Section NameFacts.

Lemma contains_slash_cons (c : ascii) (k : string) :
  PyStr.contains "/" (String c k) = false ->
  Ascii.eqb c "/" = false /\ PyStr.contains "/" k = false.
Proof.
  cbn [PyStr.contains PyStr.startswith]. intros H.
  apply orb_false_elim in H as [H1 H2].
  rewrite andb_true_r in H1. rewrite Ascii.eqb_sym. now split.
Qed.

Lemma split_no_slash (k : string) :
  PyStr.contains "/" k = false -> PyStr.split "/" k = [k].
Proof.
  induction k as [|c k IH]; intros H; [reflexivity|].
  apply contains_slash_cons in H as [Hc Hk].
  cbn [PyStr.split]. rewrite Hc, (IH Hk). reflexivity.
Qed.

Lemma split_field (k s : string) :
  PyStr.contains "/" k = false ->
  PyStr.split "/" (k +++ String "/" s) = k :: PyStr.split "/" s.
Proof.
  induction k as [|c k IH]; intros H; [reflexivity|].
  apply contains_slash_cons in H as [Hc Hk].
  cbn [String.append PyStr.split]. rewrite Hc, (IH Hk). reflexivity.
Qed.

Lemma join_cons (k k2 : string) (l : list string) :
  PyStr.join "/" (k :: k2 :: l) = k +++ String "/" (PyStr.join "/" (k2 :: l)).
Proof. reflexivity. Qed.

Lemma split_join (rel : list string) :
  Forall (fun k => PyStr.contains "/" k = false) rel -> rel <> [] ->
  PyStr.split "/" (PyStr.join "/" rel) = rel.
Proof.
  induction rel as [|k rel IH]; intros Hf Hne; [congruence|].
  inversion Hf as [|? ? Hk Hrel]; subst.
  destruct rel as [|k2 rel].
  - now apply split_no_slash.
  - rewrite join_cons, split_field by assumption.
    rewrite IH; [reflexivity | assumption | discriminate].
Qed.

Lemma valid_name_parts (k : string) :
  valid_name k = true ->
  Zip.invalid_path_part k = false /\ PyStr.contains "/" k = false /\ k <> "".
Proof.
  unfold valid_name. intros H. apply andb_prop in H as [H1 H2].
  apply negb_true_iff in H1. apply negb_true_iff in H2.
  repeat split; try assumption.
  intros ->. discriminate.
Qed.

(** The name that [create_zip] gives to a file is split back into the
    components of its relative path. *)
Lemma arcname_parts_join (rel : list string) :
  Forall (fun k => valid_name k = true) rel -> rel <> [] ->
  Zip.arcname_parts (PyStr.join "/" rel) = rel.
Proof.
  intros Hf Hne. unfold Zip.arcname_parts.
  rewrite split_join; [|eapply Forall_impl; [|exact Hf];
                        intros k Hk; apply (valid_name_parts _ Hk) | assumption].
  clear Hne. induction Hf as [|k rel Hk _ IH]; [reflexivity|].
  simpl. destruct (valid_name_parts _ Hk) as (Hinv & _ & _).
  rewrite Hinv. simpl. now rewrite IH.
Qed.

Lemma endswith_slash_name (pre k : string) :
  k <> "" -> PyStr.contains "/" k = false -> PyStr.endswith "/" (pre +++ k) = false.
Proof.
  intros Hne Hk.
  assert (Hbase : PyStr.endswith "/" k = false).
  { clear Hne. induction k as [|c k IH]; [reflexivity|].
    apply contains_slash_cons in Hk as [Hc Hk'].
    cbn [PyStr.endswith]. rewrite (IH Hk'), orb_false_r.
    cbn [String.eqb]. rewrite Ascii.eqb_sym, Hc. reflexivity. }
  induction pre as [|a pre IH]; [exact Hbase|].
  cbn [String.append PyStr.endswith]. rewrite IH, orb_false_r.
  cbn [String.eqb]. destruct (Ascii.eqb "/" a); [|reflexivity].
  destruct (pre +++ k) eqn:E; [|reflexivity].
  destruct pre; simpl in E; [congruence | discriminate].
Qed.

Lemma join_last (l : list string) (k : string) :
  exists pre, PyStr.join "/" (l ++ [k]) = pre +++ k.
Proof.
  induction l as [|x l [pre IH]].
  - now exists "".
  - destruct (l ++ [k]) as [|y l'] eqn:E; [destruct l; discriminate|].
    exists (x +++ String "/" pre).
    change ((x :: l) ++ [k]) with (x :: (l ++ [k])). rewrite E, join_cons, IH.
    now rewrite append_assoc.
Qed.

Lemma join_not_dir_name (rel : list string) :
  Forall (fun k => valid_name k = true) rel -> rel <> [] ->
  PyStr.endswith "/" (PyStr.join "/" rel) = false.
Proof.
  intros Hf Hne.
  destruct (exists_last Hne) as (l & k & ->).
  destruct (join_last l k) as [pre ->].
  apply Forall_app in Hf as [_ Hk]. inversion Hk as [|? ? Hv _]; subst.
  destruct (valid_name_parts _ Hv) as (_ & Hs & Hn).
  now apply endswith_slash_name.
Qed.

Lemma commonprefix_app (a b : path) : PyPath.commonprefix a (a ++ b) = a.
Proof.
  induction a as [|x a IH]; [now destruct b|].
  simpl. now rewrite String.eqb_refl, IH.
Qed.

Lemma relpath_below (src rel : path) :
  rel <> [] -> PyPath.relpath (src ++ rel) src = PyStr.join "/" rel.
Proof.
  intros Hne. unfold PyPath.relpath.
  rewrite commonprefix_app, Nat.sub_diag, skipn_app, skipn_all, Nat.sub_diag.
  simpl. destruct rel; [congruence | reflexivity].
Qed.

End NameFacts.

Section WalkFacts.

Lemma assoc_In {A} (k : string) (v : A) es : FS.assoc k es = Some v -> In (k, v) es.
Proof.
  induction es as [|[k' v'] es IH]; simpl; [discriminate|].
  destruct (String.eqb_spec k k') as [->|_]; intros H.
  - left. congruence.
  - right. auto.
Qed.

Lemma In_assoc {A} (k : string) (v : A) es :
  NoDup (map fst es) -> In (k, v) es -> FS.assoc k es = Some v.
Proof.
  induction es as [|[k' v'] es IH]; simpl; intros Hnd Hin; [contradiction|].
  inversion Hnd as [|? ? Hnotin Hnd']; subst.
  destruct Hin as [Heq|Hin].
  - inversion Heq; subst. now rewrite String.eqb_refl.
  - destruct (String.eqb_spec k k') as [->|_]; [|auto].
    exfalso. apply Hnotin. apply (in_map fst) in Hin. exact Hin.
Qed.

Lemma In_filenames (f : string) es :
  In f (FS.filenames es) <-> exists c, In (f, File c) es.
Proof.
  unfold FS.filenames. rewrite in_map_iff. split.
  - intros ([k v] & <- & Hin). apply filter_In in Hin as [Hin Hv].
    destruct v as [c|?]; [|discriminate]. now exists c.
  - intros [c Hin]. exists (f, File c). split; [reflexivity|].
    apply filter_In. now split.
Qed.

Lemma walk_node_dir (root : path) es :
  FS.walk_node root (Dir es) =
  (root, FS.dirnames es, FS.filenames es) ::
  flat_map (fun e => FS.walk_node (root ++ [fst e]) (snd e)) es.
Proof.
  cbn [FS.walk_node]. f_equal.
  induction es as [|[k c] es IH]; [reflexivity|].
  cbn [flat_map fst snd]. now rewrite IH.
Qed.

Lemma flat_map_flat_map {A B C} (f : B -> list C) (g : A -> list B) (l : list A) :
  flat_map f (flat_map g l) = flat_map (fun x => flat_map f (g x)) l.
Proof.
  induction l as [|x l IH]; [reflexivity|].
  change (flat_map g (x :: l)) with (g x ++ flat_map g l).
  rewrite flat_map_app, IH. reflexivity.
Qed.

Lemma listing_dir (root : path) es :
  listing root (Dir es) =
  map (fun file => root ++ [file]) (FS.filenames es) ++
  flat_map (fun e => listing (root ++ [fst e]) (snd e)) es.
Proof.
  unfold listing. rewrite walk_node_dir.
  match goal with
  | |- flat_map ?f (?x :: ?l) = _ => change (flat_map f (x :: l)) with (f x ++ flat_map f l)
  end.
  now rewrite flat_map_flat_map.
Qed.

Lemma listing_file (root : path) (c : content) : listing root (File c) = [].
Proof. reflexivity. Qed.

(** Every file of the tree is visited. *)
Lemma listing_complete (rel : path) :
  forall (root : path) (t : node) (c : content),
  rel <> [] -> FS.lookup rel t = Some (File c) -> In (root ++ rel) (listing root t).
Proof.
  induction rel as [|k rel IH]; intros root t c Hne H; [congruence|].
  destruct t as [c0|es]; [discriminate|].
  cbn [FS.lookup] in H. destruct (FS.assoc k es) as [ch|] eqn:Ek; [|discriminate].
  rewrite listing_dir. apply in_or_app.
  destruct rel as [|k2 rel].
  - left. cbn [FS.lookup] in H. inversion H; subst ch.
    apply (in_map (fun file => root ++ [file]) _ k).
    apply In_filenames. exists c. now apply assoc_In.
  - right. apply in_flat_map. exists (k, ch). split; [now apply assoc_In|].
    cbn [fst snd]. replace (root ++ k :: k2 :: rel) with ((root ++ [k]) ++ k2 :: rel)
      by now rewrite <- app_assoc.
    eapply IH; [discriminate | exact H].
Qed.

(** Induction on a well-formed tree, with the hypothesis for every
    entry of a directory. *)
Lemma well_formed_ind' (P : node -> Prop)
  (Hfile : forall c, P (File c))
  (Hdir : forall es,
      NoDup (map fst es) ->
      Forall (fun e => valid_name (fst e) = true /\ well_formed (snd e)) es ->
      Forall (fun e => P (snd e)) es -> P (Dir es))
  (t : node) (H : well_formed t) : P t.
Proof.
  revert t H.
  exact (fix rec (t : node) (H : well_formed t) {struct H} : P t :=
           match H with
           | wf_file c => Hfile c
           | wf_dir Hnd Hall =>
               Hdir _ Hnd Hall
                 ((fix entries l (Hl : Forall (fun e => valid_name (fst e) = true /\
                                                        well_formed (snd e)) l)
                     {struct Hl} : Forall (fun e => P (snd e)) l :=
                     match Hl with
                     | Forall_nil _ => Forall_nil _
                     | @Forall_cons _ _ x l' (conj _ Hw) Hl' =>
                         @Forall_cons _ (fun e => P (snd e)) x l'
                           (rec _ Hw) (entries l' Hl')
                     end) _ Hall)
           end).
Qed.

(** In a well-formed tree only files of the tree are visited, under
    valid names. *)
Lemma listing_sound (t : node) :
  well_formed t ->
  forall (root p : path), In p (listing root t) ->
  exists rel c, p = root ++ rel /\ rel <> [] /\
                FS.lookup rel t = Some (File c) /\
                Forall (fun k => valid_name k = true) rel.
Proof.
  induction 1 as [c|es Hnd Hall IH] using well_formed_ind'.
  - intros root p [].
  - intros root p Hin. rewrite listing_dir in Hin.
    apply in_app_or in Hin as [Hin|Hin].
    + apply in_map_iff in Hin as (f & <- & Hf).
      apply In_filenames in Hf as [c Hc].
      exists [f], c. split; [reflexivity|]. split; [discriminate|]. split.
      * cbn [FS.lookup]. now rewrite (In_assoc _ _ _ Hnd Hc).
      * constructor; [|constructor].
        rewrite Forall_forall in Hall. exact (proj1 (Hall _ Hc)).
    + apply in_flat_map in Hin as ([k ch] & Hkc & Hin). cbn [fst snd] in Hin.
      rewrite Forall_forall in IH.
      destruct (IH _ Hkc _ _ Hin) as (rel & c & -> & Hne & Hl & Hv).
      exists (k :: rel), c. split; [now rewrite <- app_assoc|].
      split; [discriminate|]. split.
      * cbn [FS.lookup]. now rewrite (In_assoc _ _ _ Hnd Hkc).
      * constructor; [|exact Hv].
        rewrite Forall_forall in Hall. exact (proj1 (Hall _ Hkc)).
Qed.

End WalkFacts.

Section WrittenMembers.

Variables (source_dir : path) (n : node).

Lemma written_members_fold :
  Zip.written_members source_dir n =
  fold_left (write_step source_dir n)
    (match FS.lookup source_dir n with
     | Some t => listing source_dir t
     | None => []
     end) (inr []).
Proof.
  unfold Zip.written_members, FS.walk.
  destruct (FS.lookup source_dir n) as [t|]; [|reflexivity].
  unfold listing. generalize (FS.walk_node source_dir t).
  generalize (@inr oserror (list (string * content)) []).
  intros acc l. revert acc.
  induction l as [|[[r ds] files] l IH]; intros acc; [reflexivity|].
  cbn [fold_left flat_map]. rewrite fold_left_app, <- IH. f_equal.
  clear IH. revert acc. induction files as [|f files IHf]; intros acc; [reflexivity|].
  cbn [fold_left map]. apply IHf.
Qed.

Lemma write_step_fold (l : list path) :
  forall ms0,
  (forall p, In p l -> exists c, FS.read_file p n = inr c) ->
  exists ms,
    fold_left (write_step source_dir n) l (inr ms0) = inr (ms0 ++ ms) /\
    (forall name c, In (name, c) ms <->
       exists p, In p l /\ name = PyPath.relpath p source_dir /\
                 FS.read_file p n = inr c).
Proof.
  induction l as [|p l IH]; intros ms0 Hread.
  - exists []. rewrite app_nil_r. split; [reflexivity|].
    intros name c. split; [intros [] | intros (p & [] & _)].
  - destruct (Hread p (or_introl eq_refl)) as [c Hc].
    destruct (IH (ms0 ++ [(PyPath.relpath p source_dir, c)])) as (ms & Hfold & Hms).
    { intros q Hq. apply Hread. now right. }
    exists ((PyPath.relpath p source_dir, c) :: ms). split.
    + cbn [fold_left]. unfold write_step at 2. rewrite Hc, Hfold.
      now rewrite <- app_assoc.
    + intros name c'. split.
      * intros [Heq|Hin].
        -- inversion Heq; subst. exists p. repeat split; auto. now left.
        -- apply Hms in Hin as (q & Hq & Hn & Hr). exists q. repeat split; auto.
           now right.
      * intros (q & [->|Hq] & Hn & Hr).
        -- left. rewrite Hc in Hr. inversion Hr; subst. reflexivity.
        -- right. apply Hms. exists q. auto.
Qed.

(** The members written for a well-formed tree: one per file, under the
    joined components of its relative path. *)
Lemma written_members_spec (t : node) :
  FS.lookup source_dir n = Some t -> well_formed t ->
  exists ms,
    Zip.written_members source_dir n = inr ms /\
    (forall name c, In (name, c) ms ->
       exists rel, name = PyStr.join "/" rel /\ rel <> [] /\
                   Forall (fun k => valid_name k = true) rel /\
                   FS.lookup rel t = Some (File c)) /\
    (forall rel c, rel <> [] -> FS.lookup rel t = Some (File c) ->
                   In (PyStr.join "/" rel, c) ms).
Proof.
  intros Hsrc Hwf. rewrite written_members_fold, Hsrc.
  assert (Hread : forall rel c, FS.lookup rel t = Some (File c) ->
                                FS.read_file (source_dir ++ rel) n = inr c).
  { intros rel c H. unfold FS.read_file. now rewrite lookup_app, Hsrc, H. }
  destruct (write_step_fold (listing source_dir t) []) as (ms & Hfold & Hms).
  { intros p Hp.
    destruct (listing_sound Hwf _ _ Hp) as (rel & c & -> & _ & Hl & _).
    exists c. now apply Hread. }
  exists ms. split; [exact Hfold|]. split.
  - intros name c Hin. apply Hms in Hin as (p & Hp & -> & Hr).
    destruct (listing_sound Hwf _ _ Hp) as (rel & c' & -> & Hne & Hl & Hv).
    exists rel. rewrite (Hread _ _ Hl) in Hr. inversion Hr; subst c'.
    repeat split; auto. now apply relpath_below.
  - intros rel c Hne Hl. apply Hms. exists (source_dir ++ rel). repeat split.
    + eapply listing_complete; eauto.
    + symmetry. now apply relpath_below.
    + now apply Hread.
Qed.

End WrittenMembers.

Section ExtractFacts.

Lemma is_prefix_app_cases (q a b : path) :
  is_prefix q (a ++ b) = true ->
  is_prefix q a = true \/ exists r, r <> [] /\ q = a ++ r /\ is_prefix r b = true.
Proof.
  revert q; induction a as [|x a IH]; intros q H.
  - destruct q as [|y q]; [now left|].
    right. exists (y :: q). repeat split; [discriminate | exact H].
  - destruct q as [|y q]; [now left|].
    unfold is_prefix in H |- *. cbn [app strip_prefix] in H |- *.
    destruct (String.eqb_spec y x) as [->|]; [|discriminate].
    destruct (IH q H) as [Hq|(r & Hr & -> & Hp)]; [now left|].
    right. exists r. auto.
Qed.

Lemma is_prefix_app_both (p a b : path) : is_prefix (p ++ a) (p ++ b) = is_prefix a b.
Proof. unfold is_prefix. now rewrite strip_prefix_app_both. Qed.

Lemma join_inj (a b : list string) :
  Forall (fun k => valid_name k = true) a -> a <> [] ->
  Forall (fun k => valid_name k = true) b -> b <> [] ->
  PyStr.join "/" a = PyStr.join "/" b -> a = b.
Proof.
  intros Ha Hna Hb Hnb H.
  rewrite <- (arcname_parts_join Ha Hna), <- (arcname_parts_join Hb Hnb).
  now rewrite H.
Qed.

Lemma well_formed_child (k : string) (es : list (string * node)) (ch : node) :
  well_formed (Dir es) -> FS.assoc k es = Some ch ->
  valid_name k = true /\ well_formed ch.
Proof.
  intros Hwf Hk. inversion Hwf as [|? _ Hall]; subst.
  rewrite Forall_forall in Hall. exact (Hall _ (assoc_In _ _ Hk)).
Qed.

Lemma lookup_valid (rel : path) :
  forall t v, well_formed t -> FS.lookup rel t = Some v ->
              Forall (fun k => valid_name k = true) rel.
Proof.
  induction rel as [|k rel IH]; intros t v Hwf H; [constructor|].
  destruct t as [c|es]; [discriminate|].
  cbn [FS.lookup] in H. destruct (FS.assoc k es) as [ch|] eqn:Ek; [|discriminate].
  destruct (@well_formed_child k es ch Hwf Ek) as [Hv Hch].
  constructor; [exact Hv | eapply IH; eauto].
Qed.

Variables (dst : path) (t : node).

Lemma extracted_fresh (n : node) :
  FS.lookup dst n = Some (Dir []) -> extracted dst t [] n.
Proof.
  intros H. split; [|split].
  - unfold kind_at. now rewrite H.
  - intros rel Hne. unfold kind_at. rewrite lookup_app, H.
    destruct rel; [congruence | reflexivity].
  - intros rel c [].
Qed.

(** The directories above a member are there, or can be made. *)
Lemma extract_upperdirs (done : list (string * content)) (n : node)
  (parent : path) (k : string) (c : content) :
  extracted dst t done n ->
  FS.lookup (parent ++ [k]) t = Some (File c) ->
  exists n1,
    (if negb (FS.exists_ (dst ++ parent) n)
     then FS.makedirs false (dst ++ parent) n else inr n) = inr n1 /\
    extracted dst t done n1 /\ kind_at (dst ++ parent) n1 = KDir.
Proof.
  intros (Hdst & Hmirror & Hdone) Hfile.
  assert (Hparent : kind_at parent t = KDir).
  { apply (@kind_at_dir_above parent [k] t); [|discriminate].
    unfold kind_at. now rewrite Hfile. }
  assert (Habove : forall r, is_prefix r parent = true -> kind_at r t = KDir).
  { intros r Hr. eapply kind_at_prefix_of_dir; eauto. }
  assert (Hnofile : forall r c', r <> [] -> is_prefix r parent = true ->
                                 kind_at (dst ++ r) n <> KFile c').
  { intros r c' Hr Hp Hk. specialize (Hmirror r Hr). rewrite Hk in Hmirror.
    specialize (Habove r Hp). unfold kind_at in Habove. now rewrite Hmirror in Habove. }
  rewrite kind_at_exists.
  destruct (kind_at (dst ++ parent) n) as [|c'|] eqn:Kp; cbn [negb].
  - destruct (@makedirs_ok false (dst ++ parent) n) as [n1 Hn1].
    + intros q Hq. apply is_prefix_app_cases in Hq as [Hq|(r & Hr & -> & Hp)].
      * right. eapply kind_at_prefix_of_dir; eauto.
      * destruct (kind_at (dst ++ r) n) as [|c'|] eqn:K; auto.
        now destruct (Hnofile r c' Hr Hp).
    + intros _. exact Kp.
    + pose proof (makedirs_kind _ _ _ Hn1) as K1.
      exists n1. split; [exact Hn1|]. split; [split; [|split]|].
      * rewrite K1. now rewrite is_prefix_app.
      * intros rel Hne. rewrite K1, is_prefix_app_both.
        destruct (is_prefix rel parent) eqn:Hp; [now apply Habove | now apply Hmirror].
      * intros rel c0 Hin Hne Hv. rewrite K1, is_prefix_app_both.
        pose proof (Hdone rel c0 Hin Hne Hv) as K0.
        destruct (is_prefix rel parent) eqn:Hp; [|exact K0].
        now destruct (Hnofile rel c0 Hne Hp).
      * rewrite K1, is_prefix_refl. reflexivity.
  - exfalso. destruct parent as [|x parent].
    + rewrite app_nil_r in Kp. congruence.
    + apply (Hnofile (x :: parent) c'); [discriminate | apply is_prefix_refl | exact Kp].
  - exists n. repeat split; auto.
Qed.

(** One member is extracted, and the state is kept. *)
Lemma extract_member_step (done : list (string * content)) (n : node)
  (m : string * content) :
  extracted dst t done n -> member_of t m ->
  exists n', Zip.extract_member dst m n = inr n' /\ extracted dst t (m :: done) n'.
Proof.
  intros Hext (rel & Hname & Hne & Hvalid & Hfile).
  destruct m as [name c]. cbn [fst snd] in Hname, Hfile. subst name.
  destruct (exists_last Hne) as (parent & k & ->).
  unfold Zip.extract_member.
  rewrite (arcname_parts_join Hvalid Hne), (join_not_dir_name Hvalid Hne).
  rewrite app_assoc, removelast_last.
  destruct (@extract_upperdirs done n parent k c Hext Hfile) as (n1 & -> & (Hdst & Hmirror & Hdone) & Hup).
  assert (Hnotdir : kind_at ((dst ++ parent) ++ [k]) n1 <> KDir).
  { rewrite <- app_assoc. intros K. specialize (Hmirror _ Hne). rewrite K in Hmirror.
    unfold kind_at in Hmirror. now rewrite Hfile in Hmirror. }
  destruct (@write_file_ok (dst ++ parent) k c n1 Hup Hnotdir) as [n2 Hn2].
  exists n2. split; [exact Hn2|].
  pose proof (write_file_kind _ _ _ Hn2) as K2.
  rewrite <- app_assoc in K2.
  split; [|split].
  - rewrite (proj2 (K2 dst)); [exact Hdst|].
    intros Heq. apply Hne. apply (app_inv_head dst). now rewrite app_nil_r.
  - intros r Hr.
    destruct (list_eq_dec string_dec r (parent ++ [k])) as [->|Hneq].
    + rewrite (proj1 (K2 _) eq_refl). exact Hfile.
    + rewrite (proj2 (K2 _)); [now apply Hmirror|].
      intros Heq. apply Hneq. now apply app_inv_head in Heq.
  - intros r c0 Hin Hr Hv.
    destruct (list_eq_dec string_dec r (parent ++ [k])) as [->|Hneq].
    + rewrite (proj1 (K2 _) eq_refl). f_equal.
      destruct Hin as [Heq|Hin]; [now inversion Heq|].
      pose proof (Hdone _ _ Hin Hne Hv) as K0.
      specialize (Hmirror _ Hne). rewrite K0 in Hmirror. congruence.
    + rewrite (proj2 (K2 _)).
      * destruct Hin as [Heq|Hin]; [|now apply Hdone].
        inversion Heq as [[Hj Hc]]. exfalso. apply Hneq.
        symmetry. now apply join_inj.
      * intros Heq. apply Hneq. now apply app_inv_head in Heq.
Qed.

(** All members are extracted. *)
Lemma extractall_run (ms : list (string * content)) :
  forall (done : list (string * content)) (w : World),
  extracted dst t done (fs w) -> Forall (member_of t) ms ->
  exists n' done',
    Zip.extractall dst ms w = (Ret tt, set_fs n' w) /\
    extracted dst t done' n' /\ (forall m, In m ms -> In m done') /\
    (forall m, In m done -> In m done').
Proof.
  induction ms as [|m ms IH]; intros done w Hext Hms.
  - exists (fs w), done. rewrite set_fs_same.
    split; [reflexivity|]. split; [exact Hext|]. split; [intros m []|auto].
  - inversion Hms as [|? ? Hm Hms']; subst.
    destruct (@extract_member_step done (fs w) m Hext Hm) as (n1 & Hn1 & Hext1).
    destruct (IH (m :: done) (set_fs n1 w) Hext1 Hms')
      as (n' & done' & Hrun & Hext' & Hin & Hkeep).
    exists n', done'. split; [|split; [exact Hext'|split]].
    + unfold Zip.extractall in *. cbn [for_each].
      unfold bind at 1. unfold fs_call at 1. rewrite Hn1, Hrun.
      now destruct w.
    + intros m' [<-|Hm']; [apply Hkeep; now left | now apply Hin].
    + intros m' Hm'. apply Hkeep. now right.
Qed.

End ExtractFacts.

(** * Well-formed trees under the file-system calls *)

Section WellFormedFacts.




Lemma well_formed_lookup (p : path) :
  forall n t, well_formed n -> FS.lookup p n = Some t -> well_formed t.
Proof.
  induction p as [|k p IH]; intros n t Hwf H.
  - inversion H; subst. exact Hwf.
  - destruct n as [c|es]; [discriminate|].
    cbn [FS.lookup] in H. destruct (FS.assoc k es) as [ch|] eqn:Ek; [|discriminate].
    destruct (@well_formed_child k es ch Hwf Ek) as [_ Hch]. eapply IH; eauto.
Qed.





End WellFormedFacts.

(** Prefix tests between paths under [BASE_DIR]. *)
Ltac prefix_test :=
  unfold config_path, res_xml_dir, manifest_path, TEMP_DIR, DOWNLOADS_DIR;
  rewrite <- ?app_assoc; rewrite is_prefix_app_head; cbn [app];
  rewrite ?is_prefix_cons, ?is_prefix_cons_nil, ?is_prefix_nil;
  repeat match goal with
         | H : ?a <> ?b |- context [String.eqb ?a ?b] =>
             rewrite (proj2 (String.eqb_neq a b) H)
         | H : ?a <> ?b |- context [String.eqb ?b ?a] =>
             rewrite (String.eqb_sym b a), (proj2 (String.eqb_neq a b) H)
         end;
  cbn; rewrite ?andb_false_r; reflexivity.


(** * From [process_apk] to its step 5 *)

Section Reach.

Variable env : Env.

Lemma run_command_total (command : list string) (cwd : option path) (w : World) :
  exists ok out err n,
    _run_command env command cwd w =
    (Ret (ok, out, err), set_fs n (emit (EvRun command cwd) w)).
Proof.
  unfold _run_command.
  destruct (popen env command cwd (fs w)) as [[rc out err|message] n].
  - destruct (negb (Z.eqb rc 0)); do 4 eexists; reflexivity.
  - exists false, "", message, (fs w). now destruct w.
Qed.

Lemma respects_run_command_at (P : event -> Prop) (Q : exn -> Prop)
  (command : list string) (cwd : option path) :
  P (EvRun command cwd) -> respects P Q (_run_command env command cwd).
Proof.
  intros HP w r w' H.
  destruct (run_command_total command cwd w) as (ok & out & err & n & Hrun).
  rewrite Hrun in H. inversion H; subst. split.
  - exists [EvRun command cwd]. split; [reflexivity | now constructor].
  - discriminate.
Qed.

Lemma check_tools_before_decode :
  respects before_decode (fun _ => True) (check_tools env).
Proof.
  unfold check_tools.
  apply respects_bind; [now apply respects_run_command_at|].
  intros [[ok out] err].
  repeat first
    [ apply respects_ret
    | apply respects_path_exists
    | apply respects_bind; [|intros]
    | match goal with
      | |- respects _ _ (if ?b then _ else _) => destruct b
      end ].
Qed.

(** From step 3 a run either raises before it emits anything, or goes
    on from step 5 with the trace it had. *)
Lemma from_step_3_reaches_step_5 (apk_path : string) (opts logs : list string)
  (w w' : World) (r : outcome reply) :
  process_apk_from_step_3 env apk_path opts logs w = (r, w') ->
  trace w' = trace w \/
  exists project_name project_dir apktool_opts jadx_opts logs5 w5,
    trace w5 = trace w /\
    process_apk_from_step_5 env apk_path project_name project_dir apktool_opts
      jadx_opts opts logs5 w5 = (r, w').
Proof.
  destruct w as [n tr u]. unfold process_apk_from_step_3, uuid4_hex8.
  intros H. run_monad_in H.
  match type of H with
  | context [FS.exists_ ?p n] => destruct (FS.exists_ p n); run_monad_in H
  end.
  - match type of H with
    | context [FS.rmtree ?p n] => destruct (FS.rmtree p n) as [e|n1]; run_monad_in H
    end.
    + inversion H; subst. now left.
    + match type of H with
      | context [FS.makedirs false ?p n1] =>
          destruct (FS.makedirs false p n1) as [e|n2]; run_monad_in H
      end.
      * inversion H; subst. now left.
      * right. do 6 eexists. split; [|exact H]. reflexivity.
  - match type of H with
    | context [FS.makedirs false ?p n] =>
        destruct (FS.makedirs false p n) as [e|n2]; run_monad_in H
    end.
    + inversion H; subst. now left.
    + right. do 6 eexists. split; [|exact H]. reflexivity.
Qed.

(** Every run of [process_apk] ends before the decode, having run no
    tool but the version query, or is a run from step 5. *)
Lemma process_apk_reaches_step_5 (apk_file : option Gradio.UploadedFile)
  (apk_url : option string) (opts : list string) (w w' : World) (r : outcome reply) :
  process_apk env apk_file apk_url opts w = (r, w') ->
  (exists evs, trace w' = trace w ++ evs /\ Forall before_decode evs) \/
  exists apk_path project_name project_dir apktool_opts jadx_opts logs5 w5,
    (exists evs, trace w5 = trace w ++ evs /\ Forall before_decode evs) /\
    process_apk_from_step_5 env apk_path project_name project_dir apktool_opts
      jadx_opts opts logs5 w5 = (r, w').
Proof.
  intros H.
  assert (Hstep3 : forall wx evsx apk_path logs,
             trace wx = trace w ++ evsx -> Forall before_decode evsx ->
             process_apk_from_step_3 env apk_path opts logs wx = (r, w') ->
             (exists evs, trace w' = trace w ++ evs /\ Forall before_decode evs) \/
             exists apk_path project_name project_dir apktool_opts jadx_opts logs5 w5,
               (exists evs, trace w5 = trace w ++ evs /\ Forall before_decode evs) /\
               process_apk_from_step_5 env apk_path project_name project_dir apktool_opts
                 jadx_opts opts logs5 w5 = (r, w')).
  { intros wx evsx apk_path logs Tx Fx H3.
    destruct (from_step_3_reaches_step_5 _ _ _ _ H3)
      as [T|(pn & pd & ao & jo & l5 & w5 & T5 & H5)].
    - left. exists evsx. rewrite T. auto.
    - right. exists apk_path, pn, pd, ao, jo, l5, w5. split; [|exact H5].
      exists evsx. rewrite T5. auto. }
  unfold process_apk in H. unfold bind at 1 in H.
  destruct (check_tools env w) as [[[ok tool_logs]|e] w1] eqn:Ect.
  2:{ inversion H; subst. left. exact (proj1 (check_tools_before_decode _ Ect)). }
  destruct (check_tools_before_decode _ Ect) as [(evs1 & T1 & F1) _].
  destruct ok; cbn [negb] in H.
  2:{ inversion H; subst. left. eauto. }
  destruct apk_file as [f|]; [eapply Hstep3; eauto|].
  destruct (PyStr.truthy apk_url); cbn [negb] in H.
  2:{ inversion H; subst. left. eauto. }
  unfold bind at 1 in H.
  match type of H with
  | context [match ?c w1 with _ => _ end] =>
      assert (Hr : respects before_decode (fun _ : exn => True) c);
      [|destruct (c w1) as [[dl|e] w2] eqn:Edl]
  end.
  { apply respects_try_except; [intros; exact I| |].
    - apply respects_bind; [apply respects_progress; exact I|]. intros _.
      apply respects_bind; [apply respects_download_apk; intros; exact I|].
      intros p. apply respects_ret.
    - intros e. apply respects_ret. }
  - destruct (Hr _ _ _ Edl) as [(evs2 & T2 & F2) _].
    assert (T12 : trace w2 = trace w ++ (evs1 ++ evs2))
      by now rewrite T2, T1, app_assoc.
    assert (F12 : Forall before_decode (evs1 ++ evs2))
      by (apply Forall_app; auto).
    destruct dl as [status|apk_path].
    + inversion H; subst. left. eauto.
    + eapply Hstep3; eauto.
  - destruct (Hr _ _ _ Edl) as [(evs2 & T2 & F2) _].
    inversion H; subst. left. exists (evs1 ++ evs2). split.
    + now rewrite T2, T1, app_assoc.
    + apply Forall_app; auto.
Qed.

End Reach.

Section RebuildReach.

Variable env : Env.

Lemma extractall_trace (target : path) (ms : list (string * content)) :
  forall w r w', Zip.extractall target ms w = (r, w') -> trace w' = trace w.
Proof.
  unfold Zip.extractall. induction ms as [|m ms IH]; intros w r w' H.
  - inversion H; subst. reflexivity.
  - cbn [for_each] in H. unfold bind at 1, fs_call at 1 in H.
    destruct (Zip.extract_member target m (fs w)) as [e|n1].
    + inversion H; subst. reflexivity.
    + apply IH in H. exact H.
Qed.

(** With its inputs in place, a run of [rebuild_and_sign_apk] raises
    while it makes its directories and unpacks the project, before any
    tool runs, or goes on from step 3 in the two directories named by
    its two uuids. *)
Lemma rebuild_reaches_step_3 (project_zip keystore_file : Gradio.UploadedFile)
  (build_options : list string) (ks_pass alias key_pass : option string)
  (w w' : World) (r : outcome reply) :
  forallb PyStr.truthy [ks_pass; alias; key_pass] = true ->
  rebuild_and_sign_apk env (Some project_zip) build_options (Some keystore_file)
    ks_pass alias key_pass w = (r, w') ->
  let project_dir :=
    TEMP_DIR env ++ ["rebuild-" +++ substring 0 8 (uuid4_hex env (uuid_calls w))] in
  let output_dir :=
    TEMP_DIR env ++ ["rebuild-out-" +++ substring 0 8 (uuid4_hex env (S (uuid_calls w)))] in
  (forall command cwd, In (EvRun command cwd) (trace w') -> In (EvRun command cwd) (trace w)) \/
  exists w3,
    trace w3 = trace w ++ [EvProgress 0.1 "Unzipping project..."] /\
    rebuild_and_sign_apk_from_step_3 env project_zip build_options keystore_file
      (the ks_pass) (the alias) (the key_pass) project_dir output_dir
      ["Project unzipped to " +++ PyPath.str project_dir] w3 = (r, w').
Proof.
  intros Hcreds H project_dir output_dir.
  unfold rebuild_and_sign_apk in H. rewrite Hcreds in H. cbn [negb] in H.
  destruct w as [n tr u]. unfold uuid4_hex8, Zip.open_r in H. run_monad_in H.
  cbn [uuid_calls] in project_dir, output_dir. fold project_dir output_dir in H.
  destruct (FS.makedirs true project_dir n) as [e|n1]; run_monad_in H.
  { inversion H; subst. now left. }
  destruct (FS.makedirs true output_dir n1) as [e|n2]; run_monad_in H.
  { inversion H; subst. now left. }
  assert (Hleft : forall command cwd,
             In (EvRun command cwd) (tr ++ [EvProgress 0.1 "Unzipping project..."]) ->
             In (EvRun command cwd) tr).
  { intros command cwd Hin. apply in_app_or in Hin as [Hin|[Hin|[]]]; [exact Hin|].
    discriminate. }
  destruct (FS.read_file (PyPath.Path (Gradio.name project_zip)) n2) as [e|[s|ms]];
    run_monad_in H.
  { inversion H; subst. left. exact Hleft. }
  { inversion H; subst. left. exact Hleft. }
  match type of H with
  | context [Zip.extractall project_dir ms ?w2] =>
      destruct (Zip.extractall project_dir ms w2) as [[[]|e] w3] eqn:Ex;
      pose proof (extractall_trace _ _ _ Ex) as T3
  end.
  - right. exists w3. split; [exact T3 | exact H].
  - inversion H; subst. left. cbn [trace] in T3. rewrite T3. exact Hleft.
Qed.

End RebuildReach.

(** * The claims about the patch stage *)





(** * The claims about the inputs *)

Section InputClaims.

Variable env : Env.

(** C4 (missing-credential rejection).  When the project archive, the
    keystore file or one of the three credential strings is absent or
    empty, [rebuild_and_sign_apk] raises a [gr.Error] in the world it was
    called in: the file system is untouched (no directory, no unzip), no
    event is emitted (no tool runs) and no uuid is drawn. *)
Theorem rebuild_rejects_missing_input
  (project_zip keystore_file : option Gradio.UploadedFile)
  (build_options : list string) (ks_pass alias key_pass : option string) (w : World) :
  project_zip = None \/ keystore_file = None \/
  PyStr.truthy ks_pass = false \/ PyStr.truthy alias = false \/
  PyStr.truthy key_pass = false ->
  exists message,
    rebuild_and_sign_apk env project_zip build_options keystore_file
      ks_pass alias key_pass w = (Raise (GrError message), w).
Proof.
  intros H. unfold rebuild_and_sign_apk.
  destruct project_zip as [z|]; [|eexists; reflexivity].
  destruct keystore_file as [k|]; [|eexists; reflexivity].
  assert (Hall : forallb PyStr.truthy [ks_pass; alias; key_pass] = false).
  { simpl. destruct H as [H|[H|[H|[H|H]]]]; try discriminate; rewrite H;
      rewrite ?andb_false_r; reflexivity. }
  rewrite Hall. eexists; reflexivity.
Qed.

End InputClaims.

(** An empty key password is enough for the rejection. *)
Lemma rebuild_rejects_missing_input_witness :
  exists message,
    rebuild_and_sign_apk (Sample.env 0 0 0 0 0) (Some Sample.project_zip) ["use_aapt2"]
      (Some Sample.keystore) (Some "pw") (Some "key0") (Some "") Sample.world
    = (Raise (GrError message), Sample.world).
Proof.
  apply (@rebuild_rejects_missing_input (Sample.env 0 0 0 0 0)
           (Some Sample.project_zip) (Some Sample.keystore) ["use_aapt2"]
           (Some "pw") (Some "key0") (Some "") Sample.world).
  right; right; right; right. reflexivity.
Defined.

Section DownloadFacts.

Variable env : Env.

(** Without a content-length header [total_size] is 0, and the first
    chunk makes [download_apk] divide by it: the exception is no
    [RequestException], so it leaves the function as it is. *)
Lemma download_apk_divides_by_zero (url : string) (r : response)
  (chunk : string) (rest : list string) (w : World) (n1 n2 : node) :
  let apk_name := last (PyStr.split "/" url) "" in
  let apk_path :=
    TEMP_DIR env ++
      [if negb (PyStr.endswith ".apk" apk_name) then "downloaded.apk" else apk_name] in
  requests_get env url = Responded r ->
  status_error r = None ->
  content_length r = None ->
  chunks r = chunk :: rest ->
  FS.write_file apk_path (Raw "") (fs w) = inr n1 ->
  FS.write_file apk_path (Raw chunk) n1 = inr n2 ->
  download_apk env url w =
    (Raise ZeroDivisionError, set_fs n2 (emit (EvHttpGet url) w)).
Proof.
  intros apk_name apk_path Hget Hst Hcl Hch Hw1 Hw2.
  subst apk_path apk_name.
  cbv beta iota zeta delta [negb] in Hw1, Hw2.
  destruct w as [n tr u]. unfold download_apk, http_get, raise_for_status.
  run_monad.
  rewrite Hget, Hst, Hcl, Hch. run_monad.
  cbn [fs] in Hw1. rewrite Hw1.
  cbn [for_fold]. run_monad.
  rewrite read_file_kind.
  rewrite (proj1 (write_file_kind _ _ _ Hw1 _) eq_refl).
  cbn [String.append]. rewrite Hw2.
  reflexivity.
Qed.

End DownloadFacts.

(** C7 (download without content-length), at the server of the sample
    installation that sends [/raw.apk] in two chunks and no
    content-length: [download_apk] raises [ZeroDivisionError] after the
    first chunk instead of returning the local path, and [process_apk]
    reports the download as failed. *)
Theorem download_apk_without_content_length :
  let env := Sample.env 0 0 0 0 0 in
  let url := "https://example.com/raw.apk" in
  fst (download_apk env url Sample.world) = Raise ZeroDivisionError /\
  (forall p, fst (download_apk env url Sample.world) <> Ret p) /\
  exists log,
    fst (process_apk env None (Some url) [] Sample.world) =
    Ret ("Error downloading APK: division by zero", hidden, log).
Proof.
  intros env url. split; [|split].
  - vm_compute. reflexivity.
  - intros p. vm_compute. discriminate.
  - eexists. vm_compute. reflexivity.
Qed.

(** * The claims about the decode pipeline *)

Section DecodeFacts.

Variable env : Env.

Lemma run_command_exited (command : list string) (cwd : option path) (w : World)
  (rc : Z) (out err : string) (n : node) :
  popen env command cwd (fs w) = (Exited rc out err, n) ->
  _run_command env command cwd w =
    (Ret (Z.eqb rc 0, out, err), set_fs n (emit (EvRun command cwd) w)).
Proof.
  intros H. unfold _run_command. rewrite H. now destruct (Z.eqb rc 0).
Qed.

Lemma occurs_in_join (sep x : string) (l : list string) :
  In x l -> occurs_in x (PyStr.join sep l).
Proof.
  unfold PyStr.join. induction l as [|y l IH]; [contradiction|].
  intros [->|Hin].
  - destruct l as [|z l]; [apply occurs_in_refl|].
    simpl. apply occurs_in_app_l, occurs_in_refl.
  - destruct l as [|z l]; [contradiction|].
    change (String.concat sep (y :: z :: l))
      with (y +++ sep +++ String.concat sep (z :: l)).
    apply occurs_in_app_r, occurs_in_app_r, IH, Hin.
Qed.

End DecodeFacts.

(** C1 (a failed decode is fatal).  From step 5 on, when the decoder
    exits with a non-zero code, [process_apk] returns the status
    [Apktool failed.] with a hidden download button, and the world it
    leaves is the world at the exit of the decoder: after the decode
    command nothing is emitted (no patch, analysis or decompilation) and
    the file system is as the tool left it (no archive).  The log holds
    the captured standard output and standard error.  Every run of
    [process_apk] that gets to the decoder is such a run from step 5
    ([process_apk_reaches_step_5]). *)
Theorem decode_failure_is_fatal (env : Env) (apk_path project_name : string)
  (project_dir : path) (apktool_opts jadx_opts decode_options logs : list string)
  (w : World) (returncode : Z) (stdout stderr : string) (n : node) :
  let command := decode_command env apk_path project_dir apktool_opts in
  let w5 := emit (EvProgress 0.2 "Decompiling with Apktool...") w in
  popen env command None (fs w) = (Exited returncode stdout stderr, n) ->
  returncode <> 0%Z ->
  exists log,
    process_apk_from_step_5 env apk_path project_name project_dir apktool_opts
      jadx_opts decode_options logs w
    = (Ret ("Apktool failed.", hidden, log), set_fs n (emit (EvRun command None) w5)) /\
    Gradio.value hidden = None /\ Gradio.visible hidden = false /\
    occurs_in stdout log /\ occurs_in stderr log.
Proof.
  intros command w5 Hpopen Hrc.
  eexists. split; [|split; [reflexivity|split; [reflexivity|]]].
  - unfold process_apk_from_step_5, apktool_decode.
    unfold bind at 1. unfold progress at 1. fold w5.
    unfold bind at 1.
    change (["java"; "-jar"; PyPath.str (APKTOOL_PATH env); "d"; apk_path; "-o";
             PyPath.str project_dir; "-f"] ++ apktool_opts) with command.
    rewrite (@run_command_exited env command None w5 returncode stdout stderr n Hpopen).
    destruct (Z.eqb_spec returncode 0) as [|_]; [contradiction|].
    reflexivity.
  - split.
    + apply occurs_in_trans with ("Apktool STDOUT:" +++ nl +++ stdout).
      * apply occurs_in_app_r, occurs_in_app_r, occurs_in_refl.
      * apply occurs_in_join.
        apply in_or_app. left. apply in_or_app. right. left. reflexivity.
    + apply occurs_in_trans with ("Apktool STDERR:" +++ nl +++ stderr).
      * apply occurs_in_app_r, occurs_in_app_r, occurs_in_refl.
      * apply occurs_in_join. apply in_or_app. right. left. reflexivity.
Qed.

(** The sample decoder exiting with code 1. *)
Lemma decode_failure_is_fatal_witness :
  let env := Sample.env 1 0 0 0 0 in
  let pd := TEMP_DIR env ++ ["sample-decompiled-0a1b2c3d"] in
  exists log,
    process_apk_from_step_5 env "/uploads/sample.apk" "sample" pd [] []
      ["quark_analysis"; "mitm_patch"; "decompile_java"] [] Sample.world
    = (Ret ("Apktool failed.", hidden, log),
       set_fs Sample.root
         (emit (EvRun (decode_command env "/uploads/sample.apk" pd []) None)
            (emit (EvProgress 0.2 "Decompiling with Apktool...") Sample.world))) /\
    Gradio.value hidden = None /\ Gradio.visible hidden = false /\
    occurs_in "I: Using Apktool" log /\
    occurs_in "brut.androlib.AndrolibException" log.
Proof.
  intros env pd.
  apply (@decode_failure_is_fatal env "/uploads/sample.apk" "sample" pd [] []
           ["quark_analysis"; "mitm_patch"; "decompile_java"] [] Sample.world
           1%Z "I: Using Apktool" "brut.androlib.AndrolibException" Sample.root).
  - reflexivity.
  - discriminate.
Defined.

Section Precedence.

Variable env : Env.

Lemma respects_process_apk_upload (f : Gradio.UploadedFile) (url : option string)
  (opts : list string) :
  respects not_http not_gr_error (process_apk env (Some f) url opts).
Proof.
  unfold process_apk.
  apply respects_bind.
  { apply respects_check_tools; intros; exact I. }
  intros [tools_ok tool_logs]. destruct (negb tools_ok); [apply respects_ret|].
  apply respects_from_step_3; intros; exact I.
Qed.

Lemma respects_process_apk_url (url : option string) (opts : list string) :
  PyStr.truthy url = true ->
  respects (fun _ => True) not_gr_error (process_apk env None url opts).
Proof.
  intros Hurl. unfold process_apk. rewrite Hurl. cbn [negb].
  apply respects_bind.
  { apply respects_check_tools; intros; exact I. }
  intros [tools_ok tool_logs]. destruct (negb tools_ok); [apply respects_ret|].
  apply respects_bind.
  - intros w r w' H. split.
    + assert (Hr : respects (fun _ : event => True) (fun _ : exn => True)
                (try_except
                   (progress 0 "Downloading APK..." ;;;
                    apk_path <- download_apk env
                                  match url with Some u => u | None => "" end ;;
                    ret (inr apk_path))
                   (fun _ => true)
                   (fun e => ret (@inl string string
                                    ("Error downloading APK: " +++ str_exn e))))).
      { apply respects_try_except; [intros; exact I| |].
        - apply respects_bind; [apply respects_progress; exact I|]. intros _.
          apply respects_bind; [apply respects_download_apk; intros; exact I|].
          intros p. apply respects_ret.
        - intros e. apply respects_ret. }
      exact (proj1 (Hr _ _ _ H)).
    + intros e ->. unfold try_except in H.
      match type of H with
      | context [match ?c w with _ => _ end] => destruct (c w) as [[a|e'] w1]
      end; inversion H.
  - intros [status|apk_path]; [apply respects_ret|].
    apply respects_from_step_3; intros; exact I.
Qed.

End Precedence.

(** C10 (input-mode precedence).  With an uploaded file, [process_apk]
    does not depend on the URL: once the tools are checked it runs from
    step 3 on the name of the upload, and it emits no HTTP request.  It
    raises a [gr.Error] only when no file is uploaded and the URL is
    absent or empty, and with the tools in place it does raise then. *)
Theorem upload_takes_precedence (env : Env) (f : Gradio.UploadedFile)
  (url : option string) (opts : list string) (w : World) :
  (forall url', process_apk env (Some f) url opts w = process_apk env (Some f) url' opts w) /\
  (forall tool_logs w1,
     check_tools env w = (Ret (true, tool_logs), w1) ->
     process_apk env (Some f) url opts w =
     process_apk_from_step_3 env (Gradio.name f) opts
       ["--- Tool Check ---" +++ nl +++ tool_logs;
        "Processing uploaded file: " +++ Gradio.name f] w1) /\
  (forall u, In (EvHttpGet u) (trace (snd (process_apk env (Some f) url opts w))) ->
             In (EvHttpGet u) (trace w)) /\
  (forall apk_file apk_url m w',
     process_apk env apk_file apk_url opts w = (Raise (GrError m), w') ->
     apk_file = None /\ PyStr.truthy apk_url = false /\ GrError m = input_error) /\
  (forall apk_url tool_logs w1,
     check_tools env w = (Ret (true, tool_logs), w1) ->
     PyStr.truthy apk_url = false ->
     process_apk env None apk_url opts w = (Raise input_error, w1)).
Proof.
  split; [|split; [|split; [|split]]].
  - reflexivity.
  - intros tool_logs w1 Hct. unfold process_apk, bind at 1. rewrite Hct. reflexivity.
  - intros u Hin.
    destruct (process_apk env (Some f) url opts w) as [r w'] eqn:E. cbn [snd] in Hin.
    destruct (@respects_process_apk_upload env f url opts _ _ _ E) as [(evs & T & F) _].
    rewrite T in Hin. apply in_app_or in Hin as [Hin|Hin]; [exact Hin|].
    rewrite Forall_forall in F. destruct (F _ Hin).
  - intros apk_file apk_url m w' H.
    destruct apk_file as [f'|].
    + destruct (@respects_process_apk_upload env f' apk_url opts _ _ _ H) as [_ R].
      destruct (R _ eq_refl).
    + destruct (PyStr.truthy apk_url) eqn:Hurl.
      * destruct (@respects_process_apk_url env apk_url opts Hurl _ _ _ H) as [_ R].
        destruct (R _ eq_refl).
      * split; [reflexivity|]. split; [reflexivity|].
        unfold process_apk, bind at 1 in H. rewrite Hurl in H.
        destruct (check_tools env w) as [[[ok tl]|e] w1] eqn:Ect.
        -- destruct ok; cbn in H; inversion H. reflexivity.
        -- assert (Hc : respects (fun _ : event => True) not_gr_error (check_tools env))
             by (apply respects_check_tools; intros; exact I).
           destruct (Hc _ _ _ Ect) as [_ R].
           inversion H; subst. destruct (R _ eq_refl).
  - intros apk_url tool_logs w1 Hct Hurl.
    unfold process_apk, bind at 1. rewrite Hct, Hurl. reflexivity.
Qed.

(** * The claims about the working directories *)

(** C6 (working-directory lifecycle), at the sample installation with a
    decoder that exits with code 1: [process_apk] answers
    [Apktool failed.] and the project directory it created under
    [TEMP_DIR] is still there.  The rebuild pipeline, whose builder
    exits with code 1, removes both of its directories before it
    answers. *)
Theorem failed_decode_leaves_project_dir :
  let project_dir := TEMP_DIR (Sample.env 1 0 0 0 0) ++ ["sample-decompiled-0a1b2c3d"] in
  let decode := process_apk (Sample.env 1 0 0 0 0) (Some Sample.apk) None [] Sample.world in
  let rebuild :=
    rebuild_and_sign_apk (Sample.env 0 0 0 1 0) (Some Sample.project_zip) []
      (Some Sample.keystore) (Some "pw") (Some "key0") (Some "pw") Sample.world in
  (exists log, fst decode = Ret ("Apktool failed.", hidden, log)) /\
  kind_at project_dir (fs Sample.world) = KNone /\
  kind_at project_dir (fs (snd decode)) = KDir /\
  (exists log, fst rebuild = Ret ("Apktool rebuild failed.", hidden, log)) /\
  FS.lookup (TEMP_DIR (Sample.env 0 0 0 1 0)) (fs (snd rebuild)) = Some (Dir []).
Proof.
  intros project_dir decode rebuild.
  split; [eexists; vm_compute; reflexivity|].
  split; [vm_compute; reflexivity|].
  split; [vm_compute; reflexivity|].
  split; [eexists; vm_compute; reflexivity|].
  vm_compute. reflexivity.
Qed.

(** * The claim about the archives *)

Section ArchiveFacts.

Lemma create_zip_run (src zip : path) (w : World) :
  create_zip src zip w =
  match FS.write_file zip (Archive []) (fs w) with
  | inl e => (Raise (OSError e), w)
  | inr n1 =>
      match Zip.written_members src n1 with
      | inl e => (Raise (OSError e), set_fs n1 w)
      | inr members =>
          match FS.write_file zip (Archive members) n1 with
          | inl e => (Raise (OSError e), set_fs n1 w)
          | inr n2 => (Ret (PyPath.str zip), set_fs n2 w)
          end
      end
  end.
Proof.
  destruct w as [n tr u]. unfold create_zip. run_monad.
  destruct (FS.write_file zip (Archive []) n) as [e|n1]; [reflexivity|].
  run_monad.
  destruct (Zip.written_members src n1) as [e|ms]; [reflexivity|].
  run_monad.
  destruct (FS.write_file zip (Archive ms) n1); reflexivity.
Qed.

End ArchiveFacts.

(** C2 (archive round trip).  Let [source_dir] be a directory whose
    tree is well formed, and let [create_zip] write its archive outside
    that tree.  Reading the archive back and extracting it into an empty
    directory, as [rebuild_and_sign_apk] does, succeeds, and the files
    under the target are those under [source_dir]: the same relative
    paths with the same contents. *)
Theorem archive_round_trip (source_dir zip_path target : path) (w w1 : World)
  (entries : list (string * node)) (p : string) :
  FS.lookup source_dir (fs w) = Some (Dir entries) ->
  well_formed (Dir entries) ->
  is_prefix source_dir zip_path = false ->
  create_zip source_dir zip_path w = (Ret p, w1) ->
  FS.lookup target (fs w1) = Some (Dir []) ->
  exists w2,
    (zip_ref <- Zip.open_r zip_path ;; Zip.extractall target zip_ref) w1 = (Ret tt, w2) /\
    forall rel c,
      kind_at (target ++ rel) (fs w2) = KFile c <->
      kind_at (source_dir ++ rel) (fs w) = KFile c.
Proof.
  intros Hsrc Hwf Hout Hzip Htarget.
  rewrite create_zip_run in Hzip.
  destruct (FS.write_file zip_path (Archive []) (fs w)) as [e|n1] eqn:Ew1; [discriminate|].
  (* the tree is as it was when its members are read *)
  assert (Hsrc1 : FS.lookup source_dir n1 = Some (Dir entries)).
  { rewrite <- Hsrc. unfold FS.write_file in Ew1.
    assert (Hput : FS.put zip_path (File (Archive [])) (fs w) = inr n1)
      by (destruct (FS.lookup zip_path (fs w)) as [[?|?]|]; congruence).
    apply (put_lookup_other _ _ _ _ Hput); [exact Hout|].
    destruct (is_prefix zip_path source_dir) eqn:Hzs; [|reflexivity].
    exfalso. destruct (is_prefix_true _ _ Hzs) as [r ->].
    assert (Kz : kind_at zip_path (fs w) = KDir).
    { destruct r as [|x r].
      - rewrite app_nil_r in Hsrc. unfold kind_at. now rewrite Hsrc.
      - apply (@kind_at_dir_above zip_path (x :: r) (fs w)); [|discriminate].
        unfold kind_at. now rewrite Hsrc. }
    unfold kind_at in Kz.
    destruct (FS.lookup zip_path (fs w)) as [[?|?]|]; simpl in Kz; congruence. }
  destruct (written_members_spec source_dir n1 Hsrc1 Hwf) as (ms & Hms & Hsound & Hcomplete).
  rewrite Hms in Hzip.
  destruct (FS.write_file zip_path (Archive ms) n1) as [e|n2] eqn:Ew2; [discriminate|].
  inversion Hzip; subst p w1; clear Hzip. cbn [fs set_fs] in Htarget.
  assert (Hread : FS.read_file zip_path n2 = inr (Archive ms)).
  { rewrite read_file_kind, (proj1 (write_file_kind _ _ _ Ew2 _) eq_refl). reflexivity. }
  destruct (@extractall_run target (Dir entries) ms [] (set_fs n2 w))
    as (n' & done' & Hrun & (Hdst & Hmirror & Hdone) & Hin & _).
  { now apply extracted_fresh. }
  { rewrite Forall_forall. intros [name c] Hm.
    destruct (Hsound _ _ Hm) as (rel & -> & Hne & Hv & Hl).
    exists rel. auto. }
  exists (set_fs n' (set_fs n2 w)). split.
  - unfold bind at 1. unfold Zip.open_r, bind at 1, get_fs. cbn [fs set_fs].
    rewrite Hread. unfold ret at 1. exact Hrun.
  - intros rel c. cbn [fs set_fs]. unfold kind_at at 2.
    rewrite lookup_app, Hsrc. split.
    + intros K. destruct rel as [|x rel].
      { rewrite app_nil_r in K. congruence. }
      specialize (Hmirror (x :: rel)). rewrite K in Hmirror.
      rewrite Hmirror by discriminate. reflexivity.
    + intros K. apply kind_of_file in K.
      destruct rel as [|x rel]; [discriminate|].
      apply Hdone.
      * apply Hin. apply Hcomplete; [discriminate | exact K].
      * discriminate.
      * eapply lookup_valid; eauto.
Qed.

(** Well-formedness of a closed tree, entry by entry. *)
Ltac well_formed_tree :=
  repeat match goal with
         | |- well_formed (File _) => apply wf_file
         | |- well_formed (Dir _) => apply wf_dir
         | |- well_formed (snd _) => cbn [snd]
         | |- well_formed _ => unfold Sample.decoded_project
         | |- NoDup _ => constructor
         | |- Forall _ _ => constructor
         | |- _ /\ _ => split
         | |- valid_name _ = true => reflexivity
         | |- valid_name (fst _) = true => reflexivity
         | |- ~ In _ _ => simpl; intuition discriminate
         end.

Lemma decoded_project_well_formed : well_formed Sample.decoded_project.
Proof. well_formed_tree. Qed.

(** The sample project, archived to [/d/p.zip] and unpacked in [/out]. *)
Lemma archive_round_trip_witness :
  let w := mkWorld (Dir [("p", Sample.decoded_project); ("d", Dir []); ("out", Dir [])])
                   [] 0 in
  let w1 := snd (create_zip ["p"] ["d"; "p.zip"] w) in
  exists w2,
    (zip_ref <- Zip.open_r ["d"; "p.zip"] ;; Zip.extractall ["out"] zip_ref) w1
    = (Ret tt, w2) /\
    forall rel c,
      kind_at (["out"] ++ rel) (fs w2) = KFile c <->
      kind_at (["p"] ++ rel) (fs w) = KFile c.
Proof.
  intros w w1.
  refine (@archive_round_trip ["p"] ["d"; "p.zip"] ["out"] w w1 _ "/d/p.zip" _ _ _ _ _).
  - reflexivity.
  - exact decoded_project_well_formed.
  - reflexivity.
  - vm_compute. reflexivity.
  - vm_compute. reflexivity.
Defined.

(** * The claim about the rebuild pipeline *)

Section RebuildFacts.

Variable env : Env.

Lemma respects_shutil_move (src dst : path) :
  respects (fun _ => True) (fun _ => True) (shutil_move src dst).
Proof.
  unfold shutil_move. apply respects_bind; [apply respects_get_fs|]. intros n.
  destruct (FS.isdir dst n && FS.exists_ _ n); [now apply respects_raise|].
  destruct (FS.lookup src n); [|now apply respects_raise].
  apply respects_fs_call. intros; exact I.
Qed.

Ltac respects_anything :=
  repeat first
    [ apply respects_ret
    | apply respects_shutil_move
    | apply respects_progress; exact I
    | apply respects_fs_call; intros; exact I
    | apply respects_run_command; intros; exact I
    | apply respects_bind; [|intros]
    | match goal with
      | |- respects _ _ (if ?b then _ else _) => destruct b
      | |- respects _ _ (match ?x with _ => _ end) => destruct x
      end ].

Lemma respects_rebuild_from_step_3 (project_zip keystore_file : Gradio.UploadedFile)
  (build_options : list string) (ks_pass alias key_pass : string)
  (project_dir output_dir : path) (logs : list string) :
  respects (fun _ => True) (fun _ => True)
    (rebuild_and_sign_apk_from_step_3 env project_zip build_options keystore_file
       ks_pass alias key_pass project_dir output_dir logs).
Proof.
  unfold rebuild_and_sign_apk_from_step_3, apktool_build, sign_apk.
  respects_anything.
Qed.

(** The first two events of the rebuild from step 3 are the progress
    report and the build command. *)
Lemma rebuild_starts_with_build (project_zip keystore_file : Gradio.UploadedFile)
  (build_options : list string) (ks_pass alias key_pass : string)
  (project_dir output_dir : path) (logs : list string) (w : World) :
  let build_opts :=
    append_if "use_aapt2" build_options "--use-aapt2"
      (append_if "no_crunch" build_options "--no-crunch" []) in
  exists rest,
    trace (snd (rebuild_and_sign_apk_from_step_3 env project_zip build_options
                  keystore_file ks_pass alias key_pass project_dir output_dir logs w))
    = trace w ++
      [EvProgress 0.3 "Rebuilding with Apktool...";
       EvRun (build_command env project_dir (output_dir ++ ["rebuilt-unsigned.apk"])
                build_opts) None] ++ rest.
Proof.
  intros build_opts.
  destruct (rebuild_and_sign_apk_from_step_3 env project_zip build_options
              keystore_file ks_pass alias key_pass project_dir output_dir logs w)
    as [r w'] eqn:E.
  cbn [snd].
  unfold rebuild_and_sign_apk_from_step_3 in E.
  unfold bind at 1 in E. unfold progress at 1 in E.
  unfold bind at 1 in E. unfold apktool_build in E. fold build_opts in E.
  fold (build_command env project_dir (output_dir ++ ["rebuilt-unsigned.apk"]) build_opts) in E.
  destruct (run_command_total env
              (build_command env project_dir (output_dir ++ ["rebuilt-unsigned.apk"]) build_opts)
              None (emit (EvProgress 0.3 "Rebuilding with Apktool...") w))
    as (ok & out & err & n & Hrun).
  rewrite Hrun in E.
  match type of E with
  | ?c ?w4 = _ =>
      assert (Hc : respects (fun _ : event => True) (fun _ : exn => True) c)
        by (unfold sign_apk; respects_anything)
  end.
  destruct (Hc _ _ _ E) as [(evs & T & _) _].
  exists evs. rewrite T. cbn [trace set_fs emit].
  now rewrite <- !app_assoc.
Qed.

End RebuildFacts.

Section RebuildRun.

Variable env : Env.

Lemma stem_of_name (p : path) (x : string) :
  PyPath.name p = x -> PyPath.stem p = PyPath.stem [x].
Proof. intros H. unfold PyPath.stem. now rewrite H. Qed.

Lemma name_snoc (p : path) (x : string) : PyPath.name (p ++ [x]) = x.
Proof. unfold PyPath.name. apply last_last. Qed.

Lemma fs_call_run (f : node -> oserror + node) (w : World) (n' : node) :
  f (fs w) = inr n' -> fs_call f w = (Ret tt, set_fs n' w).
Proof. intros H. unfold fs_call. now rewrite H. Qed.

(** [shutil.move] of a file onto a path that is no directory. *)
Lemma shutil_move_run (src dst : path) (v : node) (w : World) (n3 n4 : node) :
  kind_at dst (fs w) <> KDir ->
  FS.lookup src (fs w) = Some v ->
  FS.del src (fs w) = inr n3 ->
  FS.put dst v n3 = inr n4 ->
  shutil_move src dst w = (Ret tt, set_fs n4 w).
Proof.
  intros Hdst Hsrc Hdel Hput. unfold shutil_move, bind, get_fs.
  assert (Hd : FS.isdir dst (fs w) = false).
  { unfold FS.isdir. unfold kind_at in Hdst.
    destruct (FS.lookup dst (fs w)) as [[?|?]|]; simpl in Hdst; congruence. }
  rewrite Hd, Hsrc. cbn [andb]. apply fs_call_run. now rewrite Hdel.
Qed.

(** The rebuild from step 3 when the builder and the signer exit with
    code 0 and the signer left its file: the signed file is moved to
    the download directory and both working directories are removed. *)
Lemma rebuild_success_run (project_zip keystore_file : Gradio.UploadedFile)
  (build_options : list string) (ks_pass alias key_pass : string)
  (a b zip_name : string) (logs : list string) (w : World)
  (out1 err1 out2 err2 : string) (n1 n2 : node) (c : content) :
  let project_dir := TEMP_DIR env ++ [a] in
  let output_dir := TEMP_DIR env ++ [b] in
  let unsigned := output_dir ++ ["rebuilt-unsigned.apk"] in
  let build_opts :=
    append_if "use_aapt2" build_options "--use-aapt2"
      (append_if "no_crunch" build_options "--no-crunch" []) in
  let build := build_command env project_dir unsigned build_opts in
  let sign :=
    sign_command env unsigned (Gradio.name keystore_file) ks_pass alias key_pass in
  let signed := output_dir ++ ["rebuilt-unsigned-aligned-signed.apk"] in
  let final := DOWNLOADS_DIR env ++ [PyPath.stem [zip_name] +++ "-signed.apk"] in
  PyPath.name (PyPath.Path (Gradio.name project_zip)) = zip_name ->
  a <> b ->
  popen env build None (fs w) = (Exited 0 out1 err1, n1) ->
  popen env sign None n1 = (Exited 0 out2 err2, n2) ->
  kind_at signed n2 = KFile c ->
  kind_at project_dir n2 = KDir ->
  kind_at (DOWNLOADS_DIR env) n2 = KDir ->
  kind_at final n2 <> KDir ->
  exists log w',
    rebuild_and_sign_apk_from_step_3 env project_zip build_options keystore_file
      ks_pass alias key_pass project_dir output_dir logs w
    = (Ret ("Success! APK rebuilt and signed.", download final, log), w') /\
    trace w' = trace w ++
               [EvProgress 0.3 "Rebuilding with Apktool..."; EvRun build None;
                EvProgress 0.8 "Signing APK..."; EvRun sign None] /\
    kind_at final (fs w') = KFile c /\
    kind_at project_dir (fs w') = KNone /\
    kind_at output_dir (fs w') = KNone.
Proof.
  intros project_dir output_dir unsigned build_opts build sign signed final
         Hname Hab Hbuild Hsign Ksigned Kproject Kdownloads Kfinal.
  assert (Koutput : kind_at output_dir n2 = KDir).
  { apply (@kind_at_dir_above output_dir ["rebuilt-unsigned-aligned-signed.apk"] n2);
      [fold signed; congruence | discriminate]. }
  (* the move *)
  destruct (@del_ok signed n2) as [n3 Hdel];
    [subst signed; destruct output_dir; discriminate | congruence |].
  pose proof (del_kind _ _ Hdel) as K3.
  destruct (@put_ok (DOWNLOADS_DIR env) (PyPath.stem [zip_name] +++ "-signed.apk")
              (File c) n3) as [n4 Hput].
  { rewrite K3. replace (is_prefix signed (DOWNLOADS_DIR env)) with false; [exact Kdownloads|].
    symmetry. subst signed output_dir. prefix_test. }
  fold final in Hput.
  assert (K4 : forall q, is_prefix final q = false -> kind_at q n4 = kind_at q n3).
  { intros q Hq. eapply put_kind_other; eauto. }
  (* the clean-up *)
  assert (Hfp : is_prefix final project_dir = false)
    by (subst final project_dir; prefix_test).
  assert (Hsp : is_prefix signed project_dir = false)
    by (subst signed output_dir project_dir; prefix_test).
  destruct (@rmtree_ok project_dir n4) as (n5 & Hrm5 & K5).
  { subst project_dir. destruct (TEMP_DIR env); discriminate. }
  { rewrite (K4 _ Hfp), K3, Hsp. exact Kproject. }
  assert (Hfo : is_prefix final output_dir = false)
    by (subst final output_dir; prefix_test).
  assert (Hso : is_prefix signed output_dir = false)
    by (subst signed output_dir; prefix_test).
  assert (Hpo : is_prefix project_dir output_dir = false)
    by (subst output_dir project_dir; prefix_test).
  destruct (@rmtree_ok output_dir n5) as (n6 & Hrm6 & K6).
  { subst output_dir. destruct (TEMP_DIR env); discriminate. }
  { rewrite K5, Hpo, (K4 _ Hfo), K3, Hso. exact Koutput. }
  assert (Hpf : is_prefix project_dir final = false)
    by (subst final project_dir; prefix_test).
  assert (Hof : is_prefix output_dir final = false)
    by (subst final output_dir; prefix_test).
  (* the run *)
  eexists. exists (set_fs n6
                     (emit (EvRun sign None)
                        (emit (EvProgress 0.8 "Signing APK...")
                           (emit (EvRun build None)
                              (emit (EvProgress 0.3 "Rebuilding with Apktool...") w))))).
  split; [|split; [|split; [|split]]].
  - unfold rebuild_and_sign_apk_from_step_3, apktool_build, sign_apk.
    fold build_opts. fold project_dir output_dir. fold unsigned.
    change (["java"; "-jar"; PyPath.str (APKTOOL_PATH env); "b"; PyPath.str project_dir;
             "-o"; PyPath.str unsigned] ++ build_opts) with build.
    change ["java"; "-jar"; PyPath.str (SIGNER_PATH env); "--apks"; PyPath.str unsigned;
            "--ks"; Gradio.name keystore_file; "--ksPass"; ks_pass;
            "--ksAlias"; alias; "--keyPass"; key_pass] with sign.
    unfold bind at 1. unfold progress at 1. unfold bind at 1.
    rewrite (@run_command_exited env build None
               (emit (EvProgress 0.3 "Rebuilding with Apktool...") w) 0 out1 err1 n1 Hbuild).
    cbn [Z.eqb negb].
    unfold bind at 1. unfold progress at 1. unfold bind at 1.
    rewrite (@run_command_exited env sign None
               (emit (EvProgress 0.8 "Signing APK...")
                  (set_fs n1
                     (emit (EvRun build None)
                        (emit (EvProgress 0.3 "Rebuilding with Apktool...") w))))
               0 out2 err2 n2 Hsign).
    cbn [Z.eqb negb].
    rewrite (stem_of_name _ Hname).
    unfold unsigned at 1. rewrite (stem_of_name _ (name_snoc output_dir _)).
    change (PyPath.stem ["rebuilt-unsigned.apk"] +++ "-aligned-signed.apk")
      with "rebuilt-unsigned-aligned-signed.apk".
    fold signed. fold final.
    unfold bind at 1.
    erewrite (@shutil_move_run signed final (File c) _ n3 n4);
      [| exact Kfinal | apply kind_of_file; exact Ksigned | exact Hdel | exact Hput].
    unfold bind at 1. erewrite fs_call_run by exact Hrm5.
    unfold bind at 1. erewrite fs_call_run by exact Hrm6.
    reflexivity.
  - cbn [trace set_fs emit]. now rewrite <- !app_assoc.
  - cbn [fs set_fs]. rewrite K6, Hof, K5, Hpf.
    rewrite (put_kind_same _ _ _ Hput). reflexivity.
  - cbn [fs set_fs]. rewrite K6, K5, is_prefix_refl.
    now destruct (is_prefix output_dir project_dir).
  - cbn [fs set_fs]. rewrite K6, is_prefix_refl. reflexivity.
Qed.

End RebuildRun.

(** C8 (the rebuild scenario).  Project archive [sample-decompiled.zip],
    options [use_aapt2], from step 3 of [rebuild_and_sign_apk] with the
    project unpacked in [project_dir].  The run first reports progress
    and runs the builder: [java -jar apktool.jar b project_dir -o
    output_dir/rebuilt-unsigned.apk --use-aapt2].  The file the pipeline
    expects from the signer is named by the stem of the unsigned file and
    the suffix [-aligned-signed.apk].  When the builder and the signer
    exit with code 0 and that file is there, the signer was run on the
    unsigned file, the reply is the success reply with a download of
    [DOWNLOADS_DIR/sample-decompiled-signed.apk], that path holds the
    signed file and both working directories are gone.  Every run of
    [rebuild_and_sign_apk] that gets to a tool is such a run from step 3
    ([rebuild_reaches_step_3]). *)
Theorem rebuild_scenario (env : Env) (project_zip keystore_file : Gradio.UploadedFile)
  (ks_pass alias key_pass : string) (a b : string) (logs : list string) (w : World) :
  let project_dir := TEMP_DIR env ++ [a] in
  let output_dir := TEMP_DIR env ++ [b] in
  let unsigned := output_dir ++ ["rebuilt-unsigned.apk"] in
  let build := build_command env project_dir unsigned ["--use-aapt2"] in
  let sign :=
    sign_command env unsigned (Gradio.name keystore_file) ks_pass alias key_pass in
  let signed := output_dir ++ [PyPath.stem unsigned +++ "-aligned-signed.apk"] in
  let final := DOWNLOADS_DIR env ++ ["sample-decompiled-signed.apk"] in
  let run :=
    rebuild_and_sign_apk_from_step_3 env project_zip ["use_aapt2"] keystore_file
      ks_pass alias key_pass project_dir output_dir logs w in
  PyPath.name (PyPath.Path (Gradio.name project_zip)) = "sample-decompiled.zip" ->
  (exists rest,
     trace (snd run) =
     trace w ++ [EvProgress 0.3 "Rebuilding with Apktool..."; EvRun build None] ++ rest) /\
  PyPath.name unsigned = "rebuilt-unsigned.apk" /\
  PyPath.name signed = "rebuilt-unsigned-aligned-signed.apk" /\
  (forall out1 err1 n1 out2 err2 n2 c,
     a <> b ->
     popen env build None (fs w) = (Exited 0 out1 err1, n1) ->
     popen env sign None n1 = (Exited 0 out2 err2, n2) ->
     kind_at signed n2 = KFile c ->
     kind_at project_dir n2 = KDir ->
     kind_at (DOWNLOADS_DIR env) n2 = KDir ->
     kind_at final n2 <> KDir ->
     exists log,
       fst run = Ret ("Success! APK rebuilt and signed.", download final, log) /\
       Gradio.value (download final) = Some (PyPath.str final) /\
       PyPath.name final = "sample-decompiled-signed.apk" /\
       trace (snd run) =
       trace w ++ [EvProgress 0.3 "Rebuilding with Apktool..."; EvRun build None;
                   EvProgress 0.8 "Signing APK..."; EvRun sign None] /\
       kind_at final (fs (snd run)) = KFile c /\
       kind_at project_dir (fs (snd run)) = KNone /\
       kind_at output_dir (fs (snd run)) = KNone).
Proof.
  intros project_dir output_dir unsigned build sign signed final run Hname.
  assert (Hsigned : signed = output_dir ++ ["rebuilt-unsigned-aligned-signed.apk"]).
  { unfold signed, unsigned. now rewrite (stem_of_name _ (name_snoc output_dir _)). }
  split; [|split; [|split]].
  - apply (rebuild_starts_with_build env project_zip keystore_file ["use_aapt2"]
             ks_pass alias key_pass project_dir output_dir logs w).
  - apply name_snoc.
  - rewrite Hsigned. apply name_snoc.
  - intros out1 err1 n1 out2 err2 n2 c Hab Hbuild Hsign Ksigned Kproject Kdown Kfinal.
    rewrite Hsigned in Ksigned.
    destruct (@rebuild_success_run env project_zip keystore_file ["use_aapt2"]
                ks_pass alias key_pass a b "sample-decompiled.zip" logs w
                out1 err1 out2 err2 n1 n2 c Hname Hab Hbuild Hsign Ksigned Kproject
                Kdown Kfinal) as (log & w' & Hrun & Htrace & K1 & K2 & K3).
    assert (Hrun' : run = (Ret ("Success! APK rebuilt and signed.", download final, log), w'))
      by exact Hrun.
    exists log. rewrite Hrun'. cbn [fst snd].
    split; [reflexivity|]. split; [reflexivity|]. split; [apply name_snoc|].
    split; [exact Htrace|]. split; [exact K1|]. split; [exact K2 | exact K3].
Qed.

(** The scenario at the sample installation. *)
Lemma rebuild_scenario_witness :
  let env := Sample.env 0 0 0 0 0 in
  let run :=
    rebuild_and_sign_apk_from_step_3 env Sample.project_zip ["use_aapt2"] Sample.keystore
      "pw" "key0" "pw" (TEMP_DIR env ++ ["rebuild-0a1b2c3d"])
      (TEMP_DIR env ++ ["rebuild-out-11112222"]) [] sample_rebuild_world in
  exists log,
    fst run = Ret ("Success! APK rebuilt and signed.",
                   download (DOWNLOADS_DIR env ++ ["sample-decompiled-signed.apk"]), log) /\
    kind_at (DOWNLOADS_DIR env ++ ["sample-decompiled-signed.apk"]) (fs (snd run))
    = KFile (Raw "signed").
Proof.
  intros env run.
  destruct (@rebuild_scenario env Sample.project_zip Sample.keystore "pw" "key0" "pw"
              "rebuild-0a1b2c3d" "rebuild-out-11112222" [] sample_rebuild_world eq_refl)
    as (_ & _ & _ & H).
  pose (unsigned := (TEMP_DIR env ++ ["rebuild-out-11112222"]) ++ ["rebuilt-unsigned.apk"]).
  pose (n1 := snd (popen env
                     (build_command env (TEMP_DIR env ++ ["rebuild-0a1b2c3d"]) unsigned
                        ["--use-aapt2"])
                     None (fs sample_rebuild_world))).
  pose (n2 := snd (popen env
                     (sign_command env unsigned (Gradio.name Sample.keystore)
                        "pw" "key0" "pw")
                     None n1)).
  destruct (H "I: Built apk" "" n1 "signed" "" n2 (Raw "signed"))
    as (log & Hrun & _ & _ & _ & K & _).
  - discriminate.
  - vm_compute. reflexivity.
  - vm_compute. reflexivity.
  - vm_compute. reflexivity.
  - vm_compute. reflexivity.
  - vm_compute. reflexivity.
  - vm_compute. discriminate.
  - exists log. split; [exact Hrun | exact K].
Defined.

(** * The claim about the optional stages *)

Section NonFatal.

Variable env : Env.
Variables (d zip_name : string).

Let project_dir : path := TEMP_DIR env ++ [d].
Let zip_path : path := DOWNLOADS_DIR env ++ [zip_name].










Variables (apk_path project_name : string) (jadx_opts decode_options logs : list string).

Hypothesis zip_name_eq : zip_name = project_name +++ "-decompiled.zip".


End NonFatal.



(** * The tool check *)

Section ToolCheck.

Variable env : Env.

(** [check_tools], branch by branch. *)
Lemma check_tools_run (w : World) :
  check_tools env w =
  let w0 := emit (EvRun ["java"; "--version"] None) w in
  match popen env ["java"; "--version"] None (fs w) with
  | (Exited rc out err, n) =>
      if Z.eqb rc 0
      then
        if FS.exists_ (APKTOOL_PATH env) n
        then
          if FS.exists_ (SIGNER_PATH env) n
          then
            if FS.exists_ (JADX_PATH env) n
            then (Ret (true,
                       PyStr.join nl ["Java Version:" +++ nl +++ out +++ err;
                                      "apktool.jar found."; "uber-apk-signer.jar found.";
                                      "JADX found."]),
                  set_fs n w0)
            else (Ret (false, "JADX not found at " +++ PyPath.str (JADX_PATH env)),
                  set_fs n w0)
          else (Ret (false,
                     "uber-apk-signer.jar not found at " +++ PyPath.str (SIGNER_PATH env)),
                set_fs n w0)
        else (Ret (false, "apktool.jar not found at " +++ PyPath.str (APKTOOL_PATH env)),
              set_fs n w0)
      else (Ret (false,
                 "Java (JDK) not found. Please install it and make sure it's in your PATH."),
            set_fs n w0)
  | (SpawnFailed message, _) =>
      (Ret (false,
            "Java (JDK) not found. Please install it and make sure it's in your PATH."),
       w0)
  end.
Proof.
  destruct w as [n0 tr u]. unfold check_tools, _run_command, path_exists.
  run_monad.
  destruct (popen env ["java"; "--version"] None n0) as [[rc out err|message] n];
    [|reflexivity].
  destruct (Z.eqb rc 0); cbn [negb]; [|reflexivity].
  run_monad.
  destruct (FS.exists_ (APKTOOL_PATH env) n); cbn [negb]; [|reflexivity].
  destruct (FS.exists_ (SIGNER_PATH env) n); cbn [negb]; [|reflexivity].
  destruct (FS.exists_ (JADX_PATH env) n); reflexivity.
Qed.

End ToolCheck.

(** X1 (the verdict of the tool check).  [check_tools] never raises and
    runs one command, [java --version].  Its verdict is [True] exactly
    when that command exited with code 0 and the three tool files exist
    in the file system the command left.  Otherwise the message names
    the first thing that is missing, in the order Java, [apktool.jar],
    [uber-apk-signer.jar], JADX. *)
Theorem check_tools_verdict (env : Env) (w : World) :
  let java := popen env ["java"; "--version"] None (fs w) in
  exists ok message w1,
    check_tools env w = (Ret (ok, message), w1) /\
    trace w1 = trace w ++ [EvRun ["java"; "--version"] None] /\
    uuid_calls w1 = uuid_calls w /\
    (forall rc out err, fst java = Exited rc out err -> fs w1 = snd java) /\
    (ok = true <->
       ~ fails (fst java) /\
       FS.exists_ (APKTOOL_PATH env) (fs w1) = true /\
       FS.exists_ (SIGNER_PATH env) (fs w1) = true /\
       FS.exists_ (JADX_PATH env) (fs w1) = true) /\
    (fails (fst java) ->
       message = "Java (JDK) not found. Please install it and make sure it's in your PATH.") /\
    (~ fails (fst java) ->
       FS.exists_ (APKTOOL_PATH env) (fs w1) = false ->
       message = "apktool.jar not found at " +++ PyPath.str (APKTOOL_PATH env)) /\
    (~ fails (fst java) ->
       FS.exists_ (APKTOOL_PATH env) (fs w1) = true ->
       FS.exists_ (SIGNER_PATH env) (fs w1) = false ->
       message = "uber-apk-signer.jar not found at " +++ PyPath.str (SIGNER_PATH env)) /\
    (~ fails (fst java) ->
       FS.exists_ (APKTOOL_PATH env) (fs w1) = true ->
       FS.exists_ (SIGNER_PATH env) (fs w1) = true ->
       FS.exists_ (JADX_PATH env) (fs w1) = false ->
       message = "JADX not found at " +++ PyPath.str (JADX_PATH env)).
Proof.
  intros java. rewrite check_tools_run. subst java. cbv zeta.
  destruct (popen env ["java"; "--version"] None (fs w)) as [[rc out err|m] n];
    cbn [fst snd fails].
  - destruct (Z.eqb_spec rc 0) as [->|Hrc].
    + destruct (FS.exists_ (APKTOOL_PATH env) n) eqn:EA;
        [destruct (FS.exists_ (SIGNER_PATH env) n) eqn:ES;
         [destruct (FS.exists_ (JADX_PATH env) n) eqn:EJ|]|];
        do 3 eexists; (split; [reflexivity|]); cbn [fs trace uuid_calls set_fs emit];
        rewrite ?EA, ?ES, ?EJ;
        repeat split; try reflexivity; try congruence; try tauto;
        try (intros H; exfalso; apply H; reflexivity);
        try (intros (_ & H1 & H2 & H3); congruence).
    + do 3 eexists. split; [reflexivity|]. cbn [fs trace uuid_calls set_fs emit].
      repeat split; try reflexivity; try congruence; tauto.
  - do 3 eexists. split; [reflexivity|]. cbn [fs trace uuid_calls set_fs emit].
    repeat split; try reflexivity; try congruence; tauto.
Qed.

(** X2 (the tools are checked before the inputs).  When [java --version]
    fails or one of the three tool files is missing once it has run,
    [process_apk] answers with the tools error, a hidden button and the
    message of the check, whatever its inputs are: it raises no input
    error even without a file and a URL, draws no uuid and runs nothing
    after [java --version]. *)
Theorem tools_are_checked_first (env : Env) (apk_file : option Gradio.UploadedFile)
  (apk_url : option string) (decode_options : list string) (w : World)
  (java : proc_outcome) (n : node) :
  popen env ["java"; "--version"] None (fs w) = (java, n) ->
  fails java \/
  FS.exists_ (APKTOOL_PATH env) n = false \/
  FS.exists_ (SIGNER_PATH env) n = false \/
  FS.exists_ (JADX_PATH env) n = false ->
  exists message w1,
    process_apk env apk_file apk_url decode_options w =
      (Ret ("Error: Tools are not configured correctly.", hidden,
            "--- Tool Check ---" +++ nl +++ message), w1) /\
    trace w1 = trace w ++ [EvRun ["java"; "--version"] None] /\
    uuid_calls w1 = uuid_calls w.
Proof.
  intros Hjava Hmissing.
  assert (Hcheck : exists message w1,
             check_tools env w = (Ret (false, message), w1) /\
             trace w1 = trace w ++ [EvRun ["java"; "--version"] None] /\
             uuid_calls w1 = uuid_calls w).
  { rewrite check_tools_run, Hjava. cbv zeta.
    destruct java as [rc out err|m]; [|do 2 eexists; repeat split].
    destruct (Z.eqb_spec rc 0) as [->|Hrc]; [|do 2 eexists; repeat split].
    destruct Hmissing as [H|[H|[H|H]]].
    - now destruct H.
    - rewrite H. do 2 eexists; repeat split.
    - rewrite H. destruct (FS.exists_ (APKTOOL_PATH env) n);
        do 2 eexists; repeat split.
    - rewrite H. destruct (FS.exists_ (APKTOOL_PATH env) n);
        [destruct (FS.exists_ (SIGNER_PATH env) n)|]; do 2 eexists; repeat split. }
  destruct Hcheck as (message & w1 & Hcheck & T & U).
  exists message, w1. split; [|split; [exact T | exact U]].
  unfold process_apk. unfold bind at 1. rewrite Hcheck. reflexivity.
Qed.

(** The sample installation without JADX and without inputs. *)
Lemma tools_are_checked_first_witness :
  let w := mkWorld (Dir [("app", Dir [("tools",
                      Dir [("apktool.jar", File (Raw "jar"));
                           ("uber-apk-signer.jar", File (Raw "jar"))])])]) [] 0 in
  exists message w1,
    process_apk (Sample.env 0 0 0 0 0) None None [] w =
      (Ret ("Error: Tools are not configured correctly.", hidden,
            "--- Tool Check ---" +++ nl +++ message), w1) /\
    trace w1 = trace w ++ [EvRun ["java"; "--version"] None] /\
    uuid_calls w1 = uuid_calls w.
Proof.
  intros w.
  apply (@tools_are_checked_first (Sample.env 0 0 0 0 0) None None [] w
           (Exited 0 "openjdk 17" "") (fs w)).
  - reflexivity.
  - right. right. right. reflexivity.
Defined.

(** * Computations that keep paths, and what they ensure *)

Section Keeps.

Variable S : path -> Prop.

Lemma keeps_ret {A} (a : A) : keeps S (ret a).
Proof. intros w r w' H q _. inversion H; subst. reflexivity. Qed.

Lemma keeps_raise {A} (e : exn) : keeps S (@raise A e).
Proof. intros w r w' H q _. inversion H; subst. reflexivity. Qed.

Lemma keeps_bind {A B} (c : M A) (k : A -> M B) :
  keeps S c -> (forall a, keeps S (k a)) -> keeps S (bind c k).
Proof.
  intros Hc Hk w r w' H q Hq. unfold bind in H.
  destruct (c w) as [[a|e] w1] eqn:E.
  - rewrite (Hk a _ _ _ H q Hq). exact (Hc _ _ _ E q Hq).
  - inversion H; subst. exact (Hc _ _ _ E q Hq).
Qed.

Lemma keeps_try_except {A} (c : M A) (handles : exn -> bool) (h : exn -> M A) :
  keeps S c -> (forall e, keeps S (h e)) -> keeps S (try_except c handles h).
Proof.
  intros Hc Hh w r w' H q Hq. unfold try_except in H.
  destruct (c w) as [[a|e] w1] eqn:E.
  - inversion H; subst. exact (Hc _ _ _ E q Hq).
  - destruct (handles e).
    + rewrite (Hh e _ _ _ H q Hq). exact (Hc _ _ _ E q Hq).
    + inversion H; subst. exact (Hc _ _ _ E q Hq).
Qed.

Lemma keeps_get_fs : keeps S get_fs.
Proof. intros w r w' H q _. inversion H; subst. reflexivity. Qed.

Lemma keeps_progress (fr : QArith_base.Q) (d : string) : keeps S (progress fr d).
Proof. intros w r w' H q _. inversion H; subst. reflexivity. Qed.

Lemma keeps_fs_call (f : node -> oserror + node) :
  (forall n n', f n = inr n' -> forall q, S q -> kind_at q n' = kind_at q n) ->
  keeps S (fs_call f).
Proof.
  intros Hf w r w' H q Hq. unfold fs_call in H.
  destruct (f (fs w)) as [e|n'] eqn:E; inversion H; subst; [reflexivity|].
  exact (Hf _ _ E q Hq).
Qed.

Lemma keeps_truediv (a b : Z) : keeps S (truediv a b).
Proof. unfold truediv. destruct (Z.eqb b 0); [apply keeps_raise | apply keeps_ret]. Qed.

Lemma keeps_for_fold {A St} (l : list A) (body : St -> A -> M St) :
  (forall s x, keeps S (body s x)) -> forall s, keeps S (for_fold l s body).
Proof.
  intros Hb. induction l as [|x l IH]; intros s; [apply keeps_ret|].
  cbn [for_fold]. apply keeps_bind; [apply Hb | intros s'; apply IH].
Qed.

End Keeps.

Section Ensures.

Lemma ensures_ret {A} (R : A -> World -> Prop) (a : A) :
  (forall w, R a w) -> ensures R (ret a).
Proof. intros HR w a' w' H. inversion H; subst. apply HR. Qed.

Lemma ensures_raise {A} (R : A -> World -> Prop) (e : exn) : ensures R (@raise A e).
Proof. intros w a w' H. discriminate. Qed.

(** Only the last computation of a sequence decides what is returned. *)
Lemma ensures_bind {A B} (R : B -> World -> Prop) (c : M A) (k : A -> M B) :
  (forall a, ensures R (k a)) -> ensures R (bind c k).
Proof.
  intros Hk w b w' H. unfold bind in H.
  destruct (c w) as [[a|e] w1]; [exact (Hk a _ _ _ H) | discriminate].
Qed.

Lemma ensures_try_except {A} (R : A -> World -> Prop) (c : M A)
  (handles : exn -> bool) (h : exn -> M A) :
  ensures R c -> (forall e, ensures R (h e)) -> ensures R (try_except c handles h).
Proof.
  intros Hc Hh w a w' H. unfold try_except in H.
  destruct (c w) as [[a1|e] w1] eqn:E.
  - inversion H; subst. exact (Hc _ _ _ E).
  - destruct (handles e); [exact (Hh e _ _ _ H) | discriminate].
Qed.

Lemma bind_returns {A B} (c : M A) (k : A -> M B) (w w' : World) (b : B) :
  bind c k w = (Ret b, w') ->
  exists a w1, c w = (Ret a, w1) /\ k a w1 = (Ret b, w').
Proof.
  unfold bind. intros H. destruct (c w) as [[a|e] w1]; [|discriminate].
  now exists a, w1.
Qed.

End Ensures.

(** * The download *)

Section DownloadName.

Lemma split_fields_no_slash (s : string) :
  Forall (fun f => PyStr.contains "/" f = false) (PyStr.split "/" s).
Proof.
  induction s as [|c s IH]; cbn [PyStr.split].
  - constructor; [reflexivity | constructor].
  - destruct (Ascii.eqb c "/") eqn:Ec.
    + constructor; [reflexivity | exact IH].
    + assert (Hc : forall f, PyStr.contains "/" f = false ->
                             PyStr.contains "/" (String c f) = false).
      { intros f Hf. cbn [PyStr.contains PyStr.startswith].
        rewrite Ascii.eqb_sym, Ec, Hf. reflexivity. }
      destruct (PyStr.split "/" s) as [|f fs].
      * constructor; [now apply Hc | constructor].
      * inversion IH; subst. constructor; [now apply Hc | assumption].
Qed.

Lemma last_Forall {A} (P : A -> Prop) (l : list A) (d : A) :
  Forall P l -> P d -> P (last l d).
Proof.
  intros Hl Hd. induction Hl as [|x l Hx Hl IH]; [exact Hd|].
  destruct l; [exact Hx | exact IH].
Qed.

Lemma download_name_apk (url : string) :
  PyStr.endswith ".apk" (download_name url) = true.
Proof.
  unfold download_name.
  destruct (PyStr.endswith ".apk" (last (PyStr.split "/" url) "")) eqn:E;
    cbn [negb]; [exact E | reflexivity].
Qed.

Lemma download_name_no_slash (url : string) :
  PyStr.contains "/" (download_name url) = false.
Proof.
  unfold download_name.
  destruct (negb (PyStr.endswith ".apk" (last (PyStr.split "/" url) "")));
    [reflexivity|].
  apply (@last_Forall _ (fun f => PyStr.contains "/" f = false));
    [apply split_fields_no_slash | reflexivity].
Qed.

End DownloadName.

Section DownloadKeeps.

Variable env : Env.

Lemma keeps_http_get (S : path -> Prop) (url : string) : keeps S (http_get env url).
Proof.
  intros w r w' H q _. unfold http_get in H.
  destruct (requests_get env url); inversion H; subst; reflexivity.
Qed.

Lemma keeps_write_file (p : path) (c : content) :
  keeps (fun q => q <> p) (fs_call (FS.write_file p c)).
Proof.
  apply keeps_fs_call. intros n n' H q Hq.
  exact (proj2 (write_file_kind _ _ _ H q) Hq).
Qed.

Lemma keeps_append_bytes (p : path) (chunk : string) :
  keeps (fun q => q <> p) (append_bytes p chunk).
Proof.
  apply keeps_bind; [apply keeps_get_fs|]. intros n.
  destruct (FS.read_file p n) as [e|[s|ms]];
    [apply keeps_raise | apply keeps_write_file | apply keeps_write_file].
Qed.

Lemma keeps_download_apk (url : string) :
  keeps (fun q => q <> download_target env url) (download_apk env url).
Proof.
  unfold download_apk.
  apply keeps_try_except; [|intros e; apply keeps_raise].
  cbv zeta. fold (download_name url). fold (download_target env url).
  apply keeps_bind; [apply keeps_http_get|]. intros r.
  apply keeps_bind.
  { unfold raise_for_status. destruct (status_error r);
      [apply keeps_raise | apply keeps_ret]. }
  intros _.
  apply keeps_bind; [apply keeps_write_file|]. intros _.
  apply keeps_bind.
  { apply keeps_for_fold. intros s x.
    apply keeps_bind; [apply keeps_append_bytes|]. intros _.
    apply keeps_bind; [apply keeps_truediv|]. intros fr.
    apply keeps_bind; [apply keeps_progress|]. intros _. apply keeps_ret. }
  intros _. destruct (stream_error r); [apply keeps_raise | apply keeps_ret].
Qed.

Lemma download_apk_returns_target (url : string) :
  ensures (fun p _ => p = PyPath.str (download_target env url)) (download_apk env url).
Proof.
  unfold download_apk.
  apply ensures_try_except; [|intros e; apply ensures_raise].
  cbv zeta. fold (download_name url). fold (download_target env url).
  do 4 (apply ensures_bind; intros ?).
  destruct (stream_error _); [apply ensures_raise | now apply ensures_ret].
Qed.

End DownloadKeeps.

(** X3 (the download writes one file).  Whatever the URL and whatever
    the outcome, [download_apk] changes nothing but one path: a direct
    child of [TEMP_DIR] whose name ends in [.apk] and holds no slash.
    When the call returns, it returns that path. *)
Theorem download_apk_is_confined (env : Env) (url : string) (w w' : World)
  (r : outcome string) :
  download_apk env url w = (r, w') ->
  download_target env url = TEMP_DIR env ++ [download_name url] /\
  PyStr.endswith ".apk" (download_name url) = true /\
  PyStr.contains "/" (download_name url) = false /\
  (forall q, q <> download_target env url -> kind_at q (fs w') = kind_at q (fs w)) /\
  (forall p, r = Ret p -> p = PyPath.str (download_target env url)).
Proof.
  intros H. split; [reflexivity|].
  split; [apply download_name_apk|].
  split; [apply download_name_no_slash|]. split.
  - intros q Hq. exact (@keeps_download_apk env url _ _ _ H q Hq).
  - intros p ->. exact (@download_apk_returns_target env url _ _ _ H).
Qed.

(** A URL that names no [.apk] file, at the sample server, which refuses
    it: the target is [downloaded.apk] and the uploads are untouched. *)
Lemma download_apk_is_confined_witness :
  let env := Sample.env 0 0 0 0 0 in
  let url := "https://example.com/files/../../etc/passwd" in
  download_target env url = ["app"; "temp"; "downloaded.apk"] /\
  kind_at ["uploads"; "sample.apk"] (fs (snd (download_apk env url Sample.world))) =
  KFile (Raw "apk").
Proof.
  intros env url.
  destruct (@download_apk_is_confined env url Sample.world
              (snd (download_apk env url Sample.world))
              (fst (download_apk env url Sample.world)))
    as (Ht & _ & _ & Hk & _).
  - destruct (download_apk env url Sample.world); reflexivity.
  - split; [reflexivity|]. rewrite Hk; [reflexivity | discriminate].
Defined.

Section DownloadRun.

Variable env : Env.

Lemma concat_empty_cons (c : string) (l : list string) :
  String.concat "" (c :: l) = c +++ String.concat "" l.
Proof. destruct l as [|d l]; cbn [String.concat]; [now rewrite append_nil_r | reflexivity]. Qed.

(** The loop of [download_apk] on a file that is open at [d / k]. *)
Lemma download_loop (d : path) (k : string) (total : Z) (cs : list string) :
  cs = [] \/ total <> 0%Z ->
  forall (done : Z) (sofar : string) (w : World),
  kind_at (d ++ [k]) (fs w) = KFile (Raw sofar) ->
  exists done' w' evs,
    for_fold cs done
      (fun bytes_downloaded chunk =>
         append_bytes (d ++ [k]) chunk ;;;
         let bytes_downloaded :=
           (bytes_downloaded + Z.of_nat (String.length chunk))%Z in
         fraction <- truediv bytes_downloaded total ;;
         progress fraction
           ("Downloading: " +++ str_int bytes_downloaded +++ "/" +++
            str_int total +++ " bytes") ;;;
         ret bytes_downloaded) w = (Ret done', w') /\
    kind_at (d ++ [k]) (fs w') = KFile (Raw (sofar +++ String.concat "" cs)) /\
    trace w' = trace w ++ evs /\ length evs = length cs /\ Forall is_progress evs /\
    uuid_calls w' = uuid_calls w.
Proof.
  intros Hcs. induction cs as [|c cs IH]; intros done sofar w K.
  - exists done, w, []. cbn [for_fold String.concat]. unfold ret.
    rewrite append_nil_r, app_nil_r. repeat split; [exact K | constructor].
  - destruct Hcs as [Hcs|Htotal]; [discriminate|].
    assert (Kd : kind_at d (fs w) = KDir).
    { apply (@kind_at_dir_above d [k] (fs w)); [congruence | discriminate]. }
    destruct (@write_file_ok d k (Raw (sofar +++ c)) (fs w) Kd) as [n1 Hw];
      [congruence|].
    pose proof (proj1 (write_file_kind _ _ _ Hw _) eq_refl) as K1.
    destruct (IH (or_intror Htotal) (done + Z.of_nat (String.length c))%Z (sofar +++ c)
                 (emit (EvProgress
                          (Qdiv (inject_Z (done + Z.of_nat (String.length c)))
                                (inject_Z total))
                          ("Downloading: " +++
                           str_int (done + Z.of_nat (String.length c)) +++ "/" +++
                           str_int total +++ " bytes"))
                    (set_fs n1 w)) K1)
      as (done' & w' & evs & Hrun & K' & T & L & F & U).
    exists done', w', (EvProgress
                         (Qdiv (inject_Z (done + Z.of_nat (String.length c)))
                               (inject_Z total))
                         ("Downloading: " +++
                          str_int (done + Z.of_nat (String.length c)) +++ "/" +++
                          str_int total +++ " bytes") :: evs).
    split; [|split; [|split; [|split; [|split]]]].
    + cbn [for_fold]. rewrite <- Hrun.
      unfold bind at 1. unfold bind at 1. unfold append_bytes at 1.
      unfold bind at 1. unfold get_fs at 1.
      rewrite read_file_kind, K. unfold fs_call at 1. rewrite Hw.
      unfold bind at 1. unfold truediv at 1.
      destruct (Z.eqb_spec total 0) as [|_]; [contradiction|].
      unfold ret at 1. unfold bind at 1. unfold progress at 1. unfold ret at 1.
      reflexivity.
    + rewrite K', concat_empty_cons, append_assoc. reflexivity.
    + rewrite T. cbn [trace emit set_fs]. now rewrite <- app_assoc.
    + cbn [length]. now rewrite L.
    + constructor; [exact I | exact F].
    + rewrite U. reflexivity.
Qed.

(** A download that goes well. *)
Lemma download_apk_run (url : string) (r : response) (w : World) :
  requests_get env url = Responded r ->
  status_error r = None ->
  stream_error r = None ->
  chunks r = [] \/
    match content_length r with Some n => n | None => 0%Z end <> 0%Z ->
  kind_at (TEMP_DIR env) (fs w) = KDir ->
  kind_at (download_target env url) (fs w) <> KDir ->
  exists w' evs,
    download_apk env url w = (Ret (PyPath.str (download_target env url)), w') /\
    kind_at (download_target env url) (fs w') = KFile (Raw (body r)) /\
    trace w' = trace w ++ EvHttpGet url :: evs /\
    length evs = length (chunks r) /\ Forall is_progress evs /\
    uuid_calls w' = uuid_calls w.
Proof.
  intros Hget Hstatus Hstream Hcs Ktemp Ktarget.
  unfold download_target in *.
  destruct (@write_file_ok (TEMP_DIR env) (download_name url) (Raw "") (fs w) Ktemp Ktarget)
    as [n1 Hw].
  pose proof (proj1 (write_file_kind _ _ _ Hw _) eq_refl) as K1.
  destruct (@download_loop (TEMP_DIR env) (download_name url)
              match content_length r with Some n => n | None => 0%Z end
              (chunks r) Hcs 0%Z "" (set_fs n1 (emit (EvHttpGet url) w)) K1)
    as (done' & w' & evs & Hrun & K' & T & L & F & U).
  exists w', evs. split; [|split; [|split; [|split; [|split]]]].
  - unfold download_apk, try_except. cbv zeta.
    fold (download_name url).
    unfold bind at 1. unfold http_get at 1. rewrite Hget.
    unfold bind at 1. unfold raise_for_status at 1. rewrite Hstatus. unfold ret at 1.
    unfold bind at 1. unfold fs_call at 1. cbn [fs emit]. rewrite Hw.
    unfold bind at 1.
    match goal with
    | |- context [for_fold ?l ?s ?b ?w0] =>
        change (for_fold l s b w0)
          with (for_fold (chunks r) 0%Z
                  (fun bytes_downloaded chunk =>
                     append_bytes (TEMP_DIR env ++ [download_name url]) chunk ;;;
                     let bytes_downloaded :=
                       (bytes_downloaded + Z.of_nat (String.length chunk))%Z in
                     fraction <- truediv bytes_downloaded
                                   match content_length r with
                                   | Some n => n | None => 0%Z end ;;
                     progress fraction
                       ("Downloading: " +++ str_int bytes_downloaded +++ "/" +++
                        str_int match content_length r with
                                | Some n => n | None => 0%Z end +++ " bytes") ;;;
                     ret bytes_downloaded)
                  (set_fs n1 (emit (EvHttpGet url) w)))
    end.
    rewrite Hrun, Hstream. reflexivity.
  - exact K'.
  - rewrite T. cbn [trace emit set_fs]. now rewrite <- app_assoc.
  - exact L.
  - exact F.
  - rewrite U. reflexivity.
Qed.

End DownloadRun.

(** X4 (a download that goes well).  Let the server answer [url] without
    an error status and without a break of the stream, and let the body
    be empty or the content-length be a number other than 0.  With
    [TEMP_DIR] in place and no directory at the target, [download_apk]
    returns the target path, the file there holds the chunks of the body
    in order, and the run made one request and one progress report per
    chunk. *)
Theorem download_apk_stores_the_body (env : Env) (url : string) (r : response)
  (w : World) :
  requests_get env url = Responded r ->
  status_error r = None ->
  stream_error r = None ->
  chunks r = [] \/ (exists n, content_length r = Some n /\ n <> 0%Z) ->
  kind_at (TEMP_DIR env) (fs w) = KDir ->
  kind_at (download_target env url) (fs w) <> KDir ->
  exists w' evs,
    download_apk env url w = (Ret (PyPath.str (download_target env url)), w') /\
    kind_at (download_target env url) (fs w') = KFile (Raw (body r)) /\
    trace w' = trace w ++ EvHttpGet url :: evs /\
    length evs = length (chunks r) /\ Forall is_progress evs.
Proof.
  intros Hget Hstatus Hstream Hcs Ktemp Ktarget.
  destruct (@download_apk_run env url r w Hget Hstatus Hstream) as (w' & evs & H);
    [| exact Ktemp | exact Ktarget |].
  - destruct Hcs as [Hcs|(n & Hn & Hne)]; [now left | right; now rewrite Hn].
  - exists w', evs. tauto.
Qed.

(** The sample server sends [/app.apk] in two chunks with a
    content-length of 6. *)
Lemma download_apk_stores_the_body_witness :
  let env := Sample.env 0 0 0 0 0 in
  let url := "https://example.com/app.apk" in
  exists w' evs,
    download_apk env url Sample.world = (Ret "/app/temp/app.apk", w') /\
    kind_at ["app"; "temp"; "app.apk"] (fs w') = KFile (Raw "abcdef") /\
    trace w' = trace Sample.world ++ EvHttpGet url :: evs /\
    length evs = 2%nat /\ Forall is_progress evs.
Proof.
  intros env url.
  apply (@download_apk_stores_the_body env url
           (mkResponse None (Some 6%Z) ["abc"; "def"] None) Sample.world).
  - reflexivity.
  - reflexivity.
  - reflexivity.
  - right. exists 6%Z. split; [reflexivity | discriminate].
  - reflexivity.
  - vm_compute. discriminate.
Defined.

Section DownloadErrors.

Variable env : Env.

(** A request that fails, or that is answered with an error status. *)
Lemma download_apk_refused (url message : string) (w : World) :
  requests_get env url = ConnectionFailed message \/
  (exists r, requests_get env url = Responded r /\ status_error r = Some message) ->
  download_apk env url w =
    (Raise (GrError ("Failed to download APK from URL: " +++ message)),
     emit (EvHttpGet url) w).
Proof.
  intros H. unfold download_apk, try_except. cbv zeta.
  unfold bind at 1. unfold http_get at 1.
  destruct H as [H|(r & H & Hs)]; rewrite H; [reflexivity|].
  unfold bind at 1. unfold raise_for_status at 1. rewrite Hs. reflexivity.
Qed.

End DownloadErrors.

(** X5 (HTTP errors of the download).  When the request fails or is
    answered with an error status, [download_apk] raises a [gr.Error]
    whose message is [Failed to download APK from URL: ] followed by the
    error, and the file system is as it was: no file is created.  No
    [RequestException] ever leaves [download_apk], and every [gr.Error]
    it raises bears that prefix. *)
Theorem download_apk_wraps_http_errors (env : Env) (url : string) (w : World) :
  (forall message,
     requests_get env url = ConnectionFailed message \/
     (exists r, requests_get env url = Responded r /\ status_error r = Some message) ->
     download_apk env url w =
       (Raise (GrError ("Failed to download APK from URL: " +++ message)),
        emit (EvHttpGet url) w)) /\
  (forall e w',
     download_apk env url w = (Raise e, w') ->
     is_RequestException e = false /\
     (forall m, e = GrError m ->
        exists cause, m = "Failed to download APK from URL: " +++ cause)).
Proof.
  split.
  - intros message H. now apply download_apk_refused.
  - intros e w' H. unfold download_apk, try_except in H.
    match type of H with
    | match ?c w with _ => _ end = _ =>
        assert (Hr : respects (fun _ : event => True) not_gr_error c);
          [|destruct (c w) as [[p|e0] w0] eqn:E]
    end.
    { (* the body of the [try] raises no [gr.Error] *)
      cbv zeta.
      apply respects_bind.
      { intros w1 r1 w2 H1. unfold http_get in H1.
        destruct (requests_get env url); inversion H1; subst; split;
          try (exists [EvHttpGet url]; split; [reflexivity | now constructor]);
          intros e1 He1; inversion He1; exact I. }
      intros r.
      apply respects_bind.
      { unfold raise_for_status. destruct (status_error r);
          [now apply respects_raise | apply respects_ret]. }
      intros _.
      apply respects_bind; [apply respects_fs_call; intros; exact I|]. intros _.
      apply respects_bind.
      { apply respects_for_fold. intros s x.
        apply respects_bind.
        { unfold append_bytes. apply respects_bind; [apply respects_get_fs|].
          intros n. destruct (FS.read_file _ n) as [e1|[s1|ms]];
            [now apply respects_raise | |]; apply respects_fs_call; intros; exact I. }
        intros _. apply respects_bind.
        { unfold truediv. destruct (Z.eqb _ 0);
            [now apply respects_raise | apply respects_ret]. }
        intros fr. apply respects_bind; [now apply respects_progress|].
        intros _. apply respects_ret. }
      intros _. destruct (stream_error r);
        [now apply respects_raise | apply respects_ret]. }
    { discriminate. }
    destruct (is_RequestException e0) eqn:Er.
    + inversion H; subst. split; [reflexivity|].
      intros m Hm. inversion Hm; subst. now exists (str_exn e0).
    + inversion H; subst. split; [exact Er|].
      intros m ->. destruct (Hr _ _ _ E) as [_ Hq]. destruct (Hq _ eq_refl).
Qed.

(** The sample server refuses every URL it does not know. *)
Lemma download_apk_wraps_http_errors_witness :
  download_apk (Sample.env 0 0 0 0 0) "https://example.org/x.apk" Sample.world =
    (Raise (GrError "Failed to download APK from URL: connection refused"),
     emit (EvHttpGet "https://example.org/x.apk") Sample.world).
Proof.
  apply (proj1 (download_apk_wraps_http_errors (Sample.env 0 0 0 0 0)
                  "https://example.org/x.apk" Sample.world) "connection refused").
  left. reflexivity.
Defined.



(** * The project directory of a decode *)

Section ProjectDir.

Variable env : Env.

Lemma is_prefix_below_false (p rel : path) :
  rel <> [] -> is_prefix (p ++ rel) p = false.
Proof.
  intros Hrel. rewrite <- (app_nil_r p) at 2. rewrite is_prefix_app_head.
  destruct rel; [congruence | reflexivity].
Qed.

Lemma rmtree_kind (p : path) (n n1 : node) :
  FS.rmtree p n = inr n1 ->
  forall q, kind_at q n1 = if is_prefix p q then KNone else kind_at q n.
Proof.
  unfold FS.rmtree. destruct (FS.lookup p n) as [[c|es]|]; try discriminate.
  apply del_kind.
Qed.

(** A directory made by [os.makedirs] where nothing stood is empty. *)
Lemma makedirs_fresh (p : path) (n n2 : node) :
  (forall rel, rel <> [] -> kind_at (p ++ rel) n = KNone) ->
  FS.makedirs false p n = inr n2 ->
  kind_at p n2 = KDir /\
  (forall rel, rel <> [] -> kind_at (p ++ rel) n2 = KNone) /\
  (forall q, is_prefix q p = false -> kind_at q n2 = kind_at q n).
Proof.
  intros Hbelow H. pose proof (makedirs_kind _ _ _ H) as K.
  split; [|split].
  - now rewrite K, is_prefix_refl.
  - intros rel Hrel. rewrite K, (is_prefix_below_false p Hrel). now apply Hbelow.
  - intros q Hq. now rewrite K, Hq.
Qed.

End ProjectDir.

(** X7 (the decoder starts in an empty directory).  From step 3,
    [process_apk] either raises an [OSError] while it sets up the project
    directory, before anything is run, or goes on to the decode with a
    project directory that is there and empty, also when a directory of
    that name was there before; nothing else has changed but the
    directories above it. *)
Theorem project_dir_starts_empty (env : Env) (apk_path : string)
  (decode_options logs : list string) (w w' : World) (r : outcome reply) :
  let project_name := PyPath.stem (PyPath.Path apk_path) in
  let project_dir :=
    TEMP_DIR env ++
      [project_name +++ "-decompiled-" +++ substring 0 8 (uuid4_hex env (uuid_calls w))] in
  process_apk_from_step_3 env apk_path decode_options logs w = (r, w') ->
  (exists e, r = Raise (OSError e) /\ trace w' = trace w) \/
  exists apktool_opts jadx_opts logs5 w5,
    process_apk_from_step_5 env apk_path project_name project_dir apktool_opts
      jadx_opts decode_options logs5 w5 = (r, w') /\
    trace w5 = trace w /\
    kind_at project_dir (fs w5) = KDir /\
    (forall rel, rel <> [] -> kind_at (project_dir ++ rel) (fs w5) = KNone) /\
    (forall q, is_prefix project_dir q = false -> is_prefix q project_dir = false ->
               kind_at q (fs w5) = kind_at q (fs w)).
Proof.
  intros project_name project_dir H.
  destruct w as [n tr u]. unfold process_apk_from_step_3, uuid4_hex8 in H.
  run_monad_in H. cbn [uuid_calls fs] in *.
  fold project_name in H. fold project_dir in H.
  destruct (FS.exists_ project_dir n) eqn:Ex; run_monad_in H.
  - destruct (FS.rmtree project_dir n) as [e|n1] eqn:Erm; run_monad_in H.
    { inversion H; subst. left. now exists e. }
    pose proof (rmtree_kind _ _ Erm) as K1.
    destruct (FS.makedirs false project_dir n1) as [e|n2] eqn:Emk; run_monad_in H.
    { inversion H; subst. left. now exists e. }
    destruct (@makedirs_fresh project_dir n1 n2) as (Kd & Kb & Ko); [|exact Emk|].
    { intros rel _. now rewrite K1, is_prefix_app. }
    right. do 4 eexists. split; [exact H|]. cbn [fs trace].
    split; [reflexivity|]. split; [exact Kd|]. split; [exact Kb|].
    intros q Hq1 Hq2. now rewrite (Ko _ Hq2), K1, Hq1.
  - destruct (FS.makedirs false project_dir n) as [e|n2] eqn:Emk; run_monad_in H.
    { inversion H; subst. left. now exists e. }
    destruct (@makedirs_fresh project_dir n n2) as (Kd & Kb & Ko); [|exact Emk|].
    { intros rel Hrel. apply kind_at_file_below; [exact Hrel|].
      rewrite kind_at_exists in Ex. destruct (kind_at project_dir n); discriminate. }
    right. do 4 eexists. split; [exact H|]. cbn [fs trace].
    split; [reflexivity|]. split; [exact Kd|]. split; [exact Kb|].
    intros q _ Hq2. exact (Ko _ Hq2).
Qed.


(** A stale directory of the same name, with a file in it: the decoder
    does not see the file. *)
Lemma project_dir_starts_empty_witness :
  let env := Sample.env 1 0 0 0 0 in
  let project_dir := ["app"; "temp"; "sample-decompiled-0a1b2c3d"] in
  let w := mkWorld (Dir [("app", Dir [("temp", Dir [("sample-decompiled-0a1b2c3d",
                      Dir [("stale.txt", File (Raw "old"))])])])]) [] 0 in
  kind_at (project_dir ++ ["stale.txt"]) (fs w) = KFile (Raw "old") /\
  exists apktool_opts jadx_opts logs5 w5,
    process_apk_from_step_5 env "/uploads/sample.apk" "sample" project_dir apktool_opts
      jadx_opts [] logs5 w5 = process_apk_from_step_3 env "/uploads/sample.apk" [] [] w /\
    kind_at (project_dir ++ ["stale.txt"]) (fs w5) = KNone.
Proof.
  intros env project_dir w. split; [reflexivity|].
  destruct (@project_dir_starts_empty env "/uploads/sample.apk" [] [] w
              (snd (process_apk_from_step_3 env "/uploads/sample.apk" [] [] w))
              (fst (process_apk_from_step_3 env "/uploads/sample.apk" [] [] w)))
    as [(e & He & _)|(ao & jo & l5 & w5 & H5 & _ & _ & Kb & _)].
  - apply surjective_pairing.
  - vm_compute in He. discriminate.
  - exists ao, jo, l5, w5. split.
    + etransitivity; [exact H5|]. symmetry. apply surjective_pairing.
    + assert (Hne : ["stale.txt"] <> []) by discriminate.
      exact (Kb ["stale.txt"] Hne).
Defined.

(** * The options *)

(** X8 (the options are a set of ticked boxes).  [process_apk] reads
    [decode_options], and [rebuild_and_sign_apk] reads [build_options],
    only through the values that the checkbox group of its form offers:
    two selections that tick the same boxes, in whatever order, with
    repetitions or with values the form does not offer, give the same
    run.  In particular the order of the flags on the command lines does
    not follow the order of the selection. *)
Theorem pipelines_read_ticked_boxes (env : Env) (a b : list string) (w : World) :
  (same_selection decode_choices a b ->
   forall apk_file apk_url,
     process_apk env apk_file apk_url a w = process_apk env apk_file apk_url b w) /\
  (same_selection build_choices a b ->
   forall project_zip keystore_file ks_pass alias key_pass,
     rebuild_and_sign_apk env project_zip a keystore_file ks_pass alias key_pass w =
     rebuild_and_sign_apk env project_zip b keystore_file ks_pass alias key_pass w).
Proof.
  split.
  - intros H apk_file apk_url.
    assert (Hv : forall v, In v (map snd decode_choices) -> PyStr.mem v a = PyStr.mem v b)
      by exact H.
    cbn [map snd decode_choices] in Hv.
    assert (H1 := Hv "quark_analysis"). assert (H2 := Hv "decompile_java").
    assert (H3 := Hv "mitm_patch"). assert (H4 := Hv "deobf").
    assert (H5 := Hv "show_bad_code"). assert (H6 := Hv "no_src").
    assert (H7 := Hv "no_res"). assert (H8 := Hv "force_manifest").
    assert (H9 := Hv "no_assets"). assert (H10 := Hv "only_main_classes").
    assert (H11 := Hv "no_debug_info").
    unfold process_apk, process_apk_from_step_3, process_apk_from_step_5,
      process_apk_from_step_6, append_if.
    rewrite H1, H2, H3, H4, H5, H6, H7, H8, H9, H10, H11 by (cbn [In]; tauto).
    reflexivity.
  - intros H project_zip keystore_file ks_pass alias key_pass.
    assert (H1 : PyStr.mem "use_aapt2" a = PyStr.mem "use_aapt2" b)
      by (apply H; cbn; tauto).
    assert (H2 : PyStr.mem "no_crunch" a = PyStr.mem "no_crunch" b)
      by (apply H; cbn; tauto).
    unfold rebuild_and_sign_apk, rebuild_and_sign_apk_from_step_3, append_if.
    rewrite H1, H2. reflexivity.
Qed.

(** Two ways of ticking [no_src] and [no_res]. *)
Lemma pipelines_read_ticked_boxes_witness :
  process_apk (Sample.env 0 0 0 0 0) (Some Sample.apk) None
    ["no_res"; "no_src"; "no_src"; "verbose"] Sample.world =
  process_apk (Sample.env 0 0 0 0 0) (Some Sample.apk) None
    ["no_src"; "no_res"] Sample.world.
Proof.
  apply (proj1 (pipelines_read_ticked_boxes (Sample.env 0 0 0 0 0)
                  ["no_res"; "no_src"; "no_src"; "verbose"] ["no_src"; "no_res"]
                  Sample.world)).
  intros v Hv. cbn [map snd decode_choices In] in Hv.
  repeat (destruct Hv as [<-|Hv]; [reflexivity|]). destruct Hv.
Defined.

(** * The rebuild pipeline: failures and clean-up *)

Section Cleanup.

Lemma fs_call_returns (f : node -> oserror + node) (w w' : World) (u : unit) :
  fs_call f w = (Ret u, w') -> f (fs w) = inr (fs w') /\ w' = set_fs (fs w') w.
Proof.
  unfold fs_call. destruct (f (fs w)) as [e|n]; intros H; inversion H; subst.
  split; reflexivity.
Qed.

(** The two [shutil.rmtree] calls that end a rebuild, when they return. *)
Lemma cleanup_returns {A} (p o : path) (x y : A) (w w' : World) :
  (fs_call (FS.rmtree p) ;;; fs_call (FS.rmtree o) ;;; ret x) w = (Ret y, w') ->
  y = x /\ trace w' = trace w /\ uuid_calls w' = uuid_calls w /\
  forall q, kind_at q (fs w') =
            if is_prefix o q then KNone
            else if is_prefix p q then KNone else kind_at q (fs w).
Proof.
  intros H.
  apply bind_returns in H as ([] & w1 & H1 & H).
  apply bind_returns in H as ([] & w2 & H2 & H).
  inversion H; subst y w'.
  apply fs_call_returns in H1 as [E1 W1]. apply fs_call_returns in H2 as [E2 W2].
  split; [reflexivity|]. rewrite W2, W1. cbn [trace uuid_calls set_fs fs].
  split; [reflexivity|]. split; [reflexivity|].
  intros q. rewrite (rmtree_kind _ _ E2 q), (rmtree_kind _ _ E1 q). reflexivity.
Qed.

(** They do return when both directories are there and the second is
    not inside the first. *)
Lemma cleanup_runs {A} (p o : path) (x : A) (w : World) :
  p <> [] -> o <> [] -> is_prefix p o = false ->
  kind_at p (fs w) = KDir -> kind_at o (fs w) = KDir ->
  exists w', (fs_call (FS.rmtree p) ;;; fs_call (FS.rmtree o) ;;; ret x) w = (Ret x, w').
Proof.
  intros Hp Ho Hpo Kp Ko.
  destruct (@rmtree_ok p (fs w) Hp Kp) as (n1 & E1 & K1).
  destruct (@rmtree_ok o n1 Ho) as (n2 & E2 & K2).
  { now rewrite K1, Hpo. }
  exists (set_fs n2 (set_fs n1 w)).
  unfold bind at 1. unfold fs_call at 1. rewrite E1.
  unfold bind at 1. unfold fs_call at 1. cbn [fs set_fs]. rewrite E2.
  reflexivity.
Qed.

End Cleanup.

Section RebuildFailures.

Variable env : Env.
Variables (project_zip keystore_file : Gradio.UploadedFile).
Variables (build_options : list string) (ks_pass alias key_pass : string).
Variables (project_dir output_dir : path) (logs : list string).

Let unsigned : path := output_dir ++ ["rebuilt-unsigned.apk"].
Let build_opts : list string :=
  append_if "use_aapt2" build_options "--use-aapt2"
    (append_if "no_crunch" build_options "--no-crunch" []).
Let build : list string := build_command env project_dir unsigned build_opts.
Let sign : list string :=
  sign_command env unsigned (Gradio.name keystore_file) ks_pass alias key_pass.
Let run : M reply :=
  rebuild_and_sign_apk_from_step_3 env project_zip build_options keystore_file
    ks_pass alias key_pass project_dir output_dir logs.

(** The rebuild up to the answer of the builder. *)
Lemma rebuild_after_build (w : World) (rc : Z) (out err : string) (n : node) :
  popen env build None (fs w) = (Exited rc out err, n) ->
  run w =
  (let logs := ((logs ++ [nl +++ "--- Apktool Rebuild ---" +++ nl +++
                          "Running with options: " +++ PyStr.join " " build_opts]) ++
                ["Apktool STDOUT:" +++ nl +++ out]) ++
               ["Apktool STDERR:" +++ nl +++ err] in
   if negb (Z.eqb rc 0)
   then
     fs_call (FS.rmtree project_dir) ;;;
     fs_call (FS.rmtree output_dir) ;;;
     ret ("Apktool rebuild failed.", hidden, PyStr.join nl logs)
   else
     progress 0.8 "Signing APK..." ;;;
     let logs := logs ++ [nl +++ "--- Signing APK ---"] in
     '(success, stdout, stderr) <-
       sign_apk env unsigned (Gradio.name keystore_file) ks_pass alias key_pass ;;
     let logs := logs ++ ["Signer STDOUT:" +++ nl +++ stdout] in
     let logs := logs ++ ["Signer STDERR:" +++ nl +++ stderr] in
     if negb success
     then
       fs_call (FS.rmtree project_dir) ;;;
       fs_call (FS.rmtree output_dir) ;;;
       ret ("Signing failed.", hidden, PyStr.join nl logs)
     else
       let signed_apk_path :=
         output_dir ++ [PyPath.stem unsigned +++ "-aligned-signed.apk"] in
       let final_apk_path :=
         DOWNLOADS_DIR env ++
           [PyPath.stem (PyPath.Path (Gradio.name project_zip)) +++ "-signed.apk"] in
       shutil_move signed_apk_path final_apk_path ;;;
       fs_call (FS.rmtree project_dir) ;;;
       fs_call (FS.rmtree output_dir) ;;;
       ret ("Success! APK rebuilt and signed.", download final_apk_path,
            PyStr.join nl logs))
    (set_fs n (emit (EvRun build None)
                 (emit (EvProgress 0.3 "Rebuilding with Apktool...") w))).
Proof.
  intros Hbuild. unfold run, rebuild_and_sign_apk_from_step_3, apktool_build.
  fold unsigned. 
  change (append_if "use_aapt2" build_options "--use-aapt2"
            (append_if "no_crunch" build_options "--no-crunch" [])) with build_opts.
  change (["java"; "-jar"; PyPath.str (APKTOOL_PATH env); "b"; PyPath.str project_dir;
           "-o"; PyPath.str unsigned] ++ build_opts) with build.
  unfold bind at 1. unfold progress at 1. unfold bind at 1.
  rewrite (@run_command_exited env build None
             (emit (EvProgress 0.3 "Rebuilding with Apktool...") w) rc out err n Hbuild).
  destruct (Z.eqb rc 0); reflexivity.
Qed.

End RebuildFailures.

Section RebuildSign.

Variable env : Env.
Variables (project_zip keystore_file : Gradio.UploadedFile).
Variables (build_options : list string) (ks_pass alias key_pass : string).
Variables (project_dir output_dir : path) (logs : list string).

Let unsigned : path := output_dir ++ ["rebuilt-unsigned.apk"].
Let build_opts : list string :=
  append_if "use_aapt2" build_options "--use-aapt2"
    (append_if "no_crunch" build_options "--no-crunch" []).
Let build : list string := build_command env project_dir unsigned build_opts.
Let sign : list string :=
  sign_command env unsigned (Gradio.name keystore_file) ks_pass alias key_pass.
Let run : M reply :=
  rebuild_and_sign_apk_from_step_3 env project_zip build_options keystore_file
    ks_pass alias key_pass project_dir output_dir logs.

(** The rebuild up to the answer of the signer, after a build that
    exited with code 0. *)
Lemma rebuild_after_sign (w : World) (out1 err1 : string) (n1 : node)
  (rc : Z) (out2 err2 : string) (n2 : node) :
  popen env build None (fs w) = (Exited 0 out1 err1, n1) ->
  popen env sign None n1 = (Exited rc out2 err2, n2) ->
  run w =
  (let logs := (((((logs ++ [nl +++ "--- Apktool Rebuild ---" +++ nl +++
                             "Running with options: " +++ PyStr.join " " build_opts]) ++
                   ["Apktool STDOUT:" +++ nl +++ out1]) ++
                  ["Apktool STDERR:" +++ nl +++ err1]) ++
                 [nl +++ "--- Signing APK ---"]) ++
                ["Signer STDOUT:" +++ nl +++ out2]) ++
               ["Signer STDERR:" +++ nl +++ err2] in
   if negb (Z.eqb rc 0)
   then
     fs_call (FS.rmtree project_dir) ;;;
     fs_call (FS.rmtree output_dir) ;;;
     ret ("Signing failed.", hidden, PyStr.join nl logs)
   else
     let signed_apk_path :=
       output_dir ++ [PyPath.stem unsigned +++ "-aligned-signed.apk"] in
     let final_apk_path :=
       DOWNLOADS_DIR env ++
         [PyPath.stem (PyPath.Path (Gradio.name project_zip)) +++ "-signed.apk"] in
     shutil_move signed_apk_path final_apk_path ;;;
     fs_call (FS.rmtree project_dir) ;;;
     fs_call (FS.rmtree output_dir) ;;;
     ret ("Success! APK rebuilt and signed.", download final_apk_path,
          PyStr.join nl logs))
    (set_fs n2
       (emit (EvRun sign None)
          (emit (EvProgress 0.8 "Signing APK...")
             (set_fs n1
                (emit (EvRun build None)
                   (emit (EvProgress 0.3 "Rebuilding with Apktool...") w)))))).
Proof.
  intros Hbuild Hsign. unfold run.
  rewrite (@rebuild_after_build env project_zip keystore_file build_options
             ks_pass alias key_pass project_dir output_dir logs w 0 out1 err1 n1 Hbuild).
  cbv zeta. cbn [Z.eqb negb].
  unfold sign_apk. fold unsigned.
  change ["java"; "-jar"; PyPath.str (SIGNER_PATH env); "--apks"; PyPath.str unsigned;
          "--ks"; Gradio.name keystore_file; "--ksPass"; ks_pass;
          "--ksAlias"; alias; "--keyPass"; key_pass] with sign.
  unfold bind at 1. unfold progress at 1. unfold bind at 1.
  match goal with
  | |- context [_run_command env sign None ?w4] =>
      rewrite (@run_command_exited env sign None w4 rc out2 err2 n2 Hsign)
  end.
  destruct (Z.eqb rc 0); reflexivity.
Qed.

End RebuildSign.

(** X9 (a failed build cleans up).  From step 3 of
    [rebuild_and_sign_apk], when the builder exits with a non-zero code
    and leaves the two working directories in place, the run returns
    [Apktool rebuild failed.] with a hidden button, the signer is not
    run, both working directories are removed, nothing else is touched
    after the builder, and the log holds what the builder wrote. *)
Theorem failed_build_cleans_up (env : Env)
  (project_zip keystore_file : Gradio.UploadedFile) (build_options : list string)
  (ks_pass alias key_pass : string) (project_dir output_dir : path)
  (logs : list string) (w : World) (rc : Z) (out err : string) (n : node) :
  let unsigned := output_dir ++ ["rebuilt-unsigned.apk"] in
  let build_opts :=
    append_if "use_aapt2" build_options "--use-aapt2"
      (append_if "no_crunch" build_options "--no-crunch" []) in
  let build := build_command env project_dir unsigned build_opts in
  popen env build None (fs w) = (Exited rc out err, n) ->
  rc <> 0%Z ->
  project_dir <> [] -> output_dir <> [] -> is_prefix project_dir output_dir = false ->
  kind_at project_dir n = KDir -> kind_at output_dir n = KDir ->
  exists log w',
    rebuild_and_sign_apk_from_step_3 env project_zip build_options keystore_file
      ks_pass alias key_pass project_dir output_dir logs w
    = (Ret ("Apktool rebuild failed.", hidden, log), w') /\
    trace w' = trace w ++ [EvProgress 0.3 "Rebuilding with Apktool..."; EvRun build None] /\
    kind_at project_dir (fs w') = KNone /\
    kind_at output_dir (fs w') = KNone /\
    (forall q, is_prefix project_dir q = false -> is_prefix output_dir q = false ->
               kind_at q (fs w') = kind_at q n) /\
    occurs_in out log /\ occurs_in err log.
Proof.
  intros unsigned build_opts build Hbuild Hrc Hp Ho Hpo Kp Ko.
  rewrite (@rebuild_after_build env project_zip keystore_file build_options
             ks_pass alias key_pass project_dir output_dir logs w rc out err n Hbuild).
  cbv zeta. destruct (Z.eqb_spec rc 0) as [|_]; [contradiction|]. cbn [negb].
  match goal with
  | |- exists log w', ?c ?w1 = _ /\ _ =>
      destruct (@cleanup_runs reply project_dir output_dir
                  ("Apktool rebuild failed.", hidden,
                   PyStr.join nl
                     (((logs ++ [nl +++ "--- Apktool Rebuild ---" +++ nl +++
                                 "Running with options: " +++ PyStr.join " " build_opts]) ++
                       ["Apktool STDOUT:" +++ nl +++ out]) ++
                      ["Apktool STDERR:" +++ nl +++ err]))
                  w1 Hp Ho Hpo Kp Ko) as [w' Hrun]
  end.
  destruct (cleanup_returns _ _ _ _ Hrun) as (_ & T & _ & K).
  eexists. exists w'. split; [exact Hrun|]. cbn [trace fs set_fs emit] in T, K.
  split; [rewrite T; now rewrite <- app_assoc|].
  split; [rewrite K, is_prefix_refl; now destruct (is_prefix output_dir project_dir)|].
  split; [now rewrite K, is_prefix_refl|].
  split; [intros q Hq1 Hq2; now rewrite K, Hq1, Hq2|].
  split.
  - apply occurs_in_trans with ("Apktool STDOUT:" +++ nl +++ out).
    + apply occurs_in_app_r, occurs_in_app_r, occurs_in_refl.
    + apply occurs_in_join. apply in_or_app. left. apply in_or_app. right. now left.
  - apply occurs_in_trans with ("Apktool STDERR:" +++ nl +++ err).
    + apply occurs_in_app_r, occurs_in_app_r, occurs_in_refl.
    + apply occurs_in_join. apply in_or_app. right. now left.
Qed.

(** The sample builder exiting with code 1. *)
Lemma failed_build_cleans_up_witness :
  let env := Sample.env 0 0 0 1 0 in
  let project_dir := TEMP_DIR env ++ ["rebuild-0a1b2c3d"] in
  let output_dir := TEMP_DIR env ++ ["rebuild-out-11112222"] in
  exists log w',
    rebuild_and_sign_apk_from_step_3 env Sample.project_zip ["use_aapt2"] Sample.keystore
      "pw" "key0" "pw" project_dir output_dir [] sample_rebuild_world
    = (Ret ("Apktool rebuild failed.", hidden, log), w') /\
    kind_at project_dir (fs w') = KNone /\
    kind_at output_dir (fs w') = KNone /\
    occurs_in "W: build failed" log.
Proof.
  intros env project_dir output_dir.
  destruct (@failed_build_cleans_up env Sample.project_zip Sample.keystore ["use_aapt2"]
              "pw" "key0" "pw" project_dir output_dir [] sample_rebuild_world
              1%Z "" "W: build failed" (fs sample_rebuild_world))
    as (log & w' & Hrun & _ & K1 & K2 & _ & _ & Herr).
  - reflexivity.
  - discriminate.
  - discriminate.
  - discriminate.
  - reflexivity.
  - reflexivity.
  - reflexivity.
  - exists log, w'. split; [exact Hrun|]. split; [exact K1|]. split; [exact K2 | exact Herr].
Defined.

(** X10 (a failed signature cleans up).  From step 3, when the builder
    exits with code 0 and the signer with a non-zero code, and the two
    working directories are in place, the run returns [Signing failed.]
    with a hidden button, both working directories are removed, nothing
    is delivered to the download directory, and the log holds what the
    signer wrote. *)
Theorem failed_signature_cleans_up (env : Env)
  (project_zip keystore_file : Gradio.UploadedFile) (build_options : list string)
  (ks_pass alias key_pass : string) (project_dir output_dir : path)
  (logs : list string) (w : World) (out1 err1 : string) (n1 : node)
  (rc : Z) (out2 err2 : string) (n2 : node) :
  let unsigned := output_dir ++ ["rebuilt-unsigned.apk"] in
  let build_opts :=
    append_if "use_aapt2" build_options "--use-aapt2"
      (append_if "no_crunch" build_options "--no-crunch" []) in
  let build := build_command env project_dir unsigned build_opts in
  let sign :=
    sign_command env unsigned (Gradio.name keystore_file) ks_pass alias key_pass in
  popen env build None (fs w) = (Exited 0 out1 err1, n1) ->
  popen env sign None n1 = (Exited rc out2 err2, n2) ->
  rc <> 0%Z ->
  project_dir <> [] -> output_dir <> [] -> is_prefix project_dir output_dir = false ->
  kind_at project_dir n2 = KDir -> kind_at output_dir n2 = KDir ->
  exists log w',
    rebuild_and_sign_apk_from_step_3 env project_zip build_options keystore_file
      ks_pass alias key_pass project_dir output_dir logs w
    = (Ret ("Signing failed.", hidden, log), w') /\
    trace w' = trace w ++ [EvProgress 0.3 "Rebuilding with Apktool..."; EvRun build None;
                           EvProgress 0.8 "Signing APK..."; EvRun sign None] /\
    kind_at project_dir (fs w') = KNone /\
    kind_at output_dir (fs w') = KNone /\
    (forall q, is_prefix project_dir q = false -> is_prefix output_dir q = false ->
               kind_at q (fs w') = kind_at q n2) /\
    occurs_in out2 log /\ occurs_in err2 log.
Proof.
  intros unsigned build_opts build sign Hbuild Hsign Hrc Hp Ho Hpo Kp Ko.
  rewrite (@rebuild_after_sign env project_zip keystore_file build_options
             ks_pass alias key_pass project_dir output_dir logs w out1 err1 n1
             rc out2 err2 n2 Hbuild Hsign).
  cbv zeta. destruct (Z.eqb_spec rc 0) as [|_]; [contradiction|]. cbn [negb].
  match goal with
  | |- exists log w', (_ ;;; _ ;;; ret ?x) ?w1 = _ /\ _ =>
      destruct (@cleanup_runs reply project_dir output_dir x w1 Hp Ho Hpo Kp Ko)
        as [w' Hrun]
  end.
  destruct (cleanup_returns _ _ _ _ Hrun) as (_ & T & _ & K).
  eexists. exists w'. split; [exact Hrun|]. cbn [trace fs set_fs emit] in T, K.
  split; [rewrite T; now rewrite <- !app_assoc|].
  split; [rewrite K, is_prefix_refl; now destruct (is_prefix output_dir project_dir)|].
  split; [now rewrite K, is_prefix_refl|].
  split; [intros q Hq1 Hq2; now rewrite K, Hq1, Hq2|].
  split.
  - apply occurs_in_trans with ("Signer STDOUT:" +++ nl +++ out2).
    + apply occurs_in_app_r, occurs_in_app_r, occurs_in_refl.
    + apply occurs_in_join. apply in_or_app. left. apply in_or_app. right. now left.
  - apply occurs_in_trans with ("Signer STDERR:" +++ nl +++ err2).
    + apply occurs_in_app_r, occurs_in_app_r, occurs_in_refl.
    + apply occurs_in_join. apply in_or_app. right. now left.
Qed.

(** The sample signer exiting with code 1. *)
Lemma failed_signature_cleans_up_witness :
  let env := Sample.env 0 0 0 0 1 in
  let project_dir := TEMP_DIR env ++ ["rebuild-0a1b2c3d"] in
  let output_dir := TEMP_DIR env ++ ["rebuild-out-11112222"] in
  exists log w',
    rebuild_and_sign_apk_from_step_3 env Sample.project_zip [] Sample.keystore
      "pw" "key0" "pw" project_dir output_dir [] sample_rebuild_world
    = (Ret ("Signing failed.", hidden, log), w') /\
    kind_at project_dir (fs w') = KNone /\
    kind_at output_dir (fs w') = KNone /\
    kind_at (DOWNLOADS_DIR env ++ ["sample-decompiled-signed.apk"]) (fs w') = KNone /\
    occurs_in "keystore was tampered with" log.
Proof.
  intros env project_dir output_dir.
  pose (unsigned := output_dir ++ ["rebuilt-unsigned.apk"]).
  pose (n1 := snd (popen env (build_command env project_dir unsigned []) None
                     (fs sample_rebuild_world))).
  destruct (@failed_signature_cleans_up env Sample.project_zip Sample.keystore []
              "pw" "key0" "pw" project_dir output_dir [] sample_rebuild_world
              "I: Built apk" "" n1 1%Z "" "keystore was tampered with" n1)
    as (log & w' & Hrun & _ & K1 & K2 & Kq & _ & Herr).
  - reflexivity.
  - reflexivity.
  - discriminate.
  - discriminate.
  - discriminate.
  - reflexivity.
  - reflexivity.
  - reflexivity.
  - exists log, w'. split; [exact Hrun|]. split; [exact K1|]. split; [exact K2|].
    split; [|exact Herr].
    rewrite Kq; reflexivity.
Defined.

(** X11 (a signer that leaves no file).  From step 3, when the builder
    and the signer both exit with code 0 but nothing stands at
    [rebuilt-unsigned-aligned-signed.apk] in the output directory, the
    move raises [FileNotFoundError]: the run returns no reply, and the
    file system is as the signer left it, so the working directories are
    not removed. *)
Theorem missing_signed_file_raises (env : Env)
  (project_zip keystore_file : Gradio.UploadedFile) (build_options : list string)
  (ks_pass alias key_pass : string) (project_dir output_dir : path)
  (logs : list string) (w : World) (out1 err1 : string) (n1 : node)
  (out2 err2 : string) (n2 : node) :
  let unsigned := output_dir ++ ["rebuilt-unsigned.apk"] in
  let build_opts :=
    append_if "use_aapt2" build_options "--use-aapt2"
      (append_if "no_crunch" build_options "--no-crunch" []) in
  let build := build_command env project_dir unsigned build_opts in
  let sign :=
    sign_command env unsigned (Gradio.name keystore_file) ks_pass alias key_pass in
  let signed := output_dir ++ ["rebuilt-unsigned-aligned-signed.apk"] in
  let final :=
    DOWNLOADS_DIR env ++
      [PyPath.stem (PyPath.Path (Gradio.name project_zip)) +++ "-signed.apk"] in
  popen env build None (fs w) = (Exited 0 out1 err1, n1) ->
  popen env sign None n1 = (Exited 0 out2 err2, n2) ->
  kind_at signed n2 = KNone ->
  kind_at final n2 <> KDir ->
  exists w',
    rebuild_and_sign_apk_from_step_3 env project_zip build_options keystore_file
      ks_pass alias key_pass project_dir output_dir logs w
    = (Raise (OSError ENOENT), w') /\
    fs w' = n2 /\
    trace w' = trace w ++ [EvProgress 0.3 "Rebuilding with Apktool..."; EvRun build None;
                           EvProgress 0.8 "Signing APK..."; EvRun sign None].
Proof.
  intros unsigned build_opts build sign signed final Hbuild Hsign Ksigned Kfinal.
  rewrite (@rebuild_after_sign env project_zip keystore_file build_options
             ks_pass alias key_pass project_dir output_dir logs w out1 err1 n1
             0 out2 err2 n2 Hbuild Hsign).
  cbv zeta. cbn [Z.eqb negb].
  rewrite (stem_of_name _ (name_snoc output_dir "rebuilt-unsigned.apk")).
  change (PyPath.stem ["rebuilt-unsigned.apk"] +++ "-aligned-signed.apk")
    with "rebuilt-unsigned-aligned-signed.apk".
  fold signed. fold final.
  eexists. split; [|split].
  - unfold bind at 1. unfold shutil_move at 1. unfold bind at 1. unfold get_fs at 1.
    cbn [fs set_fs].
    assert (Hd : FS.isdir final n2 = false).
    { unfold FS.isdir. unfold kind_at in Kfinal.
      destruct (FS.lookup final n2) as [[c|es]|]; cbn [kind_of] in Kfinal; congruence. }
    assert (Hs : FS.lookup signed n2 = None).
    { unfold kind_at in Ksigned.
      destruct (FS.lookup signed n2) as [[c|es]|]; cbn [kind_of] in Ksigned; congruence. }
    rewrite Hd, Hs. cbn [andb]. reflexivity.
  - reflexivity.
  - cbn [trace set_fs emit]. now rewrite <- !app_assoc.
Qed.

(** A signer that exits with code 0 and writes nothing: the two working
    directories are still there when the exception leaves the run. *)
Lemma missing_signed_file_raises_witness :
  let env := silent_signer_env in
  let project_dir := TEMP_DIR env ++ ["rebuild-0a1b2c3d"] in
  let output_dir := TEMP_DIR env ++ ["rebuild-out-11112222"] in
  exists w',
    rebuild_and_sign_apk_from_step_3 env Sample.project_zip [] Sample.keystore
      "pw" "key0" "pw" project_dir output_dir [] sample_rebuild_world
    = (Raise (OSError ENOENT), w') /\
    kind_at project_dir (fs w') = KDir /\
    kind_at output_dir (fs w') = KDir.
Proof.
  intros env project_dir output_dir.
  pose (unsigned := output_dir ++ ["rebuilt-unsigned.apk"]).
  pose (n1 := snd (popen env (build_command env project_dir unsigned []) None
                     (fs sample_rebuild_world))).
  destruct (@missing_signed_file_raises env Sample.project_zip Sample.keystore []
              "pw" "key0" "pw" project_dir output_dir [] sample_rebuild_world
              "I: Built apk" "" n1 "" "" n1)
    as (w' & Hrun & Hfs & _).
  - reflexivity.
  - reflexivity.
  - reflexivity.
  - vm_compute. discriminate.
  - exists w'. split; [exact Hrun|]. rewrite Hfs. split; reflexivity.
Defined.

Section RebuildReturns.

Variable env : Env.

Lemma run_command_returns (command : list string) (cwd : option path) (w w' : World)
  (x : bool * string * string) :
  _run_command env command cwd w = (Ret x, w') ->
  trace w' = trace w ++ [EvRun command cwd] /\ uuid_calls w' = uuid_calls w.
Proof.
  intros H. destruct (run_command_total env command cwd w) as (ok & out & err & n & Hr).
  rewrite Hr in H. inversion H; subst. split; reflexivity.
Qed.

(** What [shutil.move] leaves at its destination. *)
Lemma shutil_move_returns (src dst : path) (w w' : World) (u : unit) :
  shutil_move src dst w = (Ret u, w') ->
  FS.exists_ dst (fs w') = true /\
  trace w' = trace w /\ uuid_calls w' = uuid_calls w.
Proof.
  unfold shutil_move. intros H.
  apply bind_returns in H as (n & w1 & Hn & H). inversion Hn; subst n w1.
  destruct (FS.isdir dst (fs w) && FS.exists_ _ (fs w)); [discriminate|].
  destruct (FS.lookup src (fs w)) as [v|]; [|discriminate].
  apply fs_call_returns in H as [H W].
  destruct (FS.del src (fs w)) as [e|n1]; [discriminate|].
  pose proof (put_kind_same _ _ _ H) as K.
  split; [|rewrite W; split; reflexivity].
  rewrite kind_at_exists.
  destruct (FS.isdir dst (fs w)).
  - rewrite (@kind_at_dir_above dst [PyPath.name src] (fs w')); [reflexivity| |discriminate].
    rewrite K. destruct v; discriminate.
  - rewrite K. destruct v; reflexivity.
Qed.

(** A rebuild that returns has gone through step 3, in the two
    directories named by its two uuids. *)
Lemma rebuild_returns_from_step_3 (project_zip keystore_file : option Gradio.UploadedFile)
  (build_options : list string) (ks_pass alias key_pass : option string)
  (w w' : World) (x : reply) :
  rebuild_and_sign_apk env project_zip build_options keystore_file
    ks_pass alias key_pass w = (Ret x, w') ->
  exists z k w3,
    project_zip = Some z /\ keystore_file = Some k /\
    rebuild_and_sign_apk_from_step_3 env z build_options k
      (the ks_pass) (the alias) (the key_pass)
      (TEMP_DIR env ++ ["rebuild-" +++ substring 0 8 (uuid4_hex env (uuid_calls w))])
      (TEMP_DIR env ++
         ["rebuild-out-" +++ substring 0 8 (uuid4_hex env (S (uuid_calls w)))])
      ["Project unzipped to " +++
       PyPath.str (TEMP_DIR env ++
                     ["rebuild-" +++ substring 0 8 (uuid4_hex env (uuid_calls w))])]
      w3 = (Ret x, w').
Proof.
  intros H. unfold rebuild_and_sign_apk in H.
  destruct project_zip as [z|]; [|discriminate].
  destruct keystore_file as [k|]; [|discriminate].
  destruct (negb (forallb PyStr.truthy [ks_pass; alias; key_pass])); [discriminate|].
  apply bind_returns in H as (s1 & w1 & H1 & H).
  unfold uuid4_hex8 in H1. inversion H1; subst s1 w1. clear H1.
  apply bind_returns in H as (s2 & w2 & H2 & H).
  unfold uuid4_hex8 in H2. cbn [uuid_calls] in H2. inversion H2; subst s2 w2. clear H2.
  do 5 (apply bind_returns in H as (? & ? & _ & H)).
  exists z, k. eexists. split; [reflexivity|]. split; [reflexivity|]. exact H.
Qed.

(** What a rebuild from step 3 has done when it returns. *)
Lemma rebuild_from_step_3_returns (z k : Gradio.UploadedFile)
  (build_options : list string) (ks_pass alias key_pass : string) (a b : string)
  (logs : list string) (w w' : World) (status : string)
  (button : Gradio.DownloadButton) (log : string) :
  let project_dir := TEMP_DIR env ++ [a] in
  let output_dir := TEMP_DIR env ++ [b] in
  let final :=
    DOWNLOADS_DIR env ++ [PyPath.stem (PyPath.Path (Gradio.name z)) +++ "-signed.apk"] in
  rebuild_and_sign_apk_from_step_3 env z build_options k ks_pass alias key_pass
    project_dir output_dir logs w = (Ret (status, button, log), w') ->
  kind_at project_dir (fs w') = KNone /\
  kind_at output_dir (fs w') = KNone /\
  (button = hidden /\
   (status = "Apktool rebuild failed." \/ status = "Signing failed.") \/
   status = rebuild_success_status /\ button = download final /\
   FS.exists_ final (fs w') = true).
Proof.
  intros project_dir output_dir final H.
  assert (Hclean : forall (x : reply) (w0 : World),
             (fs_call (FS.rmtree project_dir) ;;; fs_call (FS.rmtree output_dir) ;;;
              ret x) w0 = (Ret (status, button, log), w') ->
             (status, button, log) = x /\
             kind_at project_dir (fs w') = KNone /\
             kind_at output_dir (fs w') = KNone /\
             kind_at final (fs w') = kind_at final (fs w0)).
  { intros x w0 Hc. destruct (cleanup_returns _ _ _ _ Hc) as (Hx & _ & _ & K).
    split; [exact Hx|].
    split; [rewrite K, is_prefix_refl; now destruct (is_prefix output_dir project_dir)|].
    split; [now rewrite K, is_prefix_refl|].
    rewrite K.
    replace (is_prefix output_dir final) with false
      by (symmetry; unfold output_dir, final; prefix_test).
    replace (is_prefix project_dir final) with false
      by (symmetry; unfold project_dir, final; prefix_test).
    reflexivity. }
  unfold rebuild_and_sign_apk_from_step_3 in H.
  apply bind_returns in H as ([] & w1 & _ & H).
  apply bind_returns in H as ([[s1 o1] e1] & w2 & _ & H).
  destruct s1; cbn [negb] in H.
  - apply bind_returns in H as ([] & w3 & _ & H).
    apply bind_returns in H as ([[s2 o2] e2] & w4 & _ & H).
    destruct s2; cbn [negb] in H.
    + apply bind_returns in H as ([] & w5 & Hmove & H).
      apply shutil_move_returns in Hmove as (Hex & _).
      fold final in Hex, H.
      destruct (Hclean _ _ H) as (Hx & K1 & K2 & K3).
      inversion Hx; subst. split; [exact K1|]. split; [exact K2|]. right.
      split; [reflexivity|]. split; [reflexivity|].
      rewrite kind_at_exists in Hex |- *. now rewrite K3.
    + destruct (Hclean _ _ H) as (Hx & K1 & K2 & _).
      inversion Hx; subst. split; [exact K1|]. split; [exact K2|]. left.
      split; [reflexivity | now right].
  - destruct (Hclean _ _ H) as (Hx & K1 & K2 & _).
    inversion Hx; subst. split; [exact K1|]. split; [exact K2|]. left.
    split; [reflexivity | now left].
Qed.

End RebuildReturns.

(** X12 (a rebuild that answers has cleaned up).  Whenever
    [rebuild_and_sign_apk] returns a reply, whatever the tools did, the
    two working directories it named by its uuids are gone.  The reply
    is one of three: [Apktool rebuild failed.] or [Signing failed.] with
    a hidden button, or the success status with a download of
    [DOWNLOADS_DIR/<stem of the archive>-signed.apk], and then something
    stands at that path. *)
Theorem rebuild_reply_leaves_no_working_dir (env : Env)
  (project_zip keystore_file : option Gradio.UploadedFile) (build_options : list string)
  (ks_pass alias key_pass : option string) (w w' : World)
  (status : string) (button : Gradio.DownloadButton) (log : string) :
  rebuild_and_sign_apk env project_zip build_options keystore_file
    ks_pass alias key_pass w = (Ret (status, button, log), w') ->
  kind_at (TEMP_DIR env ++
             ["rebuild-" +++ substring 0 8 (uuid4_hex env (uuid_calls w))]) (fs w') = KNone /\
  kind_at (TEMP_DIR env ++
             ["rebuild-out-" +++ substring 0 8 (uuid4_hex env (S (uuid_calls w)))]) (fs w')
  = KNone /\
  (button = hidden /\
   (status = "Apktool rebuild failed." \/ status = "Signing failed.") \/
   exists z,
     project_zip = Some z /\
     status = rebuild_success_status /\
     button = download (DOWNLOADS_DIR env ++
                          [PyPath.stem (PyPath.Path (Gradio.name z)) +++ "-signed.apk"]) /\
     FS.exists_ (DOWNLOADS_DIR env ++
                   [PyPath.stem (PyPath.Path (Gradio.name z)) +++ "-signed.apk"]) (fs w')
     = true).
Proof.
  intros H.
  apply rebuild_returns_from_step_3 in H as (z & k & w3 & -> & -> & H).
  apply rebuild_from_step_3_returns in H as (K1 & K2 & [Hfail|(Hs & Hb & Hex)]).
  - split; [exact K1|]. split; [exact K2|]. now left.
  - split; [exact K1|]. split; [exact K2|]. right. now exists z.
Qed.

(** The sample rebuild, which succeeds. *)
Lemma rebuild_reply_leaves_no_working_dir_witness :
  let env := Sample.env 0 0 0 0 0 in
  let run :=
    rebuild_and_sign_apk env (Some Sample.project_zip) ["use_aapt2"]
      (Some Sample.keystore) (Some "pw") (Some "key0") (Some "pw") Sample.world in
  (exists log, fst run = Ret (rebuild_success_status,
                              download ["app"; "downloads"; "sample-decompiled-signed.apk"],
                              log)) /\
  kind_at ["app"; "temp"; "rebuild-0a1b2c3d"] (fs (snd run)) = KNone /\
  kind_at ["app"; "temp"; "rebuild-out-11112222"] (fs (snd run)) = KNone.
Proof.
  intros env run.
  assert (Hrun : exists log, run = (Ret (rebuild_success_status,
                     download ["app"; "downloads"; "sample-decompiled-signed.apk"], log),
                   snd run)).
  { eexists. vm_compute. reflexivity. }
  destruct Hrun as [log Hrun].
  destruct (@rebuild_reply_leaves_no_working_dir env (Some Sample.project_zip)
              (Some Sample.keystore) ["use_aapt2"] (Some "pw") (Some "key0") (Some "pw")
              Sample.world (snd run) _ _ _ Hrun) as (K1 & K2 & _).
  split; [exists log; now rewrite Hrun|]. split; [exact K1 | exact K2].
Defined.

(** * What a decode offers for download *)

Section DecodeReturns.

Variable env : Env.

(** An archive that [create_zip] has returned is in place. *)
Lemma create_zip_returns (src zip : path) (w w' : World) (p : string) :
  create_zip src zip w = (Ret p, w') ->
  p = PyPath.str zip /\
  (exists members, kind_at zip (fs w') = KFile (Archive members)) /\
  (forall q, q <> zip -> kind_at q (fs w') = kind_at q (fs w)) /\
  trace w' = trace w /\ uuid_calls w' = uuid_calls w.
Proof.
  rewrite create_zip_run. intros H.
  destruct (FS.write_file zip (Archive []) (fs w)) as [e|n1] eqn:E1; [discriminate|].
  destruct (Zip.written_members src n1) as [e|ms]; [discriminate|].
  destruct (FS.write_file zip (Archive ms) n1) as [e|n2] eqn:E2; [discriminate|].
  inversion H; subst. cbn [fs trace uuid_calls set_fs].
  split; [reflexivity|]. split.
  - exists ms. exact (proj1 (write_file_kind _ _ _ E2 _) eq_refl).
  - split; [|split; reflexivity]. intros q Hq.
    rewrite (proj2 (write_file_kind _ _ _ E2 _) Hq).
    exact (proj2 (write_file_kind _ _ _ E1 _) Hq).
Qed.

(** What a decode from step 5 has done when it returns. *)
Lemma from_step_5_returns (apk_path project_name d : string)
  (apktool_opts jadx_opts decode_options logs : list string) (w w' : World)
  (status : string) (button : Gradio.DownloadButton) (log : string) :
  let project_dir := TEMP_DIR env ++ [d] in
  let zip_path := DOWNLOADS_DIR env ++ [project_name +++ "-decompiled.zip"] in
  process_apk_from_step_5 env apk_path project_name project_dir apktool_opts
    jadx_opts decode_options logs w = (Ret (status, button, log), w') ->
  status = "Apktool failed." /\ button = hidden \/
  status = success_status /\ button = download zip_path /\
  (exists members, kind_at zip_path (fs w') = KFile (Archive members)) /\
  kind_at project_dir (fs w') = KNone.
Proof.
  intros project_dir zip_path H.
  unfold process_apk_from_step_5 in H.
  apply bind_returns in H as ([] & w1 & _ & H).
  apply bind_returns in H as ([[s o] e] & w2 & _ & H).
  destruct s; cbn [negb] in H; [|inversion H; subst; now left].
  right. unfold process_apk_from_step_6 in H.
  do 4 (apply bind_returns in H as (? & ? & _ & H)).
  fold zip_path in H.
  apply bind_returns in H as (p & w3 & Hzip & H).
  apply bind_returns in H as ([] & w4 & Hrm & H).
  inversion H; subst.
  apply create_zip_returns in Hzip as (_ & (ms & Kz) & _).
  apply fs_call_returns in Hrm as [Hrm _].
  pose proof (rmtree_kind _ _ Hrm) as K.
  split; [reflexivity|]. split; [reflexivity|]. split.
  - exists ms. rewrite K.
    replace (is_prefix project_dir zip_path) with false; [exact Kz|].
    symmetry. unfold project_dir, zip_path. prefix_test.
  - now rewrite K, is_prefix_refl.
Qed.

Lemma from_step_3_returns (apk_path : string) (decode_options logs : list string)
  (w w' : World) (status : string) (button : Gradio.DownloadButton) (log : string) :
  let project_name := PyPath.stem (PyPath.Path apk_path) in
  let project_dir :=
    TEMP_DIR env ++
      [project_name +++ "-decompiled-" +++ substring 0 8 (uuid4_hex env (uuid_calls w))] in
  let zip_path := DOWNLOADS_DIR env ++ [project_name +++ "-decompiled.zip"] in
  process_apk_from_step_3 env apk_path decode_options logs w
  = (Ret (status, button, log), w') ->
  status = "Apktool failed." /\ button = hidden \/
  status = success_status /\ button = download zip_path /\
  (exists members, kind_at zip_path (fs w') = KFile (Archive members)) /\
  kind_at project_dir (fs w') = KNone.
Proof.
  intros project_name project_dir zip_path H.
  unfold process_apk_from_step_3 in H.
  apply bind_returns in H as (suffix & w1 & Hu & H).
  unfold uuid4_hex8 in Hu. inversion Hu; subst suffix w1. clear Hu.
  do 3 (apply bind_returns in H as (? & ? & _ & H)).
  fold project_name in H. fold project_dir in H.
  exact (from_step_5_returns _ _ _ _ _ _ _ _ H).
Qed.

End DecodeReturns.

(** X13 (a decode offers only archives that exist).  Whenever
    [process_apk] returns a reply with a visible download button,
    whatever the tools did, the status is the success status and the
    button points into [DOWNLOADS_DIR], at a file named
    [<project>-decompiled.zip] that holds an archive in the file system
    the run leaves.  Every other reply hides the button.  For an upload
    the project is the stem of the uploaded name: the name of the
    archive does not depend on the uuid of the run. *)
Theorem offered_archive_exists (env : Env) (apk_file : option Gradio.UploadedFile)
  (apk_url : option string) (decode_options : list string) (w w' : World)
  (status : string) (button : Gradio.DownloadButton) (log : string) :
  process_apk env apk_file apk_url decode_options w = (Ret (status, button, log), w') ->
  button = hidden /\ status <> success_status \/
  exists project_name members,
    status = success_status /\
    button = download (DOWNLOADS_DIR env ++ [project_name +++ "-decompiled.zip"]) /\
    Gradio.visible button = true /\
    kind_at (DOWNLOADS_DIR env ++ [project_name +++ "-decompiled.zip"]) (fs w')
    = KFile (Archive members) /\
    (forall f, apk_file = Some f ->
               project_name = PyPath.stem (PyPath.Path (Gradio.name f))).
Proof.
  intros H.
  assert (Hstep3 : forall apk_path logs w3,
             process_apk_from_step_3 env apk_path decode_options logs w3
             = (Ret (status, button, log), w') ->
             button = hidden /\ status <> success_status \/
             exists members,
               status = success_status /\
               button = download (DOWNLOADS_DIR env ++
                                    [PyPath.stem (PyPath.Path apk_path) +++
                                     "-decompiled.zip"]) /\
               kind_at (DOWNLOADS_DIR env ++
                          [PyPath.stem (PyPath.Path apk_path) +++ "-decompiled.zip"])
                       (fs w')
               = KFile (Archive members)).
  { intros apk_path logs w3 H3.
    destruct (@from_step_3_returns env apk_path decode_options logs w3 w'
                status button log H3) as [[-> ->]|(-> & -> & (ms & K) & _)].
    - left. split; [reflexivity | discriminate].
    - right. exists ms. split; [reflexivity|]. split; [reflexivity | exact K]. }
  unfold process_apk in H.
  apply bind_returns in H as ([ok tool_logs] & w1 & _ & H).
  destruct ok; cbn [negb] in H.
  2:{ inversion H; subst. left. split; [reflexivity | discriminate]. }
  destruct apk_file as [f|].
  { destruct (Hstep3 _ _ _ H) as [Hl|(ms & Hs & Hb & K)]; [now left|].
    right. exists (PyPath.stem (PyPath.Path (Gradio.name f))), ms.
    split; [exact Hs|]. split; [exact Hb|]. split; [now rewrite Hb|].
    split; [exact K|]. intros f' Hf. now inversion Hf. }
  destruct (negb (PyStr.truthy apk_url)); [discriminate|].
  apply bind_returns in H as ([st|apk_path] & w2 & Hdl & H).
  - assert (Hst : exists e, st = "Error downloading APK: " +++ str_exn e).
    { unfold try_except in Hdl.
      match type of Hdl with
      | match ?c w1 with _ => _ end = _ => destruct (c w1) as [[x|e] w0] eqn:E
      end.
      - apply bind_returns in E as ([] & w3 & _ & E).
        apply bind_returns in E as (p & w4 & _ & E).
        inversion E; subst. discriminate.
      - inversion Hdl. now exists e. }
    destruct Hst as [e ->]. inversion H. left. split; [reflexivity|].
    cbn [String.append]. discriminate.
  - destruct (Hstep3 _ _ _ H) as [Hl|(ms & Hs & Hb & K)]; [now left|].
    right. exists (PyPath.stem (PyPath.Path apk_path)), ms.
    split; [exact Hs|]. split; [exact Hb|]. split; [now rewrite Hb|].
    split; [exact K|]. intros f' Hf. discriminate.
Qed.

(** The sample decode, which succeeds. *)
Lemma offered_archive_exists_witness :
  let env := Sample.env 0 0 0 0 0 in
  let run := process_apk env (Some Sample.apk) None ["mitm_patch"] Sample.world in
  exists log members,
    fst run = Ret (success_status, download ["app"; "downloads"; "sample-decompiled.zip"],
                   log) /\
    kind_at ["app"; "downloads"; "sample-decompiled.zip"] (fs (snd run))
    = KFile (Archive members).
Proof.
  intros env run.
  assert (Hrun : exists log, run = (Ret (success_status,
                     download ["app"; "downloads"; "sample-decompiled.zip"], log),
                   snd run)).
  { eexists. vm_compute. reflexivity. }
  destruct Hrun as [log Hrun].
  destruct (@offered_archive_exists env (Some Sample.apk) None ["mitm_patch"]
              Sample.world (snd run) _ _ _ Hrun)
    as [[Hb _]|(pn & ms & _ & Hb & _ & K & _)].
  - discriminate.
  - exists log, ms. split; [now rewrite Hrun|].
    injection Hb as Hb. rewrite Hb. exact K.
Defined.

(** * The patch stage *)

Section PatchText.



End PatchText.



Section PatchFrame.

Lemma is_prefix_res_xml (q pd : path) :
  is_prefix q (res_xml_dir pd) = true ->
  is_prefix q pd = true \/ q = pd ++ ["res"] \/ q = res_xml_dir pd.
Proof.
  unfold res_xml_dir. intros H.
  replace (pd ++ ["res"; "xml"]) with ((pd ++ ["res"]) ++ ["xml"]) in *
    by now rewrite <- app_assoc.
  apply is_prefix_snoc in H as [H|H]; [|now right; right].
  apply is_prefix_snoc in H as [H|H]; [now left | now right; left].
Qed.

End PatchFrame.

(** X15 (the patch touches four paths).  On a project directory that is
    there, [mitm_patch] runs no tool and, whatever its outcome, changes
    nothing but [res], [res/xml], the configuration file and the
    manifest of the project: every other path, inside the project or
    outside, holds what it held. *)
Theorem mitm_patch_touches_four_paths (pd : path) (w w' : World)
  (r : outcome (bool * string * string)) :
  kind_at pd (fs w) = KDir ->
  mitm_patch pd w = (r, w') ->
  trace w' = trace w /\
  forall q, q <> pd ++ ["res"] -> q <> res_xml_dir pd ->
            q <> config_path pd -> q <> manifest_path pd ->
            kind_at q (fs w') = kind_at q (fs w).
Proof.
  intros Kpd H. rewrite mitm_patch_run in H.
  destruct (FS.makedirs true (res_xml_dir pd) (fs w)) as [e|n1] eqn:Emk.
  { inversion H; subst. auto. }
  assert (K1 : forall q, q <> pd ++ ["res"] -> q <> res_xml_dir pd ->
                         kind_at q n1 = kind_at q (fs w)).
  { intros q H1 H2. rewrite (makedirs_kind _ _ _ Emk q).
    destruct (is_prefix q (res_xml_dir pd)) eqn:Eq; [|reflexivity].
    destruct (is_prefix_res_xml _ _ Eq) as [Hq|[Hq|Hq]]; try contradiction.
    symmetry. exact (kind_at_prefix_of_dir _ _ _ Hq Kpd). }
  destruct (FS.write_file (config_path pd) (Raw config_content) n1) as [e|n2] eqn:Ewr.
  { inversion H; subst. cbn [fs trace set_fs]. auto. }
  assert (K2 : forall q, q <> pd ++ ["res"] -> q <> res_xml_dir pd ->
                         q <> config_path pd -> kind_at q n2 = kind_at q (fs w)).
  { intros q H1 H2 H3. rewrite (proj2 (write_file_kind _ _ _ Ewr q) H3). auto. }
  destruct (FS.exists_ (manifest_path pd) n2).
  2:{ inversion H; subst. cbn [fs trace set_fs]. auto. }
  destruct (FS.read_file (manifest_path pd) n2) as [e|[s|ms]].
  - inversion H; subst. cbn [fs trace set_fs]. auto.
  - destruct (negb (PyStr.contains manifest_attribute s)).
    + destruct (FS.write_file (manifest_path pd) _ n2) as [e|n3] eqn:Ew3.
      * inversion H; subst. cbn [fs trace set_fs]. auto.
      * inversion H; subst. cbn [fs trace set_fs].
        split; [reflexivity|].
        intros q H1 H2 H3 H4.
        rewrite (proj2 (write_file_kind _ _ _ Ew3 q) H4). auto.
    + inversion H; subst. cbn [fs trace set_fs]. auto.
  - inversion H; subst. cbn [fs trace set_fs]. auto.
Qed.

(** The sample project: the patch leaves the smali code alone. *)
Lemma mitm_patch_touches_four_paths_witness :
  let pd := ["p"] in
  let w := mkWorld (Dir [("p", Sample.decoded_project)]) [] 0 in
  kind_at ["p"; "smali"; "Main.smali"] (fs (snd (mitm_patch pd w))) =
  KFile (Raw ".class public LMain;").
Proof.
  intros pd w.
  destruct (@mitm_patch_touches_four_paths pd w (snd (mitm_patch pd w))
              (fst (mitm_patch pd w))) as [_ K].
  - reflexivity.
  - apply surjective_pairing.
  - rewrite K; [reflexivity | discriminate ..].
Defined.

(** * The archive *)

(** X16 (the archive is all that [create_zip] writes).  Whatever its
    outcome, [create_zip] runs no tool and changes nothing but
    [zip_path]: the source tree and every other path hold what they
    held.  When it returns, it returns [zip_path] as a string and an
    archive stands there. *)
Theorem create_zip_writes_only_the_archive (source_dir zip_path : path) (w w' : World)
  (r : outcome string) :
  create_zip source_dir zip_path w = (r, w') ->
  trace w' = trace w /\
  (forall q, q <> zip_path -> kind_at q (fs w') = kind_at q (fs w)) /\
  (forall p, r = Ret p ->
     p = PyPath.str zip_path /\
     exists members, kind_at zip_path (fs w') = KFile (Archive members)).
Proof.
  intros H. split; [|split].
  - rewrite create_zip_run in H.
    destruct (FS.write_file zip_path (Archive []) (fs w)) as [e|n1];
      [inversion H; subst; reflexivity|].
    destruct (Zip.written_members source_dir n1) as [e|ms];
      [inversion H; subst; reflexivity|].
    destruct (FS.write_file zip_path (Archive ms) n1) as [e|n2];
      inversion H; subst; reflexivity.
  - intros q Hq. rewrite create_zip_run in H.
    destruct (FS.write_file zip_path (Archive []) (fs w)) as [e|n1] eqn:E1;
      [inversion H; subst; reflexivity|].
    pose proof (proj2 (write_file_kind _ _ _ E1 q) Hq) as K1.
    destruct (Zip.written_members source_dir n1) as [e|ms];
      [inversion H; subst; exact K1|].
    destruct (FS.write_file zip_path (Archive ms) n1) as [e|n2] eqn:E2;
      inversion H; subst; cbn [fs set_fs]; [exact K1|].
    now rewrite (proj2 (write_file_kind _ _ _ E2 q) Hq).
  - intros p ->. apply create_zip_returns in H as (Hp & Hm & _). now split.
Qed.

(** The sample project archived next to it. *)
Lemma create_zip_writes_only_the_archive_witness :
  let w := mkWorld (Dir [("p", Sample.decoded_project); ("d", Dir [])]) [] 0 in
  let w' := snd (create_zip ["p"] ["d"; "p.zip"] w) in
  kind_at ["p"; "smali"; "Main.smali"] (fs w') = KFile (Raw ".class public LMain;") /\
  exists members, kind_at ["d"; "p.zip"] (fs w') = KFile (Archive members).
Proof.
  intros w w'.
  destruct (@create_zip_writes_only_the_archive ["p"] ["d"; "p.zip"] w w'
              (fst (create_zip ["p"] ["d"; "p.zip"] w))) as (_ & K & Hr).
  - apply surjective_pairing.
  - split.
    + rewrite K; [reflexivity | discriminate].
    + apply (Hr "/d/p.zip"). reflexivity.
Defined.

Section EmptyArchive.

Lemma no_element_nil {A} (l : list A) : (forall x, ~ In x l) -> l = [].
Proof. destruct l as [|x l]; [reflexivity|]. intros H. destruct (H x). now left. Qed.

(** Nothing is visited in a tree without files. *)
Lemma listing_without_files (root : path) (t : node) :
  well_formed t ->
  (forall rel c, rel <> [] -> FS.lookup rel t <> Some (File c)) ->
  listing root t = [].
Proof.
  intros Hwf Hno. apply no_element_nil. intros p Hin.
  destruct (listing_sound Hwf root p Hin) as (rel & c & _ & Hne & Hl & _).
  exact (Hno rel c Hne Hl).
Qed.

End EmptyArchive.

(** X17 (directories are not archived).  Let the file system be well
    formed and let no file stand below [source_dir]: it holds nothing
    but directories, nested as they may be, or it is not there at all.
    Then [create_zip], writing outside [source_dir] into a directory
    that is there, returns without an error and the archive is empty:
    a missing source is not reported, and empty directories leave no
    trace in the archive. *)
Theorem create_zip_without_files (source_dir d : path) (k : string) (w : World) :
  well_formed (fs w) ->
  is_prefix source_dir (d ++ [k]) = false ->
  kind_at d (fs w) = KDir ->
  kind_at (d ++ [k]) (fs w) <> KDir ->
  (forall rel c, rel <> [] -> kind_at (source_dir ++ rel) (fs w) <> KFile c) ->
  exists w',
    create_zip source_dir (d ++ [k]) w = (Ret (PyPath.str (d ++ [k])), w') /\
    kind_at (d ++ [k]) (fs w') = KFile (Archive []).
Proof.
  intros Hwf Hout Kd Kz Hno.
  destruct (@write_file_ok d k (Archive []) (fs w) Kd Kz) as [n1 E1].
  pose proof (write_file_kind _ _ _ E1) as K1.
  assert (Hms : Zip.written_members source_dir n1 = inr []).
  { rewrite written_members_fold.
    destruct (FS.lookup source_dir n1) as [t|] eqn:Et; [|reflexivity].
    assert (Hsrc : source_dir <> d ++ [k])
      by (intros ->; now rewrite is_prefix_refl in Hout).
    assert (Kt : kind_at source_dir (fs w) = kind_of (Some t)).
    { rewrite <- (proj2 (K1 source_dir) Hsrc). unfold kind_at. now rewrite Et. }
    destruct t as [c|es]; [reflexivity|].
    assert (Hsame : FS.lookup source_dir (fs w) = Some (Dir es)).
    { rewrite <- Et. symmetry. unfold FS.write_file in E1.
      assert (Hput : FS.put (d ++ [k]) (File (Archive [])) (fs w) = inr n1)
        by (destruct (FS.lookup (d ++ [k]) (fs w)) as [[?|?]|]; congruence).
      apply (put_lookup_other _ _ _ _ Hput); [exact Hout|].
      destruct (is_prefix (d ++ [k]) source_dir) eqn:Ez; [|reflexivity].
      exfalso. destruct (is_prefix_true _ _ Ez) as [r Hr].
      destruct r as [|x r]; [rewrite app_nil_r in Hr; now apply Hsrc|].
      apply Kz. apply (@kind_at_dir_above (d ++ [k]) (x :: r) (fs w)); [|discriminate].
      rewrite <- Hr, Kt. discriminate. }
    rewrite listing_without_files; [reflexivity | |].
    - exact (well_formed_lookup _ Hwf Hsame).
    - intros rel c Hne Hl. apply (Hno rel c Hne).
      unfold kind_at. now rewrite lookup_app, Hsame, Hl. }
  destruct (@write_file_ok d k (Archive []) n1) as [n2 E2].
  { rewrite (proj2 (K1 d)); [exact Kd|].
    intros Heq. rewrite <- (app_nil_r d) in Heq at 1.
    apply app_inv_head in Heq. discriminate. }
  { rewrite (proj1 (K1 _) eq_refl). discriminate. }
  exists (set_fs n2 w). split.
  - now rewrite create_zip_run, E1, Hms, E2.
  - exact (proj1 (write_file_kind _ _ _ E2 _) eq_refl).
Qed.

(** A project that holds two nested directories and no file. *)
Lemma create_zip_without_files_witness :
  let w := mkWorld (Dir [("p", Dir [("a", Dir [("b", Dir [])])]); ("d", Dir [])]) [] 0 in
  exists w',
    create_zip ["p"] ["d"; "p.zip"] w = (Ret "/d/p.zip", w') /\
    kind_at ["d"; "p.zip"] (fs w') = KFile (Archive []).
Proof.
  intros w.
  apply (@create_zip_without_files ["p"] ["d"] "p.zip" w).
  - cbn [fs w]. well_formed_tree.
  - reflexivity.
  - reflexivity.
  - vm_compute. discriminate.
  - intros rel c _. unfold kind_at. cbn [fs w app FS.lookup FS.assoc].
    cbn [String.eqb Ascii.eqb Bool.eqb].
    destruct rel as [|x rel]; cbn [FS.lookup kind_of]; [discriminate|].
    cbn [FS.assoc]. destruct (String.eqb x "a"); cbn [kind_of]; [|discriminate].
    destruct rel as [|y rel]; cbn [FS.lookup kind_of]; [discriminate|].
    cbn [FS.assoc]. destruct (String.eqb y "b"); cbn [kind_of]; [|discriminate].
    destruct rel as [|z rel]; cbn [FS.lookup FS.assoc kind_of]; discriminate.
Defined.

Section ExtractFrame.

Lemma is_prefix_app_l (a b q : path) :
  is_prefix (a ++ b) q = true -> is_prefix a q = true.
Proof.
  intros H. destruct (is_prefix_true _ _ H) as [r ->].
  rewrite <- app_assoc. apply is_prefix_app.
Qed.

Lemma outside_not_below (target parts q : path) :
  is_prefix target q = false -> is_prefix (target ++ parts) q = false.
Proof.
  intros H. destruct (is_prefix (target ++ parts) q) eqn:E; [|reflexivity].
  now rewrite (is_prefix_app_l _ _ _ E) in H.
Qed.

Lemma write_file_not_dir (p : path) (c : content) (n n' : node) :
  FS.write_file p c n = inr n' -> kind_at p n <> KDir.
Proof.
  unfold FS.write_file, kind_at.
  destruct (FS.lookup p n) as [[?|?]|]; cbn [kind_of]; intros H; congruence.
Qed.

(** One member is extracted below the target, whatever its name. *)
Lemma extract_member_frame (target : path) (m : string * content) (n n' : node) :
  kind_at target n = KDir ->
  Zip.extract_member target m n = inr n' ->
  kind_at target n' = KDir /\
  forall q, is_prefix target q = false -> kind_at q n' = kind_at q n.
Proof.
  intros Kt H. destruct m as [filename data]. unfold Zip.extract_member in H.
  set (parts := Zip.arcname_parts filename) in *.
  (* the directories above the member *)
  assert (Hup : forall n1,
             (if negb (FS.exists_ (removelast (target ++ parts)) n)
              then FS.makedirs false (removelast (target ++ parts)) n
              else inr n) = inr n1 ->
             kind_at target n1 = KDir /\
             forall q, is_prefix target q = false -> kind_at q n1 = kind_at q n).
  { intros n1 H1.
    destruct (FS.exists_ (removelast (target ++ parts)) n) eqn:Ex; cbn [negb] in H1.
    { inversion H1; subst. auto. }
    destruct parts as [|x parts'] eqn:Ep.
    { exfalso. rewrite app_nil_r in Ex. rewrite kind_at_exists in Ex.
      assert (Hpre : is_prefix (removelast target) target = true).
      { destruct target as [|a t] using rev_ind; [reflexivity|].
        rewrite removelast_last. apply is_prefix_app. }
      rewrite (kind_at_prefix_of_dir _ _ _ Hpre Kt) in Ex. discriminate. }
    rewrite removelast_app in H1 by discriminate.
    pose proof (makedirs_kind _ _ _ H1) as K. split.
    - now rewrite K, is_prefix_app.
    - intros q Hq. rewrite K.
      destruct (is_prefix q (target ++ removelast (x :: parts'))) eqn:Eq; [|reflexivity].
      destruct (is_prefix_app_cases _ _ _ Eq) as [Hqt|(r & _ & -> & _)].
      + symmetry. exact (kind_at_prefix_of_dir _ _ _ Hqt Kt).
      + now rewrite is_prefix_app in Hq. }
  destruct (if negb (FS.exists_ (removelast (target ++ parts)) n)
            then FS.makedirs false (removelast (target ++ parts)) n
            else inr n) as [e|n1] eqn:E1; [discriminate|].
  destruct (Hup n1 eq_refl) as [Kt1 K1].
  destruct (PyStr.endswith "/" filename).
  - destruct (FS.isdir (target ++ parts) n1); [inversion H; subst; auto|].
    unfold FS.mkdir in H.
    destruct (FS.lookup (target ++ parts) n1) as [v|] eqn:El; [discriminate|].
    split.
    + rewrite (put_kind_other _ target _ _ H); [exact Kt1|].
      destruct parts as [|x parts'].
      * exfalso. rewrite app_nil_r in El. unfold kind_at in Kt1.
        now rewrite El in Kt1.
      * now apply is_prefix_below_false.
    + intros q Hq. rewrite (put_kind_other _ q _ _ H); [now apply K1|].
      now apply outside_not_below.
  - pose proof (write_file_not_dir _ _ _ H) as Hnd.
    pose proof (write_file_kind _ _ _ H) as K. split.
    + rewrite (proj2 (K target)); [exact Kt1|]. intros Heq. apply Hnd.
      now rewrite <- Heq.
    + intros q Hq. rewrite (proj2 (K q)); [now apply K1|].
      intros ->. now rewrite is_prefix_app in Hq.
Qed.

End ExtractFrame.

(** X18 (unpacking stays in the project directory).  Unpacking an
    archive into a directory that is there, as [rebuild_and_sign_apk]
    does with the uploaded project, changes nothing outside that
    directory, whatever the names of the members are (absolute, with
    [..] parts, or ending in a slash) and also when the unpacking stops
    with an error. *)
Theorem extractall_stays_in_target (target : path) (members : list (string * content))
  (w w' : World) (r : outcome unit) :
  kind_at target (fs w) = KDir ->
  Zip.extractall target members w = (r, w') ->
  trace w' = trace w /\
  kind_at target (fs w') = KDir /\
  forall q, is_prefix target q = false -> kind_at q (fs w') = kind_at q (fs w).
Proof.
  revert w w' r. unfold Zip.extractall.
  induction members as [|m ms IH]; intros w w' r Kt H.
  - inversion H; subst. auto.
  - cbn [for_each] in H. unfold bind at 1, fs_call at 1 in H.
    destruct (Zip.extract_member target m (fs w)) as [e|n1] eqn:E.
    + inversion H; subst. auto.
    + destruct (@extract_member_frame target m (fs w) n1 Kt E) as [Kt1 K1].
      destruct (IH (set_fs n1 w) w' r Kt1 H) as (T & Kt' & K').
      split; [exact T|]. split; [exact Kt'|].
      intros q Hq. rewrite (K' q Hq). exact (K1 q Hq).
Qed.

(** An archive whose members try to leave the directory they are
    unpacked in. *)
Lemma extractall_stays_in_target_witness :
  let w := mkWorld (Dir [("etc", Dir [("passwd", File (Raw "root"))]);
                         ("t", Dir [("p", Dir [])])]) [] 0 in
  let members := [("../../etc/passwd", Raw "x"); ("/etc/shadow", Raw "y")] in
  let w' := snd (Zip.extractall ["t"; "p"] members w) in
  kind_at ["etc"; "passwd"] (fs w') = KFile (Raw "root") /\
  kind_at ["etc"; "shadow"] (fs w') = KNone /\
  kind_at ["t"; "p"; "etc"; "passwd"] (fs w') = KFile (Raw "x").
Proof.
  intros w members w'.
  destruct (@extractall_stays_in_target ["t"; "p"] members w w'
              (fst (Zip.extractall ["t"; "p"] members w))) as (_ & _ & K).
  - reflexivity.
  - apply surjective_pairing.
  - split; [|split].
    + rewrite K; reflexivity.
    + rewrite K; reflexivity.
    + vm_compute. reflexivity.
Defined.

(** * Start-up *)

Section MakedirsChild.

(** [os.makedirs(d / name, exist_ok=True)] in a directory [d]. *)
Lemma makedirs_child (d : path) (name : string) (n : node) :
  kind_at d n = KDir ->
  (forall c, kind_at (d ++ [name]) n <> KFile c) ->
  exists n',
    FS.makedirs true (d ++ [name]) n = inr n' /\
    kind_at (d ++ [name]) n' = KDir /\
    (forall q, q <> d ++ [name] -> kind_at q n' = kind_at q n).
Proof.
  intros Kb Kc.
  destruct (@makedirs_ok true (d ++ [name]) n) as [n' H].
  { intros q Hq. apply is_prefix_snoc in Hq as [Hq| ->].
    - right. exact (kind_at_prefix_of_dir _ _ _ Hq Kb).
    - destruct (kind_at (d ++ [name]) n) as [|c|] eqn:E; auto.
      now destruct (Kc c). }
  { discriminate. }
  pose proof (makedirs_kind _ _ _ H) as K.
  exists n'. split; [exact H|]. split.
  - now rewrite K, is_prefix_refl.
  - intros q Hq. rewrite K.
    destruct (is_prefix q (d ++ [name])) eqn:Eq; [|reflexivity].
    apply is_prefix_snoc in Eq as [Eq|Eq]; [|contradiction].
    symmetry. exact (kind_at_prefix_of_dir _ _ _ Eq Kb).
Qed.

End MakedirsChild.

(** X19 (start-up makes the two directories and keeps what is there).
    When [BASE_DIR] is a directory and no file stands at [temp] or
    [downloads], the two [os.makedirs] calls of the module return, both
    directories are there afterwards, every other path (also below the
    two directories) holds what it held, and running the calls again
    changes nothing. *)
Theorem ensure_directories_is_safe (env : Env) (w : World) :
  kind_at (BASE_DIR env) (fs w) = KDir ->
  (forall c, kind_at (TEMP_DIR env) (fs w) <> KFile c) ->
  (forall c, kind_at (DOWNLOADS_DIR env) (fs w) <> KFile c) ->
  exists w',
    ensure_directories env w = (Ret tt, w') /\
    kind_at (TEMP_DIR env) (fs w') = KDir /\
    kind_at (DOWNLOADS_DIR env) (fs w') = KDir /\
    (forall q, q <> TEMP_DIR env -> q <> DOWNLOADS_DIR env ->
               kind_at q (fs w') = kind_at q (fs w)) /\
    ensure_directories env w' = (Ret tt, w').
Proof.
  intros Kb Kt Kd. unfold TEMP_DIR, DOWNLOADS_DIR in *.
  assert (Hne : BASE_DIR env ++ ["temp"] <> BASE_DIR env ++ ["downloads"]).
  { intros Heq. apply app_inv_head in Heq. discriminate. }
  assert (Hb : forall name, BASE_DIR env <> BASE_DIR env ++ [name]).
  { intros name Heq. rewrite <- (app_nil_r (BASE_DIR env)) in Heq at 1.
    apply app_inv_head in Heq. discriminate. }
  destruct (@makedirs_child (BASE_DIR env) "temp" (fs w) Kb Kt) as (n1 & E1 & K1 & F1).
  destruct (@makedirs_child (BASE_DIR env) "downloads" n1) as (n2 & E2 & K2 & F2).
  { rewrite F1; [exact Kb | apply Hb]. }
  { intros c. rewrite F1; [apply Kd | now apply not_eq_sym]. }
  exists (set_fs n2 w). cbn [fs set_fs].
  assert (K1' : kind_at (BASE_DIR env ++ ["temp"]) n2 = KDir)
    by (rewrite F2; [exact K1 | exact Hne]).
  split; [|split; [exact K1'|split; [exact K2|split]]].
  - unfold ensure_directories, TEMP_DIR, DOWNLOADS_DIR.
    unfold bind at 1. unfold fs_call at 1. rewrite E1.
    unfold fs_call. cbn [fs set_fs]. now rewrite E2.
  - intros q Hq1 Hq2. rewrite (F2 q Hq2). exact (F1 q Hq1).
  - unfold ensure_directories, TEMP_DIR, DOWNLOADS_DIR.
    unfold bind at 1. unfold fs_call at 1. cbn [fs set_fs].
    rewrite (makedirs_id _ _ K1').
    unfold fs_call. cbn [fs set_fs]. rewrite (makedirs_id _ _ K2).
    reflexivity.
Qed.

(** A fresh installation, and one that holds an archive already. *)
Lemma ensure_directories_is_safe_witness :
  let env := Sample.env 0 0 0 0 0 in
  let w := mkWorld (Dir [("app", Dir [("downloads",
                      Dir [("old.zip", File (Archive []))])])]) [] 0 in
  exists w',
    ensure_directories env w = (Ret tt, w') /\
    kind_at ["app"; "temp"] (fs w') = KDir /\
    kind_at ["app"; "downloads"; "old.zip"] (fs w') = KFile (Archive []).
Proof.
  intros env w.
  destruct (@ensure_directories_is_safe env w) as (w' & Hrun & Kt & _ & K & _).
  - reflexivity.
  - intros c. vm_compute. discriminate.
  - intros c. vm_compute. discriminate.
  - exists w'. split; [exact Hrun|]. split; [exact Kt|].
    rewrite K; [reflexivity | discriminate | discriminate].
Defined.

(** * The command line of the decoder *)

Section DecodeFlags.

Variable env : Env.

(** From step 5 the first thing that runs is the decoder. *)
Lemma decode_runs_first (apk_path project_name : string) (project_dir : path)
  (apktool_opts jadx_opts decode_options logs : list string) (w : World) :
  exists rest,
    trace (snd (process_apk_from_step_5 env apk_path project_name project_dir
                  apktool_opts jadx_opts decode_options logs w))
    = trace w ++
      [EvProgress 0.2 "Decompiling with Apktool...";
       EvRun (decode_command env apk_path project_dir apktool_opts) None] ++ rest.
Proof.
  destruct (process_apk_from_step_5 env apk_path project_name project_dir
              apktool_opts jadx_opts decode_options logs w) as [r w'] eqn:E.
  cbn [snd]. unfold process_apk_from_step_5 in E.
  unfold bind at 1 in E. unfold progress at 1 in E.
  unfold bind at 1 in E. unfold apktool_decode in E.
  fold (decode_command env apk_path project_dir apktool_opts) in E.
  destruct (run_command_total env
              (decode_command env apk_path project_dir apktool_opts) None
              (emit (EvProgress 0.2 "Decompiling with Apktool...") w))
    as (ok & out & err & n & Hrun).
  rewrite Hrun in E.
  destruct ok; cbn [negb] in E.
  - destruct (@respects_from_step_6 env (fun _ => True) (fun _ => True)
                (fun _ _ => I) (fun _ _ => I) (fun _ => I) I
                _ _ _ _ _ _ _ _ _ E) as [(evs & T & _) _].
    exists evs. rewrite T. cbn [trace set_fs emit]. now rewrite <- !app_assoc.
  - inversion E; subst. exists []. cbn [trace set_fs emit].
    now rewrite <- !app_assoc.
Qed.

End DecodeFlags.

(** X20 (the flags of the decoder).  From step 3, unless the set-up of
    the project directory raises, the first tool that [process_apk] runs
    is the decoder, on the APK and the project directory, with [-f] and
    the flags of the ticked Apktool options: each ticked option gives its
    flag once, in the order of the table and not of the selection, and
    nothing else adds a flag. *)
Theorem decoder_gets_the_ticked_flags (env : Env) (apk_path : string)
  (decode_options logs : list string) (w : World) :
  let run := process_apk_from_step_3 env apk_path decode_options logs w in
  let project_dir :=
    TEMP_DIR env ++
      [PyPath.stem (PyPath.Path apk_path) +++ "-decompiled-" +++
       substring 0 8 (uuid4_hex env (uuid_calls w))] in
  let command :=
    ["java"; "-jar"; PyPath.str (APKTOOL_PATH env); "d"; apk_path; "-o";
     PyPath.str project_dir; "-f"] ++ ticked_flags apktool_flag_table decode_options in
  (exists e, fst run = Raise (OSError e) /\ trace (snd run) = trace w) \/
  exists rest,
    trace (snd run) =
    trace w ++ [EvProgress 0.2 "Decompiling with Apktool..."; EvRun command None] ++ rest.
Proof.
  intros run project_dir command.
  assert (Hflags :
            append_if "no_debug_info" decode_options "-b"
              (append_if "only_main_classes" decode_options "--only-main-classes"
                 (append_if "no_assets" decode_options "--no-assets"
                    (append_if "force_manifest" decode_options "--force-manifest"
                       (append_if "no_res" decode_options "-r"
                          (append_if "no_src" decode_options "-s" [])))))
            = ticked_flags apktool_flag_table decode_options).
  { unfold append_if, ticked_flags, apktool_flag_table. cbn [filter map fst snd].
    destruct (PyStr.mem "no_src" decode_options),
             (PyStr.mem "no_res" decode_options),
             (PyStr.mem "force_manifest" decode_options),
             (PyStr.mem "no_assets" decode_options),
             (PyStr.mem "only_main_classes" decode_options),
             (PyStr.mem "no_debug_info" decode_options); reflexivity. }
  subst run. destruct w as [n tr u].
  unfold process_apk_from_step_3, uuid4_hex8.
  cbv beta iota zeta delta [bind ret fs_call path_exists get_fs].
  cbn [fs trace uuid_calls] in *. fold project_dir. rewrite Hflags.
  assert (Hgo : forall n2,
             exists rest,
               trace (snd (process_apk_from_step_5 env apk_path
                             (PyPath.stem (PyPath.Path apk_path)) project_dir
                             (ticked_flags apktool_flag_table decode_options)
                             (append_if "show_bad_code" decode_options "--show-bad-code"
                                (append_if "deobf" decode_options "--deobf" []))
                             decode_options
                             (logs ++ ["Created project directory: " +++
                                       PyPath.str project_dir])
                             (set_fs n2 (mkWorld n tr (S u)))))
               = tr ++ [EvProgress 0.2 "Decompiling with Apktool...";
                        EvRun command None] ++ rest).
  { intros n2. apply decode_runs_first. }
  destruct (FS.exists_ project_dir n); cbv beta iota; cbn [fs set_fs].
  - destruct (FS.rmtree project_dir n) as [e|n1]; cbn [fs set_fs].
    { left. now exists e. }
    destruct (FS.makedirs false project_dir n1) as [e|n2]; cbn [fs set_fs].
    { left. now exists e. }
    right. exact (Hgo n2).
  - destruct (FS.makedirs false project_dir n) as [e|n2]; cbn [fs set_fs].
    { left. now exists e. }
    right. exact (Hgo n2).
Qed.

(** * An upload that is no archive *)

(** X21 (an upload that is no ZIP archive).  Let the inputs of
    [rebuild_and_sign_apk] be complete, [TEMP_DIR] be in place and the
    uploaded project be a file that holds no archive.  Then the run
    makes its two working directories, reports the unzipping, and
    raises [BadZipFile]: no tool has run, and the two directories are
    left behind. *)
Theorem upload_that_is_no_archive (env : Env)
  (project_zip keystore_file : Gradio.UploadedFile) (build_options : list string)
  (ks_pass alias key_pass : option string) (w : World) (bytes : string) :
  let project_dir :=
    TEMP_DIR env ++ ["rebuild-" +++ substring 0 8 (uuid4_hex env (uuid_calls w))] in
  let output_dir :=
    TEMP_DIR env ++ ["rebuild-out-" +++ substring 0 8 (uuid4_hex env (S (uuid_calls w)))] in
  forallb PyStr.truthy [ks_pass; alias; key_pass] = true ->
  kind_at (TEMP_DIR env) (fs w) = KDir ->
  (forall c, kind_at project_dir (fs w) <> KFile c) ->
  (forall c, kind_at output_dir (fs w) <> KFile c) ->
  kind_at (PyPath.Path (Gradio.name project_zip)) (fs w) = KFile (Raw bytes) ->
  exists w',
    rebuild_and_sign_apk env (Some project_zip) build_options (Some keystore_file)
      ks_pass alias key_pass w = (Raise BadZipFile, w') /\
    kind_at project_dir (fs w') = KDir /\
    kind_at output_dir (fs w') = KDir /\
    trace w' = trace w ++ [EvProgress 0.1 "Unzipping project..."].
Proof.
  intros project_dir output_dir Hcreds Kt Kp Ko Kz.
  assert (Hzp : PyPath.Path (Gradio.name project_zip) <> project_dir)
    by (intros Heq; rewrite Heq in Kz; exact (Kp _ Kz)).
  assert (Hzo : PyPath.Path (Gradio.name project_zip) <> output_dir)
    by (intros Heq; rewrite Heq in Kz; exact (Ko _ Kz)).
  destruct (@makedirs_child (TEMP_DIR env) _ (fs w) Kt Kp) as (n1 & E1 & K1 & F1).
  fold project_dir in E1, K1, F1.
  assert (Hto : forall name, TEMP_DIR env <> TEMP_DIR env ++ [name]).
  { intros name Heq. rewrite <- (app_nil_r (TEMP_DIR env)) in Heq at 1.
    apply app_inv_head in Heq. discriminate. }
  destruct (@makedirs_child (TEMP_DIR env)
              ("rebuild-out-" +++ substring 0 8 (uuid4_hex env (S (uuid_calls w)))) n1)
    as (n2 & E2 & K2 & F2).
  { rewrite F1; [exact Kt | apply Hto]. }
  { intros c Hc. fold output_dir in Hc.
    destruct (list_eq_dec string_dec output_dir project_dir) as [Heq|Hne].
    - rewrite Heq, K1 in Hc. discriminate.
    - rewrite (F1 _ Hne) in Hc. exact (Ko _ Hc). }
  fold output_dir in E2, K2, F2.
  exists (emit (EvProgress 0.1 "Unzipping project...")
            (set_fs n2 (mkWorld (fs w) (trace w) (S (S (uuid_calls w)))))).
  split; [|split; [|split]].
  - unfold rebuild_and_sign_apk. rewrite Hcreds. cbn [negb].
    destruct w as [n tr u]. unfold uuid4_hex8, Zip.open_r.
    cbn [fs trace uuid_calls] in *. run_monad.
    fold project_dir. rewrite E1. fold output_dir. rewrite E2.
    rewrite read_file_kind, (F2 _ Hzo), (F1 _ Hzp), Kz. reflexivity.
  - cbn [fs emit set_fs].
    destruct (list_eq_dec string_dec project_dir output_dir) as [Heq|Hne].
    + rewrite Heq. exact K2.
    + now rewrite (F2 _ Hne).
  - exact K2.
  - reflexivity.
Qed.

(** The keystore uploaded in the place of the project. *)
Lemma upload_that_is_no_archive_witness :
  let env := Sample.env 0 0 0 0 0 in
  exists w',
    rebuild_and_sign_apk env (Some Sample.keystore) [] (Some Sample.keystore)
      (Some "pw") (Some "key0") (Some "pw") Sample.world = (Raise BadZipFile, w') /\
    kind_at ["app"; "temp"; "rebuild-0a1b2c3d"] (fs w') = KDir /\
    kind_at ["app"; "temp"; "rebuild-out-11112222"] (fs w') = KDir.
Proof.
  intros env.
  destruct (@upload_that_is_no_archive env Sample.keystore Sample.keystore []
              (Some "pw") (Some "key0") (Some "pw") Sample.world "keys")
    as (w' & Hrun & K1 & K2 & _).
  - reflexivity.
  - reflexivity.
  - intros c. vm_compute. discriminate.
  - intros c. vm_compute. discriminate.
  - reflexivity.
  - exists w'. split; [exact Hrun|]. split; [exact K1 | exact K2].
Defined.

(** * What a decode runs *)

Section DecodeTrace.

Variable env : Env.

Lemma silent_trace {A} (c : M A) (w w' : World) (r : outcome A) :
  respects (fun _ => False) (fun _ => True) c -> c w = (r, w') -> trace w' = trace w.
Proof.
  intros Hc H. destruct (Hc _ _ _ H) as [(evs & T & F) _].
  destruct evs as [|ev evs]; [now rewrite app_nil_r in T|].
  inversion F; contradiction.
Qed.

Lemma progress_returns (fr : QArith_base.Q) (d : string) (w w' : World) (u : unit) :
  progress fr d w = (Ret u, w') -> trace w' = trace w ++ [EvProgress fr d].
Proof. intros H. inversion H; subst. reflexivity. Qed.

Lemma mitm_patch_trace (pd : path) (w w' : World) (r : outcome (bool * string * string)) :
  mitm_patch pd w = (r, w') -> trace w' = trace w.
Proof.
  apply silent_trace. apply respects_mitm_patch; intros; exact I.
Qed.

Lemma create_zip_trace (src zip : path) (w w' : World) (r : outcome string) :
  create_zip src zip w = (r, w') -> trace w' = trace w.
Proof.
  apply silent_trace. apply respects_create_zip; intros; exact I.
Qed.

End DecodeTrace.

(** X22 (what a decode runs).  When [process_apk], from step 5, returns
    a reply, it has run the decoder and then, on success, the ticked
    stages and nothing else, in the order patch, analysis,
    decompilation, whatever the order of the selection: the patch runs
    no tool, the analysis runs [quark], the decompilation runs [jadx]
    in the project directory, and the archive is made last. *)
Theorem decode_runs_the_ticked_stages (env : Env) (apk_path project_name : string)
  (project_dir : path) (apktool_opts jadx_opts decode_options logs : list string)
  (w w' : World) (status : string) (button : Gradio.DownloadButton) (log : string) :
  let ticked (token : string) (evs : list event) :=
    if PyStr.mem token decode_options then evs else [] in
  let decode :=
    [EvProgress 0.2 "Decompiling with Apktool...";
     EvRun (decode_command env apk_path project_dir apktool_opts) None] in
  process_apk_from_step_5 env apk_path project_name project_dir apktool_opts
    jadx_opts decode_options logs w = (Ret (status, button, log), w') ->
  status = "Apktool failed." /\ trace w' = trace w ++ decode \/
  status = success_status /\
  trace w' =
    trace w ++ decode ++
    ticked "mitm_patch" [EvProgress 0.5 "Applying MITM patch..."] ++
    ticked "quark_analysis"
      [EvProgress 0.6 "Analyzing with Quark-Engine...";
       EvRun (quark_command apk_path project_dir) None] ++
    ticked "decompile_java"
      [EvProgress 0.8 "Decompiling Java with JADX...";
       EvRun (jadx_command env apk_path project_dir jadx_opts) (Some project_dir)] ++
    [EvProgress 0.95 "Creating ZIP archive..."].
Proof.
  intros ticked decode H.
  unfold process_apk_from_step_5 in H.
  apply bind_returns in H as ([] & w1 & H1 & H). apply progress_returns in H1.
  apply bind_returns in H as ([[s o] e] & w2 & H2 & H).
  unfold apktool_decode in H2.
  fold (decode_command env apk_path project_dir apktool_opts) in H2.
  apply run_command_returns in H2 as [H2 _].
  assert (T2 : trace w2 = trace w ++ decode)
    by (rewrite H2, H1; now rewrite <- app_assoc).
  destruct s; cbn [negb] in H; [|inversion H; subst; now left].
  right. unfold process_apk_from_step_6 in H.
  (* 6. the patch *)
  apply bind_returns in H as (l3 & w3 & H3 & H).
  assert (T3 : trace w3 = trace w2 ++
                 ticked "mitm_patch" [EvProgress 0.5 "Applying MITM patch..."]).
  { unfold ticked. destruct (PyStr.mem "mitm_patch" decode_options).
    - apply bind_returns in H3 as ([] & wa & Ha & H3). apply progress_returns in Ha.
      apply bind_returns in H3 as ([[s3 o3] e3] & wb & Hb & H3).
      apply mitm_patch_trace in Hb. inversion H3; subst. now rewrite Hb.
    - inversion H3; subst. now rewrite app_nil_r. }
  (* 7. the analysis *)
  apply bind_returns in H as (l4 & w4 & H4 & H).
  assert (T4 : trace w4 = trace w3 ++
                 ticked "quark_analysis"
                   [EvProgress 0.6 "Analyzing with Quark-Engine...";
                    EvRun (quark_command apk_path project_dir) None]).
  { unfold ticked. destruct (PyStr.mem "quark_analysis" decode_options).
    - apply bind_returns in H4 as ([] & wa & Ha & H4). apply progress_returns in Ha.
      apply bind_returns in H4 as ([[s4 o4] e4] & wb & Hb & H4).
      unfold quark_analyze in Hb. fold (quark_command apk_path project_dir) in Hb.
      apply run_command_returns in Hb as [Hb _].
      inversion H4; subst. rewrite Hb, Ha. now rewrite <- app_assoc.
    - inversion H4; subst. now rewrite app_nil_r. }
  (* 8. the decompilation *)
  apply bind_returns in H as (l5 & w5 & H5 & H).
  assert (T5 : trace w5 = trace w4 ++
                 ticked "decompile_java"
                   [EvProgress 0.8 "Decompiling Java with JADX...";
                    EvRun (jadx_command env apk_path project_dir jadx_opts)
                          (Some project_dir)]).
  { unfold ticked. destruct (PyStr.mem "decompile_java" decode_options).
    - apply bind_returns in H5 as ([] & wa & Ha & H5). apply progress_returns in Ha.
      apply bind_returns in H5 as ([[s5 o5] e5] & wb & Hb & H5).
      unfold jadx_decompile in Hb.
      fold (jadx_command env apk_path project_dir jadx_opts) in Hb.
      apply run_command_returns in Hb as [Hb _].
      inversion H5; subst. rewrite Hb, Ha. now rewrite <- app_assoc.
    - inversion H5; subst. now rewrite app_nil_r. }
  (* 9 and 10. the archive and the clean-up *)
  apply bind_returns in H as ([] & w6 & H6 & H). apply progress_returns in H6.
  apply bind_returns in H as (p & w7 & H7 & H). apply create_zip_trace in H7.
  apply bind_returns in H as ([] & w8 & H8 & H).
  apply fs_call_returns in H8 as [_ H8].
  inversion H; subst. split; [reflexivity|].
  rewrite H8. cbn [trace set_fs]. rewrite H7, H6, T5, T4, T3, T2.
  now rewrite <- !app_assoc.
Qed.

(** The sample decode with the three stages ticked in another order. *)
Lemma decode_runs_the_ticked_stages_witness :
  let env := Sample.env 0 0 0 0 0 in
  let project_dir := TEMP_DIR env ++ ["sample-decompiled-0a1b2c3d"] in
  let run :=
    process_apk_from_step_5 env "/uploads/sample.apk" "sample" project_dir [] []
      ["decompile_java"; "quark_analysis"; "mitm_patch"] [] sample_decode_world in
  trace (snd run) =
    [EvProgress 0.2 "Decompiling with Apktool...";
     EvRun (decode_command env "/uploads/sample.apk" project_dir []) None;
     EvProgress 0.5 "Applying MITM patch...";
     EvProgress 0.6 "Analyzing with Quark-Engine...";
     EvRun (quark_command "/uploads/sample.apk" project_dir) None;
     EvProgress 0.8 "Decompiling Java with JADX...";
     EvRun (jadx_command env "/uploads/sample.apk" project_dir []) (Some project_dir);
     EvProgress 0.95 "Creating ZIP archive..."].
Proof.
  intros env project_dir run.
  assert (Hrun : exists button log, run = (Ret (success_status, button, log), snd run)).
  { do 2 eexists. vm_compute. reflexivity. }
  destruct Hrun as (button & log & Hrun).
  destruct (@decode_runs_the_ticked_stages env "/uploads/sample.apk" "sample" project_dir
              [] [] ["decompile_java"; "quark_analysis"; "mitm_patch"] []
              sample_decode_world (snd run) success_status button log Hrun)
    as [[Hs _]|[_ T]].
  - discriminate.
  - exact T.
Defined.
